(** * IFTMIN decoder: a shallow embedding of [streamlit_app.py]

    The decoder core of the application (tokenizer, header, counts, party,
    shipment and item extractors) is embedded as Rocq functions, and the
    properties of its specification are settled against it.

    Modelling conventions.
    - A Python [str] is a [string]; one [ascii] stands for one code point,
      so the model covers texts whose code points are below 256.  On that
      range the Unicode tables used by the built-ins are fixed: the decimal
      digits are ['0'..'9'], the white space of [str.strip] is listed in
      [Py.isspace].
    - A Python [dict] is a [gmap] keyed by strings; [None] stored in a dict
      is a value of its own, distinct from a missing key.
    - A [float] is a binary64 number, as a [spec_float] with precision 53
      and maximal exponent 1024.
    - Code that can raise returns a [result]. *)

From Stdlib Require Import ZArith String Ascii List Bool Lia.
From Stdlib Require Import Floats.SpecFloat.
From stdpp Require Import base gmap list strings.

Open Scope string_scope.
Open Scope list_scope.

(** ** Exceptions *)

Inductive exn : Type :=
  | ValueError
  | OverflowError.

Inductive result (A : Type) : Type :=
  | Ok (a : A)
  | Raise (e : exn).

Arguments Ok {A} a.
Arguments Raise {A} e.

Definition bind {A B : Type} (r : result A) (k : A -> result B) : result B :=
  match r with
  | Ok a => k a
  | Raise e => Raise e
  end.

Notation "'try!' x := r 'in' k" := (bind r (fun x => k))
  (at level 10, x name, r at level 100, k at level 200).

(** ** Python string built-ins *)

Definition NUL : ascii := ascii_of_nat 0.
Definition LF : ascii := ascii_of_nat 10.
Definition CR : ascii := ascii_of_nat 13.

Module Py.

(** [s.split(sep)] for a one-character separator: never empty. *)
Fixpoint split (sep : ascii) (s : string) : list string :=
  match s with
  | EmptyString => [EmptyString]
  | String c rest =>
      if Ascii.eqb c sep then EmptyString :: split sep rest
      else match split sep rest with
           | [] => [String c EmptyString]
           | w :: ws => String c w :: ws
           end
  end.

(** [sep.join(l)] *)
Fixpoint join (sep : string) (l : list string) : string :=
  match l with
  | [] => EmptyString
  | [x] => x
  | x :: rest => x +:+ sep +:+ join sep rest
  end.

(** [c in s] for a one-character needle *)
Fixpoint contains (c : ascii) (s : string) : bool :=
  match s with
  | EmptyString => false
  | String d rest => Ascii.eqb d c || contains c rest
  end.

(** [s.split(sep, 1)] under the guard [sep in s]: the text before the first
    separator and the text after it. *)
Fixpoint split_first (sep : ascii) (s : string) : string * string :=
  match s with
  | EmptyString => (EmptyString, EmptyString)
  | String c rest =>
      if Ascii.eqb c sep then (EmptyString, rest)
      else let '(a, b) := split_first sep rest in (String c a, b)
  end.

(** [s.startswith(p)] *)
Fixpoint startswith (p s : string) : bool :=
  match p with
  | EmptyString => true
  | String a p' =>
      match s with
      | String b s' => Ascii.eqb a b && startswith p' s'
      | EmptyString => false
      end
  end.

#[global] Arguments startswith : simpl never.

(** [s[n:]] *)
Fixpoint drop (n : nat) (s : string) : string :=
  match n, s with
  | O, _ => s
  | S n', String _ rest => drop n' rest
  | S _, EmptyString => EmptyString
  end.

(** [s.replace(c, "")] *)
Fixpoint remove (c : ascii) (s : string) : string :=
  match s with
  | EmptyString => EmptyString
  | String d rest => if Ascii.eqb d c then remove c rest else String d (remove c rest)
  end.

(** [s.replace(c, d)] for one-character [c] and [d] *)
Fixpoint replace (c d : ascii) (s : string) : string :=
  match s with
  | EmptyString => EmptyString
  | String x rest => String (if Ascii.eqb x c then d else x) (replace c d rest)
  end.

Fixpoint lstrip_with (p : ascii -> bool) (s : string) : string :=
  match s with
  | EmptyString => EmptyString
  | String c rest => if p c then lstrip_with p rest else s
  end.

Fixpoint rstrip_with (p : ascii -> bool) (s : string) : string :=
  match s with
  | EmptyString => EmptyString
  | String c rest =>
      match rstrip_with p rest with
      | EmptyString => if p c then EmptyString else String c EmptyString
      | r => String c r
      end
  end.

Definition strip_with (p : ascii -> bool) (s : string) : string :=
  rstrip_with p (lstrip_with p s).

(** White space of [str.strip()] and [str.isspace()] below code point 256. *)
Definition isspace (c : ascii) : bool :=
  let n := nat_of_ascii c in
  (Nat.leb 9 n && Nat.leb n 13) || (Nat.leb 28 n && Nat.leb n 32)
  || Nat.eqb n 133 || Nat.eqb n 160.

(** [s.strip()] *)
Definition strip (s : string) : string := strip_with isspace s.

(** [s.strip(chars)] *)
Definition strip_chars (chars : string) (s : string) : string :=
  strip_with (fun c => contains c chars) s.

(** truth value of a string *)
Definition truthy (s : string) : bool :=
  match s with EmptyString => false | _ => true end.

Definition isdigit (c : ascii) : bool :=
  let n := nat_of_ascii c in Nat.leb 48 n && Nat.leb n 57.

Definition digit_val (c : ascii) : Z := Z.of_nat (nat_of_ascii c) - 48.

(** [l[i] if len(l) > i else d] *)
Definition get_or {A : Type} (l : list A) (i : nat) (d : A) : A :=
  match l !! i with
  | Some x => x
  | None => d
  end.

(** [l[start:stop]] for [0 <= start] and [0 <= stop] *)
Definition slice {A : Type} (l : list A) (start stop : nat) : list A :=
  take (stop - start) (list.drop start l).

End Py.

(** ** Tokenizer *)

Definition SEG_SEP : ascii := "'"%char.
Definition COMP_SEP : ascii := "+"%char.
Definition SUB_SEP : ascii := ":"%char.


Definition segment : Type := string * list string.

Definition tag_of (s : segment) : string := fst s.
Definition elems_of (s : segment) : list string := snd s.

(** The loop of [split_segments] over the non-empty parts: the first chunk,
    stripped, is the tag and the other chunks are the elements.  A split
    is never empty, so [chunks[0]] exists. *)
Fixpoint segs_of_parts (parts : list string) : list segment :=
  match parts with
  | [] => []
  | p :: rest =>
      if negb (Py.truthy p) then segs_of_parts rest
      else
        match Py.split COMP_SEP p with
        | [] => segs_of_parts rest
        | chunk0 :: chunks => (Py.strip chunk0, chunks) :: segs_of_parts rest
        end
  end.

(** [split_segments(text)]: line breaks are removed from the stripped
    text, which is cut at every segment terminator. *)
Definition split_segments (text : string) : list segment :=
  let raw := Py.remove CR (Py.remove LF (Py.strip text)) in
  let parts := List.filter Py.truthy (Py.split SEG_SEP raw) in
  segs_of_parts parts.

(** ** Shipment grouper *)

Definition is_tag (t : string) (s : segment) : bool := String.eqb (tag_of s) t.

(** [[i for i, (t, _) in enumerate(segments) if t == "GID"]], counting
    from [i]. *)
Fixpoint gid_idxs (i : nat) (segs : list segment) : list nat :=
  match segs with
  | [] => []
  | s :: rest =>
      if is_tag "GID" s then i :: gid_idxs (S i) rest else gid_idxs (S i) rest
  end.

(** The loop over [enumerate(idxs)]: the group of [start] ends at the next
    index, or at the end of the sequence for the last one. *)
Fixpoint groups_loop (segs : list segment) (idxs : list nat) : list (list segment) :=
  match idxs with
  | [] => []
  | start :: rest =>
      let stop := match rest with
                  | next :: _ => next
                  | [] => length segs
                  end in
      Py.slice segs start stop :: groups_loop segs rest
  end.

(** [_shipment_groups()]: an empty list when there is no index. *)
Definition _shipment_groups (segs : list segment) : list (list segment) :=
  groups_loop segs (gid_idxs 0 segs).

(** ** Floats: [float(str)], [int(float)], [_to_float] *)

Module PyFloat.

Definition prec : Z := 53.
Definition emax : Z := 1024.

(** The binary64 number nearest (ties to even) to [m * 10 ^ e10], with the
    sign [neg]; too large a value gives an infinity, as [float()] does. *)
Definition of_decimal (neg : bool) (m : Z) (e10 : Z) : spec_float :=
  match m with
  | Zpos p =>
      if (0 <=? e10)%Z then
        match (Zpos p * 10 ^ e10)%Z with
        | Zpos n => binary_round prec emax neg n 0
        | _ => S754_zero neg
        end
      else
        let '(q, e, l) := SFdiv_core_binary prec emax (Zpos p) 0 (10 ^ (- e10)) 0 in
        binary_round_aux prec emax neg q e l
  | _ => S754_zero neg
  end.

(** White space skipped by [float()] around the numeral. *)
Definition isspace (c : ascii) : bool :=
  let n := nat_of_ascii c in
  (Nat.leb 9 n && Nat.leb n 13) || Nat.eqb n 32 || Nat.eqb n 133 || Nat.eqb n 160.

(** Underscores are dropped when each stands between two digits; any
    other underscore makes the text invalid.  [prev] is the character
    before [s]. *)
Fixpoint drop_underscores (prev : ascii) (s : string) : option string :=
  match s with
  | EmptyString => if Ascii.eqb prev "_" then None else Some EmptyString
  | String c rest =>
      if Ascii.eqb c "_" then
        if Py.isdigit prev then drop_underscores c rest else None
      else if Ascii.eqb prev "_" && negb (Py.isdigit c) then None
      else option_map (String c) (drop_underscores c rest)
  end.

Fixpoint span_digits (s : string) : list ascii * string :=
  match s with
  | String c rest =>
      if Py.isdigit c then let '(ds, r) := span_digits rest in (c :: ds, r)
      else ([], s)
  | EmptyString => ([], EmptyString)
  end.

Definition digits_value (ds : list ascii) : Z :=
  fold_left (fun acc c => (10 * acc + Py.digit_val c)%Z) ds 0%Z.

Definition lower (c : ascii) : ascii :=
  let n := nat_of_ascii c in
  if Nat.leb 65 n && Nat.leb n 90 then ascii_of_nat (n + 32) else c.

Fixpoint lower_string (s : string) : string :=
  match s with
  | EmptyString => EmptyString
  | String c rest => String (lower c) (lower_string rest)
  end.

Definition parse_sign (s : string) : bool * string :=
  match s with
  | String "-" rest => (true, rest)
  | String "+" rest => (false, rest)
  | _ => (false, s)
  end.

(** The exponent part: [e] or [E], an optional sign and at least one
    digit; a malformed exponent is left unread. *)
Definition parse_exponent (s : string) : Z * string :=
  match s with
  | String c rest =>
      if Ascii.eqb c "e" || Ascii.eqb c "E" then
        let '(neg, r1) := parse_sign rest in
        match span_digits r1 with
        | ([], _) => (0%Z, s)
        | (ds, r2) => ((if neg then - digits_value ds else digits_value ds)%Z, r2)
        end
      else (0%Z, s)
  | EmptyString => (0%Z, s)
  end.

(** The numeral proper, white space and underscores already removed. *)
Definition parse_numeral (s : string) : option spec_float :=
  let '(neg, body) := parse_sign s in
  let low := lower_string body in
  if String.eqb low "inf" || String.eqb low "infinity" then Some (S754_infinity neg)
  else if String.eqb low "nan" then Some S754_nan
  else
    let '(ip, r1) := span_digits body in
    let '(fp, r2) :=
      match r1 with
      | String "." r => span_digits r
      | _ => ([], r1)
      end in
    match (ip ++ fp) with
    | [] => None
    | ds =>
        let '(ex, r3) := parse_exponent r2 in
        match r3 with
        | EmptyString =>
            Some (of_decimal neg (digits_value ds) (ex - Z.of_nat (length fp)))
        | _ => None
        end
    end.

(** [float(s)] *)
Definition float (s : string) : result spec_float :=
  let body :=
    if Py.contains "_" s then drop_underscores NUL s else Some s in
  match body with
  | None => Raise ValueError
  | Some b =>
      match parse_numeral (Py.strip_with isspace b) with
      | Some f => Ok f
      | None => Raise ValueError
      end
  end.

(** [int(x)] for a float [x]: truncation towards zero. *)
Definition int (x : spec_float) : result Z :=
  match x with
  | S754_zero _ => Ok 0%Z
  | S754_infinity _ => Raise OverflowError
  | S754_nan => Raise ValueError
  | S754_finite s m e =>
      let a := match e with
               | Zneg k => Z.shiftr (Zpos m) (Zpos k)
               | _ => Z.shiftl (Zpos m) e
               end in
      Ok (if s then - a else a)%Z
  end.

(** truth value of a float: [x != 0] *)
Definition truthy (x : spec_float) : bool :=
  match x with
  | S754_zero _ => false
  | _ => true
  end.

End PyFloat.

(** [DECIMAL_COMMA.sub(".", val)]: a comma standing between two digits
    becomes a dot; [prev] is the character before [s]. *)
Fixpoint decimal_comma_sub (prev : ascii) (s : string) : string :=
  match s with
  | EmptyString => EmptyString
  | String c rest =>
      let next_digit := match rest with
                        | String d _ => Py.isdigit d
                        | EmptyString => false
                        end in
      String (if Ascii.eqb c "," && Py.isdigit prev && next_digit then "."%char else c)
             (decimal_comma_sub c rest)
  end.

(** [_to_float(val)]: [None] for [None], for the empty string and when
    [float()] raises. *)
Definition _to_float (val : option string) : option spec_float :=
  match val with
  | None => None
  | Some v =>
      if negb (Py.truthy v) then None
      else
        match PyFloat.float (decimal_comma_sub NUL v) with
        | Ok f => Some f
        | Raise _ => None
        end
  end.

(** ** Dates: [datetime.strptime] and [strftime] *)

Module PyDate.

Record datetime : Type := mk_datetime {
  year : Z; month : Z; day : Z; hour : Z; minute : Z; second : Z
}.

(** The directives the decoder uses: [%Y %y %m %d %H %M %S]. *)
Inductive directive : Type := DY | Dy | Dm | Dd | DH | DM | DS.

Definition cls : Type := ascii -> bool.

Definition chr (x : ascii) : cls := Ascii.eqb x.

Definition rng (lo hi : ascii) : cls :=
  fun c => Nat.leb (nat_of_ascii lo) (nat_of_ascii c)
           && Nat.leb (nat_of_ascii c) (nat_of_ascii hi).

Definition dig : cls := Py.isdigit.

(** The regular expression of each directive, as [_strptime.py] has it:
    a list of alternatives in priority order, each a list of character
    classes.  [%d] is [3[0-1]|[1-2]\d|0[1-9]|[1-9]| [1-9]]. *)
Definition regex_of (d : directive) : list (list cls) :=
  match d with
  | DY => [[dig; dig; dig; dig]]
  | Dy => [[dig; dig]]
  | Dm => [[chr "1"; rng "0" "2"]; [chr "0"; rng "1" "9"]; [rng "1" "9"]]
  | Dd => [[chr "3"; rng "0" "1"]; [rng "1" "2"; dig]; [chr "0"; rng "1" "9"];
           [rng "1" "9"]; [chr " "; rng "1" "9"]]
  | DH => [[chr "2"; rng "0" "3"]; [rng "0" "1"; dig]; [dig]]
  | DM => [[rng "0" "5"; dig]; [dig]]
  | DS => [[chr "6"; rng "0" "1"]; [rng "0" "5"; dig]; [dig]]
  end.

(** One alternative against the head of the text: the characters read and
    the rest. *)
Fixpoint match_alt (a : list cls) (s : string) : option (list ascii * string) :=
  match a with
  | [] => Some ([], s)
  | p :: a' =>
      match s with
      | String c rest =>
          if p c then
            match match_alt a' rest with
            | Some (cs, r) => Some (c :: cs, r)
            | None => None
            end
          else None
      | EmptyString => None
      end
  end.

Fixpoint first_some {A B : Type} (f : A -> option B) (l : list A) : option B :=
  match l with
  | [] => None
  | x :: rest =>
      match f x with
      | Some y => Some y
      | None => first_some f rest
      end
  end.

(** [format_regex.match(data_string)]: the groups of the first match in
    the backtracking order of the alternatives, and the unread text. *)
Fixpoint match_format (fmt : list directive) (s : string)
  : option (list (directive * list ascii) * string) :=
  match fmt with
  | [] => Some ([], s)
  | d :: ds =>
      first_some
        (fun a =>
           match match_alt a s with
           | Some (txt, rest) =>
               match match_format ds rest with
               | Some (groups, r) => Some ((d, txt) :: groups, r)
               | None => None
               end
           | None => None
           end)
        (regex_of d)
  end.

(** [int(text)] of a matched group: digits, after an optional blank. *)
Definition int_of_group (txt : list ascii) : Z :=
  PyFloat.digits_value (List.filter Py.isdigit txt).

Definition set_group (dt : datetime) (g : directive * list ascii) : datetime :=
  let v := int_of_group (snd g) in
  match fst g with
  | DY => mk_datetime v (month dt) (day dt) (hour dt) (minute dt) (second dt)
  | Dy => mk_datetime (if (v <=? 68)%Z then v + 2000 else v + 1900)%Z
            (month dt) (day dt) (hour dt) (minute dt) (second dt)
  | Dm => mk_datetime (year dt) v (day dt) (hour dt) (minute dt) (second dt)
  | Dd => mk_datetime (year dt) (month dt) v (hour dt) (minute dt) (second dt)
  | DH => mk_datetime (year dt) (month dt) (day dt) v (minute dt) (second dt)
  | DM => mk_datetime (year dt) (month dt) (day dt) (hour dt) v (second dt)
  | DS => mk_datetime (year dt) (month dt) (day dt) (hour dt) (minute dt) v
  end.

Definition is_leap (y : Z) : bool :=
  ((y mod 4 =? 0) && (negb (y mod 100 =? 0) || (y mod 400 =? 0)))%Z.

Definition days_in_month (y m : Z) : Z :=
  if (m =? 2)%Z then (if is_leap y then 29 else 28)%Z
  else if ((m =? 4) || (m =? 6) || (m =? 9) || (m =? 11))%Z then 30%Z
  else 31%Z.

(** The range checks of the [date] and [datetime] constructors. *)
Definition valid (dt : datetime) : bool :=
  ((1 <=? year dt) && (year dt <=? 9999)
   && (1 <=? month dt) && (month dt <=? 12)
   && (1 <=? day dt) && (day dt <=? days_in_month (year dt) (month dt))
   && (0 <=? hour dt) && (hour dt <=? 23)
   && (0 <=? minute dt) && (minute dt <=? 59)
   && (0 <=? second dt) && (second dt <=? 59))%Z.

(** [datetime.strptime(s, fmt)] *)
Definition strptime (s : string) (fmt : list directive) : result datetime :=
  match match_format fmt s with
  | None => Raise ValueError
  | Some (groups, rest) =>
      if Py.truthy rest then Raise ValueError
      else
        let dt := fold_left set_group groups (mk_datetime 1900 1 1 0 0 0) in
        if valid dt then Ok dt else Raise ValueError
  end.

Definition digit_char (n : Z) : ascii := ascii_of_nat (Z.to_nat (n mod 10) + 48).

Definition pad2 (n : Z) : string :=
  String (digit_char (n / 10)) (String (digit_char n) EmptyString).

Definition pad4 (n : Z) : string :=
  String (digit_char (n / 1000)) (String (digit_char (n / 100))
    (String (digit_char (n / 10)) (String (digit_char n) EmptyString))).

(** [%Y] of [strftime] is left to the C library: years from 1000 on are
    written with their four digits everywhere, smaller years are padded
    with zeros on some platforms and not on others. *)
Definition year_4digit (fy : Z -> string) : Prop :=
  forall y, (1000 <= y <= 9999)%Z -> fy y = pad4 y.

Definition year_padded (y : Z) : string := pad4 y.

Definition year_plain (y : Z) : string :=
  Py.lstrip_with (Ascii.eqb "0") (pad4 y).

Section Strftime.

Variable fy : Z -> string.

(** [dt.strftime("%Y-%m-%d")] *)
Definition strftime_date (dt : datetime) : string :=
  fy (year dt) +:+ "-" +:+ pad2 (month dt) +:+ "-" +:+ pad2 (day dt).

(** [dt.strftime("%Y-%m-%d %H:%M")] *)
Definition strftime_minutes (dt : datetime) : string :=
  strftime_date dt +:+ " " +:+ pad2 (hour dt) +:+ ":" +:+ pad2 (minute dt).

(** [dt.strftime("%Y-%m-%d %H:%M:%S")] *)
Definition strftime_seconds (dt : datetime) : string :=
  strftime_minutes dt +:+ ":" +:+ pad2 (second dt).

End Strftime.

End PyDate.

Section Decoder.

(** The rendering of [%Y] by the platform's [strftime]. *)
Variable fy : Z -> string.

(** [_dtm(value, fmt_code)]: the three guarded returns stand in a [try]
    whose handler passes, so that a failure falls through to the final
    [return value]. *)
Definition _dtm (value fmt_code : string) : string :=
  let attempt : result string :=
    if String.eqb fmt_code "203" && Nat.eqb (String.length value) 12 then
      try! dt := PyDate.strptime value [PyDate.DY; PyDate.Dm; PyDate.Dd; PyDate.DH; PyDate.DM] in
      Ok (PyDate.strftime_minutes fy dt)
    else if String.eqb fmt_code "204" && Nat.eqb (String.length value) 14 then
      try! dt := PyDate.strptime value
                   [PyDate.DY; PyDate.Dm; PyDate.Dd; PyDate.DH; PyDate.DM; PyDate.DS] in
      Ok (PyDate.strftime_seconds fy dt)
    else if String.eqb fmt_code "102" && Nat.eqb (String.length value) 8 then
      try! dt := PyDate.strptime value [PyDate.DY; PyDate.Dm; PyDate.Dd] in
      Ok (PyDate.strftime_date fy dt)
    else Ok value in
  match attempt with
  | Ok s => s
  | Raise _ => value
  end.

(** ** Header decoder *)

(** [l[0]] of a split, which is never empty *)
Definition head_or_empty (l : list string) : string :=
  match l with
  | x :: _ => x
  | [] => EmptyString
  end.

(** The body of the loop of [header()], one branch per tag. *)
Definition header_step (data : gmap string string) (seg : segment) : gmap string string :=
  let '(tag, elems) := seg in
  if String.eqb tag "UNB" then
    let data := <["syntax" := Py.get_or elems 0 ""]> data in
    let snd := Py.get_or elems 1 "" in
    let rcv := Py.get_or elems 2 "" in
    let dt := Py.get_or elems 3 "" in
    let ctrl := Py.get_or elems 4 "" in
    let data := <["sender" := head_or_empty (Py.split SUB_SEP snd)]> data in
    let data := <["receiver" := head_or_empty (Py.split SUB_SEP rcv)]> data in
    let data :=
      if Py.truthy dt && Py.contains ":" dt then
        let '(d, t) := Py.split_first ":" dt in
        match PyDate.strptime (d +:+ t)
                [PyDate.Dy; PyDate.Dm; PyDate.Dd; PyDate.DH; PyDate.DM] with
        | Ok parsed => <["interchange_datetime" := PyDate.strftime_minutes fy parsed]> data
        | Raise _ => <["interchange_datetime" := dt]> data
        end
      else data in
    <["interchange_control" := ctrl]> data
  else if String.eqb tag "UNH" then
    let data := <["message_ref" := Py.get_or elems 0 ""]> data in
    <["message_type" := Py.get_or elems 1 ""]> data
  else if String.eqb tag "BGM" then
    let data := <["document_type" := Py.get_or elems 0 ""]> data in
    let data := <["manifest_number" := Py.get_or elems 1 ""]> data in
    <["msg_function" := Py.get_or elems 2 ""]> data
  else if String.eqb tag "DTM" then
    match elems with
    | [] => data
    | e0 :: _ =>
        match Py.split ":" e0 with
        | code :: value :: more =>
            let fmt := head_or_empty more in
            let key := if String.eqb code "9" then Some "message_datetime"
                       else if String.eqb code "10" then Some "shipment_date"
                       else None in
            match key with
            | Some k => <[k := _dtm value fmt]> data
            | None => data
            end
        | _ => data
        end
    end
  else if String.eqb tag "CUX" then
    match elems with
    | [] => data
    | e0 :: _ =>
        match Py.split ":" e0 with
        | _ :: p1 :: _ => <["currency" := p1]> data
        | _ => <["currency" := e0]> data
        end
    end
  else if String.eqb tag "TOD" then
    match elems with
    | _ :: e1 :: _ => <["terms" := e1]> data
    | _ => data
    end
  else if String.eqb tag "LOC" then
    match elems with
    | [] => data
    | e0 :: _ =>
        if String.eqb e0 "198+WTAM" then <["warehouse" := "WTAM"]> data
        else if Py.startswith "198" e0 then
          match Py.split "+" e0 with
          | _ :: tok1 :: _ => <["warehouse" := tok1]> data
          | _ => data
          end
        else data
    end
  else data.

(** [header()] *)
Definition header (segments : list segment) : gmap string string :=
  fold_left header_step segments ∅.

(** ** Counts decoder *)

(** Values stored by the counts decoder: an [int], a [float] or [None]. *)
Inductive count_value : Type :=
  | CInt (z : Z)
  | CFloat (f : spec_float)
  | CNone.

Definition float_or_none (o : option spec_float) : count_value :=
  match o with
  | Some f => CFloat f
  | None => CNone
  end.

(** [(composite.split(":") + [None])[:2]] unpacked into two names *)
Definition qual_and_value (composite : string) : string * option string :=
  match Py.split ":" composite with
  | q :: v :: _ => (q, Some v)
  | q :: [] => (q, None)
  | [] => (EmptyString, None)
  end.

(** [int(_to_float(val) or 0)] *)
Definition int_or_zero (val : option string) : result Z :=
  match _to_float val with
  | Some f => if PyFloat.truthy f then PyFloat.int f else Ok 0%Z
  | None => Ok 0%Z
  end.

(** The body of the loop of [counts_and_amounts()]. *)
Definition counts_step (out : gmap string count_value) (seg : segment)
  : result (gmap string count_value) :=
  let '(tag, elems) := seg in
  if String.eqb tag "CNT" then
    match elems with
    | [] => Ok out
    | e0 :: _ =>
        let '(qual, val) := qual_and_value e0 in
        if String.eqb qual "2" then
          try! n := int_or_zero val in Ok (<["line_count" := CInt n]> out)
        else if String.eqb qual "7" then
          Ok (<["total_gross_weight_kg" := float_or_none (_to_float val)]> out)
        else if String.eqb qual "8" then
          try! n := int_or_zero val in Ok (<["shipment_count" := CInt n]> out)
        else if String.eqb qual "12" then
          Ok (<["total_value_eur" := float_or_none (_to_float val)]> out)
        else Ok out
    end
  else Ok out.

(** A [for] loop whose body can raise. *)
Fixpoint for_each {S A : Type} (body : S -> A -> result S) (l : list A) (st : S)
  : result S :=
  match l with
  | [] => Ok st
  | x :: rest => try! st' := body st x in for_each body rest st'
  end.

(** [counts_and_amounts()] *)
Definition counts_and_amounts (segments : list segment)
  : result (gmap string count_value) :=
  for_each counts_step segments ∅.

(** ** Party decoder *)

(** A party record holds strings and, under ["refs"], a dict of strings. *)
Inductive party_value : Type :=
  | PStr (s : string)
  | PDict (m : gmap string string).

(** [parties.setdefault(key, {})] followed by a store into the dict found *)
Definition setdefault_store (key field : string) (v : party_value)
    (parties : gmap string (gmap string party_value))
  : gmap string (gmap string party_value) :=
  <[key := <[field := v]> (default ∅ (parties !! key))]> parties.

(** Every branch of the loop body asks for a non-empty element list, so
    the elements are inspected first. *)
Definition parties_step (st : gmap string (gmap string party_value) * option string)
    (seg : segment) : gmap string (gmap string party_value) * option string :=
  let '(parties, current_cta) := st in
  let '(tag, elems) := seg in
  match elems with
  | [] => st
  | e0 :: _ =>
      if String.eqb tag "NAD" then
        let qual := e0 in
        let rec : gmap string party_value :=
          <["country" := PStr (Py.get_or elems 8 "")]>
          (<["zip" := PStr (Py.get_or elems 7 "")]>
          (<["state" := PStr (Py.get_or elems 6 "")]>
          (<["city" := PStr (Py.get_or elems 5 "")]>
          (<["addr" := PStr (Py.replace ":" " " (Py.get_or elems 4 ""))]>
          (<["name" := PStr (Py.replace ":" " " (Py.get_or elems 3 ""))]>
          (<["party_id" := PStr (head_or_empty (Py.split ":" (Py.get_or elems 1 "")))]>
          (<["qualifier" := PStr qual]> ∅))))))) in
        (<[qual := rec]> parties, current_cta)
      else if String.eqb tag "CTA" then
        (setdefault_store "CTA" "role" (PStr e0) parties, Some e0)
      else if String.eqb tag "COM" then
        let tel := head_or_empty (Py.split ":" e0) in
        (setdefault_store "CTA" "tel" (PStr tel) parties, current_cta)
      else if String.eqb tag "RFF" && Py.startswith "VA:" e0 then
        let iv := default ∅ (parties !! "IV") in
        let refs := match iv !! "refs" with
                    | Some (PDict m) => m
                    | _ => ∅
                    end in
        (<["IV" := <["refs" := PDict (<["VAT" := Py.drop 3 e0]> refs)]> iv]> parties,
         current_cta)
      else st
  end.

(** [parties()] *)
Definition parties (segments : list segment) : gmap string (gmap string party_value) :=
  fst (fold_left parties_step segments (∅, None)).

(** ** Item extractor *)

(** Values of an item record: a string, a [float] or [None]. *)
Inductive item_value : Type :=
  | IStr (s : string)
  | IFloat (f : spec_float)
  | INone.

Definition ifloat (o : option spec_float) : item_value :=
  match o with
  | Some f => IFloat f
  | None => INone
  end.

Definition istr (o : option string) : item_value :=
  match o with
  | Some s => IStr s
  | None => INone
  end.

(** [fields[-k] if len(fields) >= k else None] *)
Definition from_end (fields : list string) (k : nat) : option string :=
  if Nat.leb k (length fields) then fields !! (length fields - k) else None.

(** The pending item built from the elements of an item-line segment. *)
Definition pending_of_pci (elems : list string) : gmap string item_value :=
  let comp := Py.join ":" elems in
  let fields := Py.split ":" comp in
  let unit_price := _to_float (from_end fields 2) in
  let qty := _to_float (from_end fields 4) in
  let uom := from_end fields 3 in
  <["unit_price_try" := ifloat unit_price]>
    (<["qty" := ifloat qty]> (<["uom" := istr uom]> ∅)).

(** The body of the loop of [_extract_items_from_pci]: the state is the
    list of items and the pending item.  Both branches ask for a non-empty
    element list. *)
Definition items_step
    (st : list (gmap string item_value) * option (gmap string item_value))
    (seg : segment)
  : list (gmap string item_value) * option (gmap string item_value) :=
  let '(items, pending_item) := st in
  let '(tag, elems) := seg in
  match elems with
  | [] => st
  | e0 :: _ =>
      if String.eqb tag "PCI" then (items, Some (pending_of_pci elems))
      else if String.eqb tag "RFF" && Py.startswith "VP:" e0 then
        let asin := Py.drop 3 e0 in
        let pending_item := default ∅ pending_item in
        (items ++ [<["asin" := IStr asin]> pending_item], None)
      else st
  end.

(** [_extract_items_from_pci(segs)] *)
Definition _extract_items_from_pci (segs : list segment) : list (gmap string item_value) :=
  fst (fold_left items_step segs ([], None)).

(** ** Shipment decoder *)

(** The record of a shipment: the keys of the dict, each with the type of
    the values it holds. *)
Record shipment : Type := mk_shipment {
  packages : option Z;
  mode : option string;
  destination_city : option string;
  destination_country : option string;
  route : option string;
  monetary : gmap string (option spec_float);
  terms : gmap string string;
  consignee : gmap string string;
  weights : gmap string (option spec_float);
  dimensions_cm : gmap string (option spec_float);
  dates : gmap string string;
  refs : gmap string string;
  items : list (gmap string item_value)
}.

Definition empty_record : shipment :=
  mk_shipment None None None None None ∅ ∅ ∅ ∅ ∅ ∅ ∅ [].

Definition set_packages (v : Z) (r : shipment) : shipment :=
  mk_shipment (Some v) (mode r) (destination_city r) (destination_country r) (route r)
    (monetary r) (terms r) (consignee r) (weights r) (dimensions_cm r) (dates r)
    (refs r) (items r).

Definition set_mode (v : string) (r : shipment) : shipment :=
  mk_shipment (packages r) (Some v) (destination_city r) (destination_country r) (route r)
    (monetary r) (terms r) (consignee r) (weights r) (dimensions_cm r) (dates r)
    (refs r) (items r).

Definition set_destination_city (v : string) (r : shipment) : shipment :=
  mk_shipment (packages r) (mode r) (Some v) (destination_country r) (route r)
    (monetary r) (terms r) (consignee r) (weights r) (dimensions_cm r) (dates r)
    (refs r) (items r).

Definition set_destination_country (v : string) (r : shipment) : shipment :=
  mk_shipment (packages r) (mode r) (destination_city r) (Some v) (route r)
    (monetary r) (terms r) (consignee r) (weights r) (dimensions_cm r) (dates r)
    (refs r) (items r).

Definition set_route (v : string) (r : shipment) : shipment :=
  mk_shipment (packages r) (mode r) (destination_city r) (destination_country r) (Some v)
    (monetary r) (terms r) (consignee r) (weights r) (dimensions_cm r) (dates r)
    (refs r) (items r).

Definition set_monetary (v : gmap string (option spec_float)) (r : shipment) : shipment :=
  mk_shipment (packages r) (mode r) (destination_city r) (destination_country r) (route r)
    v (terms r) (consignee r) (weights r) (dimensions_cm r) (dates r) (refs r) (items r).

Definition set_terms (v : gmap string string) (r : shipment) : shipment :=
  mk_shipment (packages r) (mode r) (destination_city r) (destination_country r) (route r)
    (monetary r) v (consignee r) (weights r) (dimensions_cm r) (dates r) (refs r) (items r).

Definition set_consignee (v : gmap string string) (r : shipment) : shipment :=
  mk_shipment (packages r) (mode r) (destination_city r) (destination_country r) (route r)
    (monetary r) (terms r) v (weights r) (dimensions_cm r) (dates r) (refs r) (items r).

Definition set_weights (v : gmap string (option spec_float)) (r : shipment) : shipment :=
  mk_shipment (packages r) (mode r) (destination_city r) (destination_country r) (route r)
    (monetary r) (terms r) (consignee r) v (dimensions_cm r) (dates r) (refs r) (items r).

Definition set_dimensions_cm (v : gmap string (option spec_float)) (r : shipment)
  : shipment :=
  mk_shipment (packages r) (mode r) (destination_city r) (destination_country r) (route r)
    (monetary r) (terms r) (consignee r) (weights r) v (dates r) (refs r) (items r).

Definition set_dates (v : gmap string string) (r : shipment) : shipment :=
  mk_shipment (packages r) (mode r) (destination_city r) (destination_country r) (route r)
    (monetary r) (terms r) (consignee r) (weights r) (dimensions_cm r) v (refs r) (items r).

Definition set_refs (v : gmap string string) (r : shipment) : shipment :=
  mk_shipment (packages r) (mode r) (destination_city r) (destination_country r) (route r)
    (monetary r) (terms r) (consignee r) (weights r) (dimensions_cm r) (dates r) v (items r).

Definition set_items (v : list (gmap string item_value)) (r : shipment) : shipment :=
  mk_shipment (packages r) (mode r) (destination_city r) (destination_country r) (route r)
    (monetary r) (terms r) (consignee r) (weights r) (dimensions_cm r) (dates r) (refs r) v.

(** [l[-1]] of a non-empty list *)
Definition last_or_empty (l : list string) : string := List.last l EmptyString.

(** The consignee dict built from the elements of a [NAD+CN] segment. *)
Definition consignee_of (elems : list string) : gmap string string :=
  let name := Py.get_or elems 2 "" in
  let name2 := Py.get_or elems 3 "" in
  let street := Py.replace ":" " " (Py.get_or elems 4 "") in
  let city := Py.get_or elems 5 "" in
  let state := Py.get_or elems 6 "" in
  let zip_code := Py.get_or elems 7 "" in
  let country := Py.get_or elems 8 "" in
  <["country" := country]>
  (<["zip" := zip_code]>
  (<["state" := state]>
  (<["city" := city]>
  (<["street" := street]>
  (<["name" := Py.strip_chars "+ " (name +:+ (if Py.truthy name2 then " " +:+ name2 else ""))]>
     ∅))))).

(** [unit, val = last.split(":")]: exactly two parts, or [ValueError]. *)
Definition unpack_two (l : list string) : result (string * string) :=
  match l with
  | [a; b] => Ok (a, b)
  | _ => Raise ValueError
  end.

(** The weight stored by a [MEA] segment under the key [key]. *)
Definition mea_store (key : string) (elems : list string) (record : shipment)
  : result shipment :=
  let last := last_or_empty elems in
  if Py.contains ":" last then
    try! uv := unpack_two (Py.split ":" last) in
    Ok (set_weights (<[key := _to_float (Some (snd uv))]> (weights record)) record)
  else Ok record.

(** The body of the inner loop of [shipments()], one branch per tag;
    every branch asks for a non-empty element list. *)
Definition shipment_step (record : shipment) (seg : segment) : result shipment :=
  let '(tag, elems) := seg in
  match elems with
  | [] => Ok record
  | e0 :: _ =>
      if String.eqb tag "GID" then
        match elems with
        | _ :: e1 :: _ =>
            if Py.contains ":" e1 then
              let qty := head_or_empty (Py.split ":" e1) in
              try! x := PyFloat.float qty in
              try! n := PyFloat.int x in
              Ok (set_packages n record)
            else Ok record
        | _ => Ok record
        end
      else if String.eqb tag "TMD" then
        Ok (set_mode (last_or_empty (Py.split ":" e0)) record)
      else if String.eqb tag "LOC" then
        let first := e0 in
        if Py.startswith "7+" first || Py.startswith "7" first then
          Ok (set_destination_city (last_or_empty (Py.split "+" first)) record)
        else if Py.startswith "25+" first || Py.startswith "25" first then
          Ok (set_destination_country (last_or_empty (Py.split "+" first)) record)
        else if Py.startswith "193+" first || Py.startswith "193" first then
          Ok (set_route (last_or_empty (Py.split "+" first)) record)
        else Ok record
      else if String.eqb tag "MOA" then
        let '(qual, amt) := qual_and_value e0 in
        Ok (set_monetary (<[qual := _to_float amt]> (monetary record)) record)
      else if String.eqb tag "FTX" then
        if String.eqb e0 "AAR" then
          Ok (set_terms (<["delivery_terms" := Py.strip (Py.get_or elems 2 "")]>
                           (terms record)) record)
        else if String.eqb e0 "AAH" then
          Ok (set_terms (<["reason_for_export" := Py.strip (Py.get_or elems 2 "")]>
                           (terms record)) record)
        else Ok record
      else if String.eqb tag "NAD" && String.eqb e0 "CN" then
        Ok (set_consignee (consignee_of elems) record)
      else if String.eqb tag "MEA" then
        if String.eqb e0 "WT" then mea_store "gross_kg" elems record
        else if String.eqb e0 "WX" then mea_store "declared_kg" elems record
        else Ok record
      else if String.eqb tag "DIM" then
        let comp := Py.get_or elems 1 "" in
        let parts := if Py.truthy comp then Py.split ":" comp else [] in
        match parts with
        | _ :: p1 :: p2 :: p3 :: _ =>
            Ok (set_dimensions_cm
                  (<["height" := _to_float (Some p3)]>
                     (<["width" := _to_float (Some p2)]>
                        (<["length" := _to_float (Some p1)]> ∅))) record)
        | _ => Ok record
        end
      else if String.eqb tag "DTM" then
        match Py.split ":" e0 with
        | code :: value :: more =>
            let fmt := head_or_empty more in
            let key := if String.eqb code "17" then Some "scheduled_delivery"
                       else if String.eqb code "200" then Some "pickup_time"
                       else if String.eqb code "3" then Some "invoice_date"
                       else None in
            match key with
            | Some k => Ok (set_dates (<[k := _dtm value fmt]> (dates record)) record)
            | None => Ok record
            end
        | _ => Ok record
        end
      else if String.eqb tag "RFF" then
        if Py.startswith "CR:" e0 then
          Ok (set_refs (<["tracking" := Py.drop 3 e0]> (refs record)) record)
        else if Py.startswith "TB:" e0 then
          Ok (set_refs (<["order_id" := Py.drop 3 e0]> (refs record)) record)
        else if Py.startswith "TE:" e0 then
          Ok (set_refs (<["phone" := Py.drop 3 e0]> (refs record)) record)
        else Ok record
      else Ok record
  end.

(** The record of one group: the loop over its segments, then the items. *)
Definition shipment_of_group (group : list segment) : result shipment :=
  try! record := for_each shipment_step group empty_record in
  Ok (set_items (_extract_items_from_pci group) record).

(** The outer loop of [shipments()] over the groups. *)
Fixpoint shipments_loop (groups : list (list segment)) (acc : list shipment)
  : result (list shipment) :=
  match groups with
  | [] => Ok acc
  | group :: rest =>
      try! record := shipment_of_group group in
      shipments_loop rest (acc ++ [record])
  end.

(** [shipments()] *)
Definition shipments (segments : list segment) : result (list shipment) :=
  shipments_loop (_shipment_groups segments) [].

End Decoder.

(** ** Reading aids for the statements *)

(** Number of grouping segments of a sequence. *)
Definition gid_count (segs : list segment) : nat :=
  length (List.filter (is_tag "GID") segs).

(** The segments before the first grouping segment, and those from it on. *)
Fixpoint until_gid (segs : list segment) : list segment :=
  match segs with
  | [] => []
  | s :: rest => if is_tag "GID" s then [] else s :: until_gid rest
  end.

Fixpoint from_gid (segs : list segment) : list segment :=
  match segs with
  | [] => []
  | s :: rest => if is_tag "GID" s then segs else from_gid rest
  end.

(** A slice that opens with a grouping segment and holds no other one. *)
Definition anchored_group (g : list segment) : Prop :=
  exists s rest, g = s :: rest /\ is_tag "GID" s = true /\ gid_count rest = 0.

(** The groups read off the sequence directly: every grouping segment
    opens a group that runs up to the next one. *)
Fixpoint groups_by_scan (segs : list segment) : list (list segment) :=
  match segs with
  | [] => []
  | s :: rest =>
      if is_tag "GID" s then (s :: until_gid rest) :: groups_by_scan rest
      else groups_by_scan rest
  end.

(** No element of a tokenized segment holds the element separator. *)
Definition plus_free (seg : segment) : Prop :=
  Forall (fun e => Py.contains COMP_SEP e = false) (elems_of seg).

(** An item line: a [PCI] segment that carries elements. *)
Definition is_item_line (s : segment) : bool :=
  is_tag "PCI" s && match elems_of s with [] => false | _ => true end.

(** A product reference: a [RFF] segment whose first element opens with
    the qualifier [VP] and the sub-element separator. *)
Definition is_product_ref (s : segment) : bool :=
  is_tag "RFF" s
  && match elems_of s with
     | e0 :: _ => Py.startswith "VP:" e0
     | [] => false
     end.

(** The state of the loop of [_extract_items_from_pci] after [segs]. *)
Definition items_run (segs : list segment)
    (st : list (gmap string item_value) * option (gmap string item_value))
  : list (gmap string item_value) * option (gmap string item_value) :=
  fold_left items_step segs st.

(** The two, and the four, decimal digits of a number. *)
Definition chars2 (v : Z) : list ascii :=
  [PyDate.digit_char (v / 10); PyDate.digit_char v].

Definition chars4 (v : Z) : list ascii :=
  [PyDate.digit_char (v / 1000); PyDate.digit_char (v / 100);
   PyDate.digit_char (v / 10); PyDate.digit_char v].

(** The values a two-digit directive accepts in its two-digit form. *)
Definition two_digit_range (d : PyDate.directive) (v : Z) : Prop :=
  match d with
  | PyDate.DY => False
  | PyDate.Dy => (0 <= v < 100)%Z
  | PyDate.Dm => (1 <= v < 13)%Z
  | PyDate.Dd => (1 <= v < 32)%Z
  | PyDate.DH => (0 <= v < 24)%Z
  | PyDate.DM => (0 <= v < 60)%Z
  | PyDate.DS => (0 <= v < 60)%Z
  end.

(** The directive [d] reads the two digits of [v] whatever follows, as
    long as the rest of the format matches the rest of the text. *)
Definition reads_two (d : PyDate.directive) (v : Z) : Prop :=
  forall ds rest g r,
    PyDate.match_format ds rest = Some (g, r) ->
    PyDate.match_format (d :: ds) (PyDate.pad2 v +:+ rest)
    = Some ((d, chars2 v) :: g, r).

(** A date of the calendar, and a time of the day. *)
Definition valid_date (y m d : Z) : Prop :=
  (1 <= y <= 9999 /\ 1 <= m <= 12 /\ 1 <= d <= PyDate.days_in_month y m)%Z.

Definition valid_time (H M S : Z) : Prop :=
  (0 <= H <= 23 /\ 0 <= M <= 59 /\ 0 <= S <= 59)%Z.

(** The format a code selects, and the length it requires. *)
Definition dtm_format (fmt_code : string) : option (nat * list PyDate.directive) :=
  if String.eqb fmt_code "203" then
    Some (12, [PyDate.DY; PyDate.Dm; PyDate.Dd; PyDate.DH; PyDate.DM])
  else if String.eqb fmt_code "204" then
    Some (14, [PyDate.DY; PyDate.Dm; PyDate.Dd; PyDate.DH; PyDate.DM; PyDate.DS])
  else if String.eqb fmt_code "102" then
    Some (8, [PyDate.DY; PyDate.Dm; PyDate.Dd])
  else None.

(** The value has not the length its format asks for, or it does not
    parse as a date of that format. *)
Definition mismatch_or_failure (value fmt_code : string) : Prop :=
  forall n ds, dtm_format fmt_code = Some (n, ds) ->
    String.length value <> n \/ exists e, PyDate.strptime value ds = Raise e.

(** The value stored under a key, when the decoder returns. *)
Definition count_field (r : result (gmap string count_value)) (k : string)
  : option count_value :=
  match r with
  | Ok m => m !! k
  | Raise _ => None
  end.

(** A consignee segment: [NAD] with the qualifier [CN]. *)
Definition is_consignee_seg (s : segment) : bool :=
  is_tag "NAD" s
  && match elems_of s with
     | e0 :: _ => String.eqb e0 "CN"
     | [] => false
     end.

(** The year a two-digit year stands for. *)
Definition century (yy : Z) : Z :=
  if (yy <=? 68)%Z then (yy + 2000)%Z else (yy + 1900)%Z.

(** No record stored under ["CTA"] holds a role. *)
Definition no_role (ps : gmap string (gmap string party_value)) : Prop :=
  forall rec, ps !! "CTA" = Some rec -> rec !! "role" = None.

(** The characters [str.strip("+ ")] removes. *)
Definition plus_or_blank (c : ascii) : bool :=
  Ascii.eqb "+" c || Ascii.eqb " " c.

(** Every character of [s] satisfies [p]; [s] starts, and ends, with a
    character that satisfies [p]. *)
Fixpoint all_chars (p : ascii -> bool) (s : string) : bool :=
  match s with
  | EmptyString => true
  | String c rest => p c && all_chars p rest
  end.

Definition starts_in (p : ascii -> bool) (s : string) : bool :=
  match s with
  | String c _ => p c
  | EmptyString => false
  end.

Fixpoint ends_in (p : ascii -> bool) (s : string) : bool :=
  match s with
  | EmptyString => false
  | String c EmptyString => p c
  | String _ rest => ends_in p rest
  end.

(** [name] is [s] without the characters of [p] at its two ends: what
    is cut off on either side holds characters of [p] only, and what
    remains neither starts nor ends with one. *)
Definition trimmed_of (p : ascii -> bool) (s name : string) : Prop :=
  exists l t,
    s = l +:+ name +:+ t
    /\ all_chars p l = true /\ all_chars p t = true
    /\ starts_in p name = false /\ ends_in p name = false.

(** The consignee name read word for word: the 3rd element and the 4th,
    each trimmed, joined by a space when the 4th is not empty. *)
Definition name_both_trimmed (e2 e3 : string) : string :=
  if String.eqb e3 "" then Py.strip e2 else Py.strip e2 +:+ " " +:+ Py.strip e3.

(** The date and time with a year of four digits, whatever the year. *)
Definition iso_minutes (y m d H M : Z) : string :=
  PyDate.pad4 y +:+ "-" +:+ PyDate.pad2 m +:+ "-" +:+ PyDate.pad2 d
    +:+ " " +:+ PyDate.pad2 H +:+ ":" +:+ PyDate.pad2 M.

(** ** Reading aids for the further properties *)


(** A token holds no segment terminator, no element separator and no
    line break. *)
Definition token_clean (s : string) : Prop :=
  Py.contains SEG_SEP s = false /\ Py.contains COMP_SEP s = false
  /\ Py.contains LF s = false /\ Py.contains CR s = false.

(** The text of a segment: tag and elements joined by the element
    separator, closed by the segment terminator; and the text of a
    sequence of segments. *)
Definition segment_body (seg : segment) : string :=
  Py.join "+" (tag_of seg :: elems_of seg).

Fixpoint render (segs : list segment) : string :=
  match segs with
  | [] => EmptyString
  | seg :: rest => segment_body seg +:+ String SEG_SEP (render rest)
  end.

(** A segment the tokenizer gives back as it is: a non-empty tag without
    blanks around it, clean tokens. *)
Definition well_formed (seg : segment) : Prop :=
  tag_of seg <> EmptyString
  /\ Py.strip (tag_of seg) = tag_of seg
  /\ Forall token_clean (tag_of seg :: elems_of seg).


(** A comma-separated numeral: where its text ends, and starts, with a
    digit. *)
Fixpoint ends_with_digit (s : string) : bool :=
  match s with
  | EmptyString => false
  | String c EmptyString => Py.isdigit c
  | String _ rest => ends_with_digit rest
  end.

Definition starts_with_digit (s : string) : bool :=
  match s with
  | String c _ => Py.isdigit c
  | EmptyString => false
  end.

(** A text of decimal digits only, and the number it writes. *)
Fixpoint all_digits (s : string) : bool :=
  match s with
  | EmptyString => true
  | String c rest => Py.isdigit c && all_digits rest
  end.

Definition decimal_value (s : string) : Z :=
  PyFloat.digits_value (list_ascii_of_string s).


(** The tags [header()] reads, the fields it can write, and the fields
    each tag writes. *)
Definition header_tags : list string :=
  ["UNB"; "UNH"; "BGM"; "DTM"; "CUX"; "TOD"; "LOC"].

Definition is_header_seg (s : segment) : bool :=
  existsb (String.eqb (tag_of s)) header_tags.

Definition header_keys (tag : string) : list string :=
  if String.eqb tag "UNB" then
    ["syntax"; "sender"; "receiver"; "interchange_datetime"; "interchange_control"]
  else if String.eqb tag "UNH" then ["message_ref"; "message_type"]
  else if String.eqb tag "BGM" then ["document_type"; "manifest_number"; "msg_function"]
  else if String.eqb tag "DTM" then ["message_datetime"; "shipment_date"]
  else if String.eqb tag "CUX" then ["currency"]
  else if String.eqb tag "TOD" then ["terms"]
  else if String.eqb tag "LOC" then ["warehouse"]
  else [].

Definition header_fields : list string :=
  flat_map header_keys header_tags.


(** A count segment whose integer total reads as a NaN or an infinity:
    qualifier 2 or 8 with such a value. *)
Definition is_nonfinite (o : option spec_float) : bool :=
  match o with
  | Some S754_nan => true
  | Some (S754_infinity _) => true
  | _ => false
  end.

Definition count_nonfinite (seg : segment) : bool :=
  is_tag "CNT" seg
  && match elems_of seg with
     | [] => false
     | e0 :: _ =>
         (String.eqb (fst (qual_and_value e0)) "2"
          || String.eqb (fst (qual_and_value e0)) "8")
         && is_nonfinite (_to_float (snd (qual_and_value e0)))
     end.

(** The totals have the types of their fields: integers for the two
    counts, a float or [None] for weight and value. *)
Definition count_typed (k : string) (v : count_value) : Prop :=
  ((k = "line_count" \/ k = "shipment_count") /\ exists z, v = CInt z)
  \/ ((k = "total_gross_weight_kg" \/ k = "total_value_eur")
      /\ (v = CNone \/ exists f, v = CFloat f)).


(** The record [parties()] builds from the elements of a [NAD] segment. *)
Definition nad_record (elems : list string) : gmap string party_value :=
  <["country" := PStr (Py.get_or elems 8 "")]>
  (<["zip" := PStr (Py.get_or elems 7 "")]>
  (<["state" := PStr (Py.get_or elems 6 "")]>
  (<["city" := PStr (Py.get_or elems 5 "")]>
  (<["addr" := PStr (Py.replace ":" " " (Py.get_or elems 4 ""))]>
  (<["name" := PStr (Py.replace ":" " " (Py.get_or elems 3 ""))]>
  (<["party_id" := PStr (head_or_empty (Py.split ":" (Py.get_or elems 1 "")))]>
  (<["qualifier" := PStr (Py.get_or elems 0 "")]> ∅))))))).

(** A [NAD] segment with the qualifier [q]. *)
Definition is_nad_for (q : string) (s : segment) : bool :=
  is_tag "NAD" s
  && match elems_of s with
     | e0 :: _ => String.eqb e0 q
     | [] => false
     end.


(** Number of occurrences of a character in a string. *)
Fixpoint count_char (c : ascii) (s : string) : nat :=
  match s with
  | EmptyString => 0
  | String x rest => (if Ascii.eqb x c then 1 else 0) + count_char c rest
  end.

(** A package quantity [float()] rejects, or reads as a NaN or an
    infinity. *)
Definition quantity_unreadable (q : string) : bool :=
  match PyFloat.float q with
  | Ok f => is_nonfinite (Some f)
  | Raise _ => true
  end.

(** A grouping segment whose second element holds the sub-element
    separator after a quantity that cannot be read. *)
Definition bad_quantity (s : segment) : bool :=
  is_tag "GID" s
  && match elems_of s with
     | _ :: e1 :: _ =>
         Py.contains ":" e1 && quantity_unreadable (head_or_empty (Py.split ":" e1))
     | _ => false
     end.

(** A gross or declared weight segment whose last element holds the
    sub-element separator twice or more. *)
Definition bad_weight (s : segment) : bool :=
  is_tag "MEA" s
  && match elems_of s with
     | e0 :: _ =>
         (String.eqb e0 "WT" || String.eqb e0 "WX")
         && Nat.leb 2 (count_char ":" (last_or_empty (elems_of s)))
     | [] => false
     end.

(** Sequencing of two decoders that can raise, the results appended. *)
Definition both {A : Type} (a b : result (list A)) : result (list A) :=
  try! la := a in try! lb := b in Ok (la ++ lb).




(** The product code carried by a product reference: the text after
    the three characters of the qualifier and the separator. *)
Definition product_code (s : segment) : option item_value :=
  Some (IStr (Py.drop 3 (head_or_empty (elems_of s)))).

(** The segments the item extractor reads. *)
Definition is_item_seg (s : segment) : bool := is_item_line s || is_product_ref s.


(** ** Flattened rows of the shipments table *)

(** A cell of the table: a string, an [int], a [float] or [None]. *)
Inductive cell : Type :=
  | VStr (s : string)
  | VInt (z : Z)
  | VFloat (f : spec_float)
  | VNone.

(** [d.get(k)] for the value types of the decoders' dicts. *)
Definition cell_str (o : option string) : cell :=
  match o with
  | Some s => VStr s
  | None => VNone
  end.

Definition cell_int (o : option Z) : cell :=
  match o with
  | Some z => VInt z
  | None => VNone
  end.

Definition cell_float (o : option (option spec_float)) : cell :=
  match o with
  | Some (Some f) => VFloat f
  | _ => VNone
  end.

Definition cell_item (o : option item_value) : cell :=
  match o with
  | Some (IStr s) => VStr s
  | Some (IFloat f) => VFloat f
  | _ => VNone
  end.

(** A row keeps its columns in the order of the dict display. *)
Definition row : Type := list (string * cell).

Fixpoint row_get (k : string) (r : row) : option cell :=
  match r with
  | [] => None
  | (k', v) :: rest => if String.eqb k' k then Some v else row_get k rest
  end.

(** The row built for the item [it] of the shipment [sh], the [i]-th of
    the file. *)
Definition row_of (fname : string) (hdr : gmap string string) (i : Z)
    (sh : shipment) (it : gmap string item_value) : row :=
  [ ("file", VStr fname);
    ("manifest_number", cell_str (hdr !! "manifest_number"));
    ("shipment_index", VInt i);
    ("warehouse", cell_str (hdr !! "warehouse"));
    ("currency", cell_str (hdr !! "currency"));
    ("destination_city", cell_str (destination_city sh));
    ("destination_country", cell_str (destination_country sh));
    ("route", cell_str (route sh));
    ("packages", cell_int (packages sh));
    ("gross_kg", cell_float (weights sh !! "gross_kg"));
    ("declared_kg", cell_float (weights sh !! "declared_kg"));
    ("length_cm", cell_float (dimensions_cm sh !! "length"));
    ("width_cm", cell_float (dimensions_cm sh !! "width"));
    ("height_cm", cell_float (dimensions_cm sh !! "height"));
    ("scheduled_delivery", cell_str (dates sh !! "scheduled_delivery"));
    ("pickup_time", cell_str (dates sh !! "pickup_time"));
    ("invoice_date", cell_str (dates sh !! "invoice_date"));
    ("order_id", cell_str (refs sh !! "order_id"));
    ("tracking", cell_str (refs sh !! "tracking"));
    ("phone", cell_str (refs sh !! "phone"));
    ("consignee_name", cell_str (consignee sh !! "name"));
    ("consignee_street", cell_str (consignee sh !! "street"));
    ("consignee_zip", cell_str (consignee sh !! "zip"));
    ("consignee_city", cell_str (consignee sh !! "city"));
    ("consignee_state", cell_str (consignee sh !! "state"));
    ("consignee_country", cell_str (consignee sh !! "country"));
    ("moa_ZZZ", cell_float (monetary sh !! "ZZZ"));
    ("moa_40", cell_float (monetary sh !! "40"));
    ("asin", cell_item (it !! "asin"));
    ("qty", cell_item (it !! "qty"));
    ("uom", cell_item (it !! "uom"));
    ("unit_price_try", cell_item (it !! "unit_price_try"));
    ("delivery_terms", cell_str (terms sh !! "delivery_terms"));
    ("reason_for_export", cell_str (terms sh !! "reason_for_export")) ].

(** [sh["items"] or [{}]] *)
Definition items_or_blank (sh : shipment) : list (gmap string item_value) :=
  match items sh with
  | [] => [∅]
  | its => its
  end.

(** [for i, sh in enumerate(shipments, start=1): for it in ...: append] *)
Fixpoint rows_loop (fname : string) (hdr : gmap string string) (i : Z)
    (shs : list shipment) : list row :=
  match shs with
  | [] => []
  | sh :: rest =>
      map (row_of fname hdr i sh) (items_or_blank sh) ++ rows_loop fname hdr (i + 1) rest
  end.

(** The body of the loop over the texts: the four decoders in the order
    of the script, then the rows of the file.  A decoder that raises ends
    the script. *)
Definition file_rows (fy : Z -> string) (fname content : string) : result (list row) :=
  let segments := split_segments content in
  let hdr := header fy segments in
  try! cnt := counts_and_amounts segments in
  let parties := parties segments in
  try! shipments := shipments fy segments in
  Ok (rows_loop fname hdr 1 shipments).

(** The loop over [uploaded_texts], appending to [all_shipments_rows]. *)
Definition all_rows (fy : Z -> string) (uploaded_texts : list (string * string))
  : result (list row) :=
  for_each (fun acc (f : string * string) =>
              try! rows := file_rows fy (fst f) (snd f) in Ok (acc ++ rows))
    uploaded_texts [].

(** Rows a shipment takes in the table. *)
Definition rows_taken (n : nat) : nat := Nat.max 1 n.

(** A text the counts decoder and the shipment decoder both accept. *)
Definition decodable (content : string) : Prop :=
  Forall (fun s => count_nonfinite s = false) (split_segments content)
  /\ Forall (fun s => bad_quantity s = false /\ bad_weight s = false)
       (from_gid (split_segments content)).




(** * Properties *)

(** ** Shipment grouper *)

Lemma until_from_gid (segs : list segment) : until_gid segs ++ from_gid segs = segs.
Proof.
  induction segs as [|s rest IH]; simpl; [reflexivity|].
  destruct (is_tag "GID" s); simpl; [reflexivity|]. now rewrite IH.
Qed.

Lemma gid_count_until_gid (segs : list segment) : gid_count (until_gid segs) = 0.
Proof.
  unfold gid_count. induction segs as [|s rest IH]; simpl; [reflexivity|].
  destruct (is_tag "GID" s) eqn:E; simpl; [reflexivity|]. now rewrite E.
Qed.

(** The first index listed by [gid_idxs], or the length of the sequence,
    is where the leading run without grouping segment stops. *)
Lemma next_stop (i : nat) (segs : list segment) :
  match gid_idxs i segs with
  | next :: _ => next
  | [] => i + length segs
  end = i + length (until_gid segs).
Proof.
  revert i. induction segs as [|s rest IH]; intros i; simpl; [reflexivity|].
  destruct (is_tag "GID" s); simpl; [lia|].
  specialize (IH (S i)). destruct (gid_idxs (S i) rest); lia.
Qed.

Lemma take_until_gid (segs : list segment) :
  take (length (until_gid segs)) segs = until_gid segs.
Proof.
  induction segs as [|s rest IH]; simpl; [reflexivity|].
  destruct (is_tag "GID" s); simpl; [reflexivity|]. now rewrite IH.
Qed.

Lemma groups_loop_scan (pre rest : list segment) :
  groups_loop (pre ++ rest) (gid_idxs (length pre) rest) = groups_by_scan rest.
Proof.
  revert pre. induction rest as [|s rest IH]; intros pre; simpl; [reflexivity|].
  assert (Hshift : pre ++ s :: rest = (pre ++ [s]) ++ rest) by now rewrite <- app_assoc.
  assert (Hlen : S (length pre) = length (pre ++ [s])) by (rewrite length_app; simpl; lia).
  destruct (is_tag "GID" s); simpl.
  - f_equal.
    + pose proof (next_stop (S (length pre)) rest) as Hstop.
      assert (Hs : match gid_idxs (S (length pre)) rest with
                   | next :: _ => next
                   | [] => length (pre ++ s :: rest)
                   end = S (length pre) + length (until_gid rest)).
      { destruct (gid_idxs (S (length pre)) rest); [|exact Hstop].
        rewrite length_app; simpl; lia. }
      rewrite Hs. unfold Py.slice.
      rewrite drop_app_length.
      replace (S (length pre) + length (until_gid rest) - length pre)
        with (S (length (until_gid rest))) by lia.
      simpl. now rewrite take_until_gid.
    + rewrite Hshift, Hlen. apply IH.
  - rewrite Hshift, Hlen. apply IH.
Qed.

Lemma shipment_groups_scan (segs : list segment) :
  _shipment_groups segs = groups_by_scan segs.
Proof. exact (groups_loop_scan [] segs). Qed.

Lemma scan_length (segs : list segment) :
  length (groups_by_scan segs) = gid_count segs.
Proof.
  unfold gid_count. induction segs as [|s rest IH]; simpl; [reflexivity|].
  destruct (is_tag "GID" s); simpl; now rewrite IH.
Qed.

Lemma scan_concat (segs : list segment) :
  concat (groups_by_scan segs) = from_gid segs.
Proof.
  induction segs as [|s rest IH]; simpl; [reflexivity|].
  destruct (is_tag "GID" s); simpl; [|exact IH].
  now rewrite IH, until_from_gid.
Qed.

Lemma scan_anchored (segs : list segment) :
  Forall anchored_group (groups_by_scan segs).
Proof.
  induction segs as [|s rest IH]; simpl; [constructor|].
  destruct (is_tag "GID" s) eqn:E; [|exact IH].
  constructor; [|exact IH].
  exists s, (until_gid rest). now rewrite gid_count_until_gid.
Qed.

(** C4. For a sequence with N grouping segments the grouper returns N
    slices; laid end to end they are the sequence from its first grouping
    segment to its end, so they are contiguous, in source order, and the
    last one runs to the end; each slice opens with a grouping segment and
    holds no other one, so the cuts are exactly at the occurrences; with no
    occurrence the list of groups is empty. *)
Theorem shipment_groups_partition (segs : list segment) :
  length (_shipment_groups segs) = gid_count segs
  /\ concat (_shipment_groups segs) = from_gid segs
  /\ Forall anchored_group (_shipment_groups segs)
  /\ (gid_count segs = 0 -> _shipment_groups segs = []).
Proof.
  rewrite shipment_groups_scan.
  split; [apply scan_length|].
  split; [apply scan_concat|].
  split; [apply scan_anchored|].
  intros H0. pose proof (scan_length segs) as Hl. rewrite H0 in Hl.
  now destruct (groups_by_scan segs).
Qed.

Lemma shipment_groups_partition_witness :
  gid_count [("UNH", ["1"]); ("BGM", ["87"])] = 0
  /\ _shipment_groups [("UNH", ["1"]); ("BGM", ["87"])] = [].
Proof.
  split; [reflexivity|].
  apply (shipment_groups_partition [("UNH", ["1"]); ("BGM", ["87"])]).
  reflexivity.
Defined.

(** ** Tokenizer: what an element can hold *)

Lemma split_nonempty (c : ascii) (s : string) : Py.split c s <> [].
Proof.
  destruct s as [|d rest]; simpl; [discriminate|].
  destruct (Ascii.eqb d c); [discriminate|].
  destruct (Py.split c rest); discriminate.
Qed.

Lemma split_parts_free (c : ascii) (s : string) :
  Forall (fun w => Py.contains c w = false) (Py.split c s).
Proof.
  induction s as [|d rest IH]; simpl.
  - repeat constructor.
  - destruct (Ascii.eqb d c) eqn:E.
    + constructor; [reflexivity | exact IH].
    + destruct (Py.split c rest) as [|w ws]; simpl.
      * repeat constructor. simpl. now rewrite E.
      * inversion IH as [|? ? Hw Hws]; subst.
        constructor; [|exact Hws]. simpl. now rewrite E.
Qed.

Lemma split_absent (c : ascii) (s : string) :
  Py.contains c s = false -> Py.split c s = [s].
Proof.
  induction s as [|d rest IH]; simpl; [reflexivity|].
  intros H. apply orb_false_iff in H as [Hd Hrest].
  rewrite Hd, (IH Hrest). reflexivity.
Qed.

Lemma segs_of_parts_plus_free (parts : list string) :
  Forall plus_free (segs_of_parts parts).
Proof.
  induction parts as [|p rest IH]; simpl; [constructor|].
  destruct (negb (Py.truthy p)); [exact IH|].
  pose proof (split_parts_free COMP_SEP p) as Hfree.
  destruct (Py.split COMP_SEP p) as [|chunk0 chunks]; [exact IH|].
  constructor; [|exact IH].
  inversion Hfree; subst. assumption.
Qed.

Lemma split_segments_plus_free (text : string) :
  Forall plus_free (split_segments text).
Proof. apply segs_of_parts_plus_free. Qed.

(** ** Header decoder: the warehouse *)

Lemma header_step_warehouse (fy : Z -> string) (data : gmap string string)
    (seg : segment) :
  plus_free seg ->
  data !! "warehouse" = None ->
  header_step fy data seg !! "warehouse" = None.
Proof.
  destruct seg as [tag elems]. unfold plus_free, header_step; cbn [elems_of snd].
  intros Hfree Hnone.
  repeat match goal with
  | |- context [String.eqb tag ?t] => destruct (String.eqb tag t)
  end.
  - destruct (Py.truthy _ && Py.contains _ _).
    + destruct (Py.split_first _ _) as [d t].
      destruct (PyDate.strptime _ _); now rewrite !lookup_insert_ne by discriminate.
    + now rewrite !lookup_insert_ne by discriminate.
  - now rewrite !lookup_insert_ne by discriminate.
  - now rewrite !lookup_insert_ne by discriminate.
  - destruct elems as [|e0 ?]; [assumption|].
    destruct (Py.split ":" e0) as [|code [|value more]]; try assumption.
    destruct (String.eqb code "9"); [now rewrite lookup_insert_ne by discriminate|].
    destruct (String.eqb code "10"); [now rewrite lookup_insert_ne by discriminate|].
    assumption.
  - destruct elems as [|e0 ?]; [assumption|].
    destruct (Py.split ":" e0) as [|? [|? ?]];
      now rewrite ?lookup_insert_ne by discriminate.
  - destruct elems as [|? [|e1 ?]]; try assumption.
    now rewrite lookup_insert_ne by discriminate.
  - destruct elems as [|e0 ?]; [assumption|].
    inversion Hfree as [|? ? He0 _]; subst.
    destruct (String.eqb e0 "198+WTAM") eqn:E.
    + apply String.eqb_eq in E. subst e0. discriminate He0.
    + destruct (Py.startswith "198" e0); [|assumption].
      change "+"%char with COMP_SEP. now rewrite (split_absent _ _ He0).
  - assumption.
Qed.

Lemma header_fold_warehouse (fy : Z -> string) (segs : list segment)
    (data : gmap string string) :
  Forall plus_free segs ->
  data !! "warehouse" = None ->
  fold_left (header_step fy) segs data !! "warehouse" = None.
Proof.
  revert data. induction segs as [|s rest IH]; intros data Hfree Hnone; simpl.
  - assumption.
  - inversion Hfree; subst. apply IH; [assumption|].
    now apply header_step_warehouse.
Qed.

(** C2. The tokenizer cuts every segment at each element separator, so no
    element reaching [header] holds one: the composite of a location
    segment is the bare qualifier, the literal ["198+WTAM"] never occurs
    and the split on the separator yields a single token.  Hence no text
    at all decodes to a header with a warehouse, in particular not the
    location segment [LOC+198+WTAM]. *)
Theorem header_warehouse_never_set (fy : Z -> string) (text : string) :
  header fy (split_segments text) !! "warehouse" = None
  /\ split_segments "LOC+198+WTAM'" = [("LOC", ["198"; "WTAM"])]
  /\ header fy (split_segments "LOC+198+WTAM'") = ∅.
Proof.
  split; [|split].
  - apply header_fold_warehouse; [apply split_segments_plus_free | apply lookup_empty].
  - reflexivity.
  - reflexivity.
Qed.

(** On a segment sequence built by hand, whose location composite still
    holds the separator, both branches of the decoder do set the field. *)
Lemma header_warehouse_untokenized (fy : Z -> string) :
  header fy [("LOC", ["198+WTAM"])] !! "warehouse" = Some "WTAM"
  /\ header fy [("LOC", ["198+XYZ"])] !! "warehouse" = Some "XYZ".
Proof. split; reflexivity. Qed.

(** ** Shipment decoder: failures and the location fields *)

(** C1. [shipments] raises [ValueError] on a grouping segment whose
    quantity is not a numeral, and on a measurement segment whose last
    composite holds two sub-element separators. *)
Theorem shipments_raises (fy : Z -> string) :
  shipments fy (split_segments "GID+1+abc:PK'") = Raise ValueError
  /\ shipments fy (split_segments "GID+1+1:PK'MEA+WT+G+KG:1:2'") = Raise ValueError.
Proof. split; vm_compute; reflexivity. Qed.

(** On an element without separator, as the tokenizer yields them, the
    city branch of the location segment stores the whole element. *)
Lemma location_stores_composite (fy : Z -> string) (record : shipment)
    (first : string) (more : list string) :
  Py.contains "+" first = false ->
  Py.startswith "7" first = true ->
  shipment_step fy record ("LOC", first :: more)
  = Ok (set_destination_city first record).
Proof.
  intros Hfree Hseven. unfold shipment_step.
  change (String.eqb "LOC" "GID") with false.
  change (String.eqb "LOC" "TMD") with false.
  change (String.eqb "LOC" "LOC") with true.
  cbv iota. rewrite Hseven, orb_true_r, (split_absent _ _ Hfree). reflexivity.
Qed.

(** C3. After tokenization the composite of a location segment is the
    bare qualifier, and the decoder stores that qualifier as the value:
    [LOC+7+Afyonkarahisar] gives the destination city ["7"]. *)
Theorem shipments_location_stores_qualifier (fy : Z -> string) :
  shipments fy (split_segments
     "GID+1+1:PK'LOC+7+Afyonkarahisar'LOC+25+Turkey'LOC+193+MNG-TR-WTAM'")
  = Ok [set_route "193"
          (set_destination_country "25"
             (set_destination_city "7" (set_packages 1 empty_record)))].
Proof. vm_compute. reflexivity. Qed.

(** ** Item extractor *)

Lemma extract_items_run (segs : list segment) :
  _extract_items_from_pci segs = fst (items_run segs ([], None)).
Proof. reflexivity. Qed.

Lemma items_run_app (a b : list segment) st :
  items_run (a ++ b) st = items_run b (items_run a st).
Proof. apply fold_left_app. Qed.

Lemma items_step_other (s : segment) st :
  is_item_line s = false -> is_product_ref s = false -> items_step st s = st.
Proof.
  destruct st as [its p], s as [tag elems].
  unfold is_item_line, is_product_ref, is_tag, items_step; simpl.
  destruct elems as [|e0 more]; [reflexivity|].
  rewrite andb_true_r. intros -> H. now rewrite H.
Qed.

Lemma items_run_other (mid : list segment) st :
  Forall (fun s => is_item_line s = false /\ is_product_ref s = false) mid ->
  items_run mid st = st.
Proof.
  unfold items_run. induction 1 as [|s rest [Hl Hr] _ IH]; simpl; [reflexivity|].
  now rewrite items_step_other.
Qed.

Lemma items_step_no_ref (s : segment) st :
  is_product_ref s = false -> fst (items_step st s) = fst st.
Proof.
  destruct st as [its p], s as [tag elems].
  unfold is_product_ref, is_tag, items_step; simpl.
  destruct elems as [|e0 more]; [reflexivity|].
  destruct (String.eqb tag "PCI"); [reflexivity|].
  now intros ->.
Qed.

Lemma items_run_no_ref (tail : list segment) st :
  Forall (fun s => is_product_ref s = false) tail ->
  fst (items_run tail st) = fst st.
Proof.
  unfold items_run. intros H. revert st.
  induction H as [|s rest Hs _ IH]; intros st; simpl; [reflexivity|].
  now rewrite IH, items_step_no_ref.
Qed.

(** Items already emitted are a prefix of the final list, whatever
    follows. *)
Lemma items_step_prefix (s : segment) its p :
  items_step (its, p) s
  = (its ++ fst (items_step ([], p) s), snd (items_step ([], p) s)).
Proof.
  destruct s as [tag elems]. unfold items_step.
  destruct elems as [|e0 more]; simpl; [now rewrite app_nil_r|].
  destruct (String.eqb tag "PCI"); simpl; [now rewrite app_nil_r|].
  destruct (String.eqb tag "RFF" && Py.startswith "VP:" e0); simpl;
    [reflexivity | now rewrite app_nil_r].
Qed.

Lemma items_run_prefix (segs : list segment) its p :
  items_run segs (its, p)
  = (its ++ fst (items_run segs ([], p)), snd (items_run segs ([], p))).
Proof.
  unfold items_run. revert its p.
  induction segs as [|s rest IH]; intros its p; cbn [fold_left];
    [simpl; now rewrite app_nil_r|].
  rewrite items_step_prefix.
  destruct (items_step ([], p) s) as [one p']; cbn [fst snd].
  rewrite IH, (IH one p'); cbn [fst snd]. now rewrite app_assoc.
Qed.

Lemma items_step_line its p (e : string) (es : list string) :
  items_step (its, p) ("PCI", e :: es) = (its, Some (pending_of_pci (e :: es))).
Proof. reflexivity. Qed.

Lemma items_step_ref its p (v : string) (rs : list string) :
  items_step (its, p) ("RFF", ("VP:" +:+ v) :: rs)
  = (its ++ [<["asin" := IStr v]> (default ∅ p)], None).
Proof.
  change ("VP:" +:+ v) with (String "V" (String "P" (String ":" v))).
  reflexivity.
Qed.

Lemma from_end_lookup (fields : list string) (k : nat) :
  k <= length fields -> from_end fields k = fields !! (length fields - k).
Proof.
  intros H. unfold from_end.
  destruct (Nat.leb k (length fields)) eqn:E; [reflexivity|].
  apply Nat.leb_gt in E. lia.
Qed.

(** C5. The extractor keeps one pending slot along the group.  An item
    line (a [PCI] segment carrying elements) reads quantity, unit of
    measure and unit price at the positions length-4, length-3 and length-2
    of the field list obtained by joining its elements with the sub-element
    separator and splitting again.  An item line followed, after segments
    that are neither item lines nor product references, by a [RFF] segment
    with qualifier [VP] yields exactly one item, the parsed line with the
    trailing value as product reference, placed after the items of what
    precedes and before the items of what follows; an item line pending
    before it is replaced and never emitted; an item line with no product
    reference after it yields nothing; a product reference with nothing
    pending yields an item holding the reference only. *)
Theorem extract_items_pairing
    (pre mid mid' post tail : list segment)
    (e e' v : string) (es es' rs : list string) :
  Forall (fun s => is_item_line s = false /\ is_product_ref s = false) mid ->
  Forall (fun s => is_item_line s = false /\ is_product_ref s = false) mid' ->
  Forall (fun s => is_product_ref s = false) tail ->
  let fields := Py.split ":" (Py.join ":" (e :: es)) in
  let n := length fields in
  let line := ("PCI", e :: es) in
  let ref := ("RFF", ("VP:" +:+ v) :: rs) in
  let item := <["asin" := IStr v]> (pending_of_pci (e :: es)) in
  (4 <= n ->
   pending_of_pci (e :: es)
   = <["unit_price_try" := ifloat (_to_float (fields !! (n - 2)))]>
       (<["qty" := ifloat (_to_float (fields !! (n - 4)))]>
          (<["uom" := istr (fields !! (n - 3))]> ∅)))
  /\ _extract_items_from_pci (pre ++ line :: mid ++ ref :: post)
     = _extract_items_from_pci pre ++ item :: _extract_items_from_pci post
  /\ _extract_items_from_pci (pre ++ ("PCI", e' :: es') :: mid' ++ line :: mid ++ ref :: post)
     = _extract_items_from_pci pre ++ item :: _extract_items_from_pci post
  /\ _extract_items_from_pci (pre ++ line :: tail) = _extract_items_from_pci pre
  /\ _extract_items_from_pci (mid ++ ref :: post)
     = <["asin" := IStr v]> ∅ :: _extract_items_from_pci post.
Proof.
  intros Hmid Hmid' Htail fields n line ref item.
  assert (Hpair : forall st,
             items_run (line :: mid ++ ref :: post) st
             = items_run post (fst st ++ [item], None)).
  { intros [its p]. change (line :: mid ++ ref :: post)
      with ([line] ++ mid ++ [ref] ++ post).
    rewrite !items_run_app.
    change (items_run [line] (its, p)) with (items_step (its, p) line).
    unfold line at 1. rewrite items_step_line.
    rewrite (items_run_other mid) by assumption.
    change (items_run [ref] ?st) with (items_step st ref).
    unfold ref at 1. rewrite items_step_ref. reflexivity. }
  assert (Hemit : forall its,
             fst (items_run post (its ++ [item], None))
             = its ++ item :: fst (items_run post ([], None))).
  { intros its. rewrite items_run_prefix. cbn [fst].
    now rewrite <- app_assoc. }
  rewrite !extract_items_run.
  split; [|split; [|split; [|split]]].
  - intros Hlen. subst n fields. unfold pending_of_pci.
    rewrite !from_end_lookup by lia. reflexivity.
  - rewrite items_run_app, Hpair. apply Hemit.
  - change (pre ++ ("PCI", e' :: es') :: mid' ++ line :: mid ++ ref :: post)
      with (pre ++ [("PCI", e' :: es')] ++ mid' ++ line :: mid ++ ref :: post).
    rewrite !items_run_app, Hpair.
    rewrite (items_run_other mid') by assumption.
    destruct (items_run pre ([], None)) as [its p].
    change (items_run [("PCI", e' :: es')] (its, p))
      with (items_step (its, p) ("PCI", e' :: es')).
    rewrite items_step_line. apply Hemit.
  - change (pre ++ line :: tail) with (pre ++ [line] ++ tail).
    rewrite !items_run_app, (items_run_no_ref tail) by assumption.
    destruct (items_run pre ([], None)) as [its p]. reflexivity.
  - change (mid ++ ref :: post) with (mid ++ [ref] ++ post).
    rewrite !items_run_app, (items_run_other mid) by assumption.
    change (items_run [ref] ?st) with (items_step st ref).
    unfold ref at 1. rewrite items_step_ref.
    rewrite items_run_prefix. reflexivity.
Qed.

(** ** Dates *)

Lemma Z_below_cases (P : Z -> Prop) (n : nat) :
  (forall k : nat, (k < n)%nat -> P (Z.of_nat k)) ->
  forall z : Z, (0 <= z < Z.of_nat n)%Z -> P z.
Proof.
  intros H z Hz. rewrite <- (Z2Nat.id z) by lia. apply H. lia.
Qed.

(** Case analysis on a natural number below a literal bound. *)
Tactic Notation "below_cases" integer(n) ident(k) tactic3(tac) :=
  do n (destruct k as [|k]; [tac|]); exfalso; lia.

Lemma pad2_app (v : Z) (rest : string) :
  PyDate.pad2 v +:+ rest
  = String (PyDate.digit_char (v / 10)) (String (PyDate.digit_char v) rest).
Proof. reflexivity. Qed.

Lemma pad4_app (v : Z) (rest : string) :
  PyDate.pad4 v +:+ rest
  = String (PyDate.digit_char (v / 1000)) (String (PyDate.digit_char (v / 100))
      (String (PyDate.digit_char (v / 10)) (String (PyDate.digit_char v) rest))).
Proof. reflexivity. Qed.

Lemma digit_char_spec (n : Z) :
  Py.isdigit (PyDate.digit_char n) = true
  /\ Py.digit_val (PyDate.digit_char n) = (n mod 10)%Z.
Proof.
  unfold PyDate.digit_char.
  assert (Hr : (0 <= n mod 10 < Z.of_nat 10)%Z) by (apply Z.mod_pos_bound; lia).
  revert Hr. generalize (n mod 10)%Z. apply Z_below_cases.
  intros k Hk. below_cases 10 k (split; reflexivity).
Qed.

Lemma int_chars2 (v : Z) : (0 <= v < 100)%Z -> PyDate.int_of_group (chars2 v) = v.
Proof.
  revert v. apply (Z_below_cases _ 100).
  intros k Hk. below_cases 100 k (reflexivity).
Qed.

Lemma int_chars4 (v : Z) : (0 <= v < 10000)%Z -> PyDate.int_of_group (chars4 v) = v.
Proof.
  intros Hv. unfold PyDate.int_of_group, chars4. cbn [List.filter].
  rewrite !(proj1 (digit_char_spec _)). unfold PyFloat.digits_value. cbn [fold_left].
  rewrite !(proj2 (digit_char_spec _)).
  Z.to_euclidean_division_equations. lia.
Qed.

Ltac match_two_case :=
  let ds := fresh "ds" in let rest := fresh "rest" in
  let g := fresh "g" in let r := fresh "r" in let H := fresh "H" in
  intros ds rest g r H; rewrite pad2_app; simpl; rewrite H; reflexivity.

Lemma match_two (d : PyDate.directive) (v : Z) :
  two_digit_range d v -> reads_two d v.
Proof.
  destruct d; simpl two_digit_range; intros Hv.
  - contradiction.
  - revert v Hv. apply (Z_below_cases (reads_two PyDate.Dy) 100).
    intros k Hk. below_cases 100 k (match_two_case).
  - assert (H1 : (0 <= v < Z.of_nat 13)%Z) by lia.
    assert (H2 : (1 <= v)%Z) by lia. clear Hv. revert v H1 H2.
    apply (Z_below_cases (fun v => (1 <= v)%Z -> reads_two PyDate.Dm v) 13).
    intros k Hk. destruct k as [|k]; [lia|].
    below_cases 12 k (intros _; match_two_case).
  - assert (H1 : (0 <= v < Z.of_nat 32)%Z) by lia.
    assert (H2 : (1 <= v)%Z) by lia. clear Hv. revert v H1 H2.
    apply (Z_below_cases (fun v => (1 <= v)%Z -> reads_two PyDate.Dd v) 32).
    intros k Hk. destruct k as [|k]; [lia|].
    below_cases 31 k (intros _; match_two_case).
  - revert v Hv. apply (Z_below_cases (reads_two PyDate.DH) 24).
    intros k Hk. below_cases 24 k (match_two_case).
  - revert v Hv. apply (Z_below_cases (reads_two PyDate.DM) 60).
    intros k Hk. below_cases 60 k (match_two_case).
  - revert v Hv. apply (Z_below_cases (reads_two PyDate.DS) 60).
    intros k Hk. below_cases 60 k (match_two_case).
Qed.

Lemma match_four (v : Z) (ds : list PyDate.directive) (rest : string) g r :
  PyDate.match_format ds rest = Some (g, r) ->
  PyDate.match_format (PyDate.DY :: ds) (PyDate.pad4 v +:+ rest)
  = Some ((PyDate.DY, chars4 v) :: g, r).
Proof.
  intros H. rewrite pad4_app.
  cbn [PyDate.match_format PyDate.regex_of PyDate.first_some PyDate.match_alt].
  unfold PyDate.dig. rewrite !(proj1 (digit_char_spec _)).
  cbn [PyDate.match_alt]. rewrite H. reflexivity.
Qed.

Lemma string_app_assoc (a b c : string) : (a +:+ b) +:+ c = a +:+ (b +:+ c).
Proof.
  induction a as [|x a IH]; [reflexivity|].
  change (String x ((a +:+ b) +:+ c) = String x (a +:+ (b +:+ c))).
  now rewrite IH.
Qed.

Lemma days_in_month_le (y m : Z) : (PyDate.days_in_month y m <= 31)%Z.
Proof.
  unfold PyDate.days_in_month.
  destruct (m =? 2)%Z; [destruct (PyDate.is_leap y); lia|].
  destruct ((m =? 4) || (m =? 6) || (m =? 9) || (m =? 11))%Z; lia.
Qed.

Lemma valid_intro (y m d H M S : Z) :
  valid_date y m d -> valid_time H M S ->
  PyDate.valid (PyDate.mk_datetime y m d H M S) = true.
Proof.
  intros (Hy & Hm & Hd) (HH & HM & HS). unfold PyDate.valid. cbn.
  repeat (apply andb_true_intro; split); apply Z.leb_le; lia.
Qed.

(** The text of a well-formed date is read back field by field. *)
Lemma match_date (y m d : Z) (ds : list PyDate.directive) (rest : string) g r :
  valid_date y m d ->
  PyDate.match_format ds rest = Some (g, r) ->
  PyDate.match_format (PyDate.DY :: PyDate.Dm :: PyDate.Dd :: ds)
    (PyDate.pad4 y +:+ PyDate.pad2 m +:+ PyDate.pad2 d +:+ rest)
  = Some ((PyDate.DY, chars4 y) :: (PyDate.Dm, chars2 m) :: (PyDate.Dd, chars2 d) :: g, r).
Proof.
  intros (Hy & Hm & Hd) H. pose proof (days_in_month_le y m).
  apply match_four. apply (match_two PyDate.Dm); [simpl; lia|].
  apply (match_two PyDate.Dd); [simpl; lia|]. exact H.
Qed.

Lemma match_time (H M : Z) (ds : list PyDate.directive) (rest : string) g r :
  (0 <= H <= 23)%Z -> (0 <= M <= 59)%Z ->
  PyDate.match_format ds rest = Some (g, r) ->
  PyDate.match_format (PyDate.DH :: PyDate.DM :: ds)
    (PyDate.pad2 H +:+ PyDate.pad2 M +:+ rest)
  = Some ((PyDate.DH, chars2 H) :: (PyDate.DM, chars2 M) :: g, r).
Proof.
  intros HH HM Hk.
  apply (match_two PyDate.DH); [simpl; lia|].
  apply (match_two PyDate.DM); [simpl; lia|]. exact Hk.
Qed.

Lemma pad2_nil (v : Z) : PyDate.pad2 v = PyDate.pad2 v +:+ "".
Proof. reflexivity. Qed.

Lemma strptime_date (y m d : Z) :
  valid_date y m d ->
  PyDate.strptime (PyDate.pad4 y +:+ PyDate.pad2 m +:+ PyDate.pad2 d)
    [PyDate.DY; PyDate.Dm; PyDate.Dd]
  = Ok (PyDate.mk_datetime y m d 0 0 0).
Proof.
  intros Hv. unfold PyDate.strptime.
  rewrite (pad2_nil d), (match_date y m d [] "" [] "" Hv eq_refl).
  cbn [Py.truthy fold_left PyDate.set_group fst snd].
  destruct Hv as (Hy & Hm & Hd). pose proof (days_in_month_le y m).
  rewrite int_chars4, !int_chars2 by lia. cbn.
  rewrite valid_intro; [reflexivity | repeat split; lia | repeat split; lia].
Qed.

Lemma strptime_minutes (y m d H M : Z) :
  valid_date y m d -> (0 <= H <= 23)%Z -> (0 <= M <= 59)%Z ->
  PyDate.strptime
    (PyDate.pad4 y +:+ PyDate.pad2 m +:+ PyDate.pad2 d +:+ PyDate.pad2 H +:+ PyDate.pad2 M)
    [PyDate.DY; PyDate.Dm; PyDate.Dd; PyDate.DH; PyDate.DM]
  = Ok (PyDate.mk_datetime y m d H M 0).
Proof.
  intros Hv HH HM. unfold PyDate.strptime.
  rewrite (pad2_nil M).
  rewrite (match_date y m d _ _ _ _ Hv (match_time H M [] "" [] "" HH HM eq_refl)).
  cbn [Py.truthy fold_left PyDate.set_group fst snd].
  destruct Hv as (Hy & Hm & Hd). pose proof (days_in_month_le y m).
  rewrite int_chars4, !int_chars2 by lia. cbn.
  rewrite valid_intro; [reflexivity | repeat split; lia | repeat split; lia].
Qed.

Lemma strptime_seconds (y m d H M S : Z) :
  valid_date y m d -> valid_time H M S ->
  PyDate.strptime
    (PyDate.pad4 y +:+ PyDate.pad2 m +:+ PyDate.pad2 d +:+ PyDate.pad2 H +:+ PyDate.pad2 M
       +:+ PyDate.pad2 S)
    [PyDate.DY; PyDate.Dm; PyDate.Dd; PyDate.DH; PyDate.DM; PyDate.DS]
  = Ok (PyDate.mk_datetime y m d H M S).
Proof.
  intros Hv (HH & HM & HS). unfold PyDate.strptime.
  rewrite (pad2_nil S).
  assert (Hs : PyDate.match_format [PyDate.DS] (PyDate.pad2 S +:+ "")
               = Some ([(PyDate.DS, chars2 S)], "")).
  { apply (match_two PyDate.DS); [simpl; lia | reflexivity]. }
  rewrite (match_date y m d _ _ _ _ Hv (match_time H M _ _ _ _ HH HM Hs)).
  cbn [Py.truthy fold_left PyDate.set_group fst snd].
  destruct Hv as (Hy & Hm & Hd). pose proof (days_in_month_le y m).
  rewrite int_chars4, !int_chars2 by lia. cbn.
  rewrite valid_intro; [reflexivity | repeat split; lia | repeat split; lia].
Qed.

Lemma dtm_passthrough (fy : Z -> string) (value fmt_code : string) :
  mismatch_or_failure value fmt_code -> _dtm fy value fmt_code = value.
Proof.
  unfold mismatch_or_failure, _dtm. intros H.
  destruct (String.eqb fmt_code "203") eqn:E1.
  { destruct (H 12%nat [PyDate.DY; PyDate.Dm; PyDate.Dd; PyDate.DH; PyDate.DM])
      as [Hn | [e He]].
    - unfold dtm_format. now rewrite E1.
    - apply Nat.eqb_neq in Hn. rewrite Hn. cbn [andb].
      apply String.eqb_eq in E1. subst fmt_code. reflexivity.
    - rewrite He. destruct (Nat.eqb _ 12); cbn [andb bind]; [reflexivity|].
      apply String.eqb_eq in E1. subst fmt_code. reflexivity. }
  cbn [andb].
  destruct (String.eqb fmt_code "204") eqn:E2.
  { destruct (H 14%nat [PyDate.DY; PyDate.Dm; PyDate.Dd; PyDate.DH; PyDate.DM; PyDate.DS])
      as [Hn | [e He]].
    - unfold dtm_format. now rewrite E1, E2.
    - apply Nat.eqb_neq in Hn. rewrite Hn. cbn [andb].
      apply String.eqb_eq in E2. subst fmt_code. reflexivity.
    - rewrite He. destruct (Nat.eqb _ 14); cbn [andb bind]; [reflexivity|].
      apply String.eqb_eq in E2. subst fmt_code. reflexivity. }
  cbn [andb].
  destruct (String.eqb fmt_code "102") eqn:E3.
  { destruct (H 8%nat [PyDate.DY; PyDate.Dm; PyDate.Dd]) as [Hn | [e He]].
    - unfold dtm_format. now rewrite E1, E2, E3.
    - apply Nat.eqb_neq in Hn. rewrite Hn. reflexivity.
    - rewrite He. destruct (Nat.eqb _ 8); reflexivity. }
  reflexivity.
Qed.

(** Both ways of writing [%Y] agree from the year 1000 on. *)
Lemma year_plain_4digit : PyDate.year_4digit PyDate.year_plain.
Proof.
  intros y Hy. unfold PyDate.year_plain, PyDate.pad4.
  assert (Hq : (1 <= y / 1000 < 10)%Z)
    by (split; [apply Z.div_le_lower_bound | apply Z.div_lt_upper_bound]; lia).
  assert (Hc : (1 <= (y / 1000) mod 10 < Z.of_nat 10)%Z)
    by (rewrite Z.mod_small; lia).
  unfold PyDate.digit_char at 1 5. revert Hc.
  generalize ((y / 1000) mod 10)%Z. intros z Hz.
  assert (H0 : (0 <= z < Z.of_nat 10)%Z) by lia.
  assert (H1 : (1 <= z)%Z) by lia. clear Hz. revert z H0 H1.
  apply (Z_below_cases (fun z => (1 <= z)%Z -> _) 10).
  intros k Hk. destruct k as [|k]; [lia|].
  below_cases 9 k (intros _; reflexivity).
Qed.

Lemma year_padded_4digit : PyDate.year_4digit PyDate.year_padded.
Proof. intros y _. reflexivity. Qed.

(** C6. Code 203 turns the twelve characters of a date and time
    [yyyymmddHHMM] into [YYYY-MM-DD HH:MM], code 204 the fourteen
    characters of [yyyymmddHHMMSS] into [YYYY-MM-DD HH:MM:SS], code 102 the
    eight characters of [yyyymmdd] into [YYYY-MM-DD], the year being
    written as the platform writes [%Y]: with its four digits from the
    year 1000 on, and below 1000 with or without leading zeros.  A value
    whose length is not the one of its format, or which does not parse, or
    whose code is none of the three, is returned as it is. *)
Theorem dtm_formats (fy : Z -> string) (y m d H M S : Z) (value fmt_code : string) :
  PyDate.year_4digit fy ->
  valid_date y m d ->
  valid_time H M S ->
  mismatch_or_failure value fmt_code ->
  _dtm fy (PyDate.pad4 y +:+ PyDate.pad2 m +:+ PyDate.pad2 d +:+ PyDate.pad2 H
             +:+ PyDate.pad2 M) "203"
    = fy y +:+ "-" +:+ PyDate.pad2 m +:+ "-" +:+ PyDate.pad2 d
        +:+ " " +:+ PyDate.pad2 H +:+ ":" +:+ PyDate.pad2 M
  /\ _dtm fy (PyDate.pad4 y +:+ PyDate.pad2 m +:+ PyDate.pad2 d +:+ PyDate.pad2 H
                +:+ PyDate.pad2 M +:+ PyDate.pad2 S) "204"
     = fy y +:+ "-" +:+ PyDate.pad2 m +:+ "-" +:+ PyDate.pad2 d
         +:+ " " +:+ PyDate.pad2 H +:+ ":" +:+ PyDate.pad2 M +:+ ":" +:+ PyDate.pad2 S
  /\ _dtm fy (PyDate.pad4 y +:+ PyDate.pad2 m +:+ PyDate.pad2 d) "102"
     = fy y +:+ "-" +:+ PyDate.pad2 m +:+ "-" +:+ PyDate.pad2 d
  /\ _dtm fy value fmt_code = value
  /\ _dtm fy "202510130023" "203" = "2025-10-13 00:23"
  /\ _dtm fy "20251013" "102" = "2025-10-13"
  /\ _dtm fy "20251013" "203" = "20251013"
  /\ ((1000 <= y)%Z ->
      _dtm fy (PyDate.pad4 y +:+ PyDate.pad2 m +:+ PyDate.pad2 d +:+ PyDate.pad2 H
                 +:+ PyDate.pad2 M) "203"
        = PyDate.pad4 y +:+ "-" +:+ PyDate.pad2 m +:+ "-" +:+ PyDate.pad2 d
            +:+ " " +:+ PyDate.pad2 H +:+ ":" +:+ PyDate.pad2 M
      /\ _dtm fy (PyDate.pad4 y +:+ PyDate.pad2 m +:+ PyDate.pad2 d +:+ PyDate.pad2 H
                    +:+ PyDate.pad2 M +:+ PyDate.pad2 S) "204"
         = PyDate.pad4 y +:+ "-" +:+ PyDate.pad2 m +:+ "-" +:+ PyDate.pad2 d
             +:+ " " +:+ PyDate.pad2 H +:+ ":" +:+ PyDate.pad2 M +:+ ":" +:+ PyDate.pad2 S
      /\ _dtm fy (PyDate.pad4 y +:+ PyDate.pad2 m +:+ PyDate.pad2 d) "102"
         = PyDate.pad4 y +:+ "-" +:+ PyDate.pad2 m +:+ "-" +:+ PyDate.pad2 d).
Proof.
  intros Hfy Hd Ht Hpass.
  assert (HH : (0 <= H <= 23)%Z) by apply Ht.
  assert (HM : (0 <= M <= 59)%Z) by apply Ht.
  assert (H203 :
    _dtm fy (PyDate.pad4 y +:+ PyDate.pad2 m +:+ PyDate.pad2 d +:+ PyDate.pad2 H
               +:+ PyDate.pad2 M) "203"
    = fy y +:+ "-" +:+ PyDate.pad2 m +:+ "-" +:+ PyDate.pad2 d
        +:+ " " +:+ PyDate.pad2 H +:+ ":" +:+ PyDate.pad2 M).
  { unfold _dtm.
    replace (String.length _) with 12%nat by (rewrite pad4_app, !pad2_app; reflexivity).
    cbn [String.eqb Ascii.eqb Bool.eqb Nat.eqb andb].
    rewrite strptime_minutes by assumption. cbn [bind].
    unfold PyDate.strftime_minutes, PyDate.strftime_date. cbn.
    now rewrite !string_app_assoc. }
  assert (H204 :
    _dtm fy (PyDate.pad4 y +:+ PyDate.pad2 m +:+ PyDate.pad2 d +:+ PyDate.pad2 H
               +:+ PyDate.pad2 M +:+ PyDate.pad2 S) "204"
    = fy y +:+ "-" +:+ PyDate.pad2 m +:+ "-" +:+ PyDate.pad2 d
        +:+ " " +:+ PyDate.pad2 H +:+ ":" +:+ PyDate.pad2 M +:+ ":" +:+ PyDate.pad2 S).
  { unfold _dtm.
    replace (String.length _) with 14%nat by (rewrite pad4_app, !pad2_app; reflexivity).
    cbn [String.eqb Ascii.eqb Bool.eqb Nat.eqb andb].
    rewrite strptime_seconds by assumption. cbn [bind].
    unfold PyDate.strftime_seconds, PyDate.strftime_minutes, PyDate.strftime_date. cbn.
    now rewrite !string_app_assoc. }
  assert (H102 :
    _dtm fy (PyDate.pad4 y +:+ PyDate.pad2 m +:+ PyDate.pad2 d) "102"
    = fy y +:+ "-" +:+ PyDate.pad2 m +:+ "-" +:+ PyDate.pad2 d).
  { unfold _dtm.
    replace (String.length _) with 8%nat by (rewrite pad4_app, !pad2_app; reflexivity).
    cbn [String.eqb Ascii.eqb Bool.eqb Nat.eqb andb].
    rewrite strptime_date by assumption. cbn [bind].
    unfold PyDate.strftime_date. cbn. reflexivity. }
  split; [exact H203|]. split; [exact H204|]. split; [exact H102|].
  split; [now apply dtm_passthrough|].
  split; [|split; [|split]].
  - change "202510130023"
      with (PyDate.pad4 2025 +:+ PyDate.pad2 10 +:+ PyDate.pad2 13 +:+ PyDate.pad2 0
              +:+ PyDate.pad2 23).
    unfold _dtm.
    cbn [String.eqb Ascii.eqb Bool.eqb Nat.eqb andb String.length].
    rewrite strptime_minutes by (repeat split; vm_compute; discriminate).
    cbn [bind]. unfold PyDate.strftime_minutes, PyDate.strftime_date. cbn.
    rewrite (Hfy 2025%Z) by lia. reflexivity.
  - change "20251013" with (PyDate.pad4 2025 +:+ PyDate.pad2 10 +:+ PyDate.pad2 13).
    unfold _dtm.
    cbn [String.eqb Ascii.eqb Bool.eqb Nat.eqb andb String.length].
    rewrite strptime_date by (repeat split; vm_compute; discriminate).
    cbn [bind]. unfold PyDate.strftime_date. cbn.
    rewrite (Hfy 2025%Z) by lia. reflexivity.
  - reflexivity.
  - intros Hy. assert (Hy' : (1000 <= y <= 9999)%Z) by (destruct Hd as (Hr & _); lia).
    rewrite (Hfy y Hy') in H203, H204, H102. split; [exact H203|]. split; [exact H204 | exact H102].
Qed.

Lemma dtm_formats_witness :
  _dtm PyDate.year_plain "099902281459" "203" = "999-02-28 14:59"
  /\ _dtm PyDate.year_plain "20240229235958" "204" = "2024-02-29 23:59:58"
  /\ _dtm PyDate.year_plain "20250230" "102" = "20250230".
Proof.
  pose proof year_plain_4digit as Hfy.
  assert (Hd1 : valid_date 999 2 28) by (repeat split; vm_compute; discriminate).
  assert (Ht1 : valid_time 14 59 0) by (repeat split; vm_compute; discriminate).
  assert (Hd2 : valid_date 2024 2 29) by (repeat split; vm_compute; discriminate).
  assert (Ht2 : valid_time 23 59 58) by (repeat split; vm_compute; discriminate).
  assert (Hp : mismatch_or_failure "20250230" "102").
  { intros n ds E. vm_compute in E. injection E as <- <-.
    right. exists ValueError. reflexivity. }
  split; [|split].
  - exact (proj1 (dtm_formats PyDate.year_plain 999 2 28 14 59 0 "20250230" "102"
                    Hfy Hd1 Ht1 Hp)).
  - exact (proj1 (proj2 (dtm_formats PyDate.year_plain 2024 2 29 23 59 58 "20250230" "102"
                           Hfy Hd2 Ht2 Hp))).
  - exact (proj1 (proj2 (proj2 (proj2
             (dtm_formats PyDate.year_plain 2024 2 29 23 59 58 "20250230" "102"
                Hfy Hd2 Ht2 Hp))))).
Defined.

(** At the year 999 the GNU C library writes [%Y] with three digits:
    the value is not rendered with a year of four digits. *)
Lemma dtm_year_below_1000 :
  _dtm PyDate.year_plain "099902281459" "203" = "999-02-28 14:59"
  /\ _dtm PyDate.year_plain "099902281459" "203" <> iso_minutes 999 2 28 14 59.
Proof. split; [vm_compute; reflexivity | vm_compute; discriminate]. Qed.

(** ** Counts decoder *)

Lemma int_or_zero_unparsed (val : option string) :
  _to_float val = None -> int_or_zero val = Ok 0%Z.
Proof. unfold int_or_zero. now intros ->. Qed.

(** The reference totals: integers for the qualifiers 2 and 8, floats
    for 7 and 12, nothing for an unknown qualifier, zero and [None] for a
    value that is no numeral. *)
Lemma counts_reference_values :
  let totals :=
    counts_and_amounts
      (split_segments "CNT+2:6'CNT+7:6,0'CNT+8:2'CNT+12:63.37'CNT+99:1'") in
  let blanks :=
    counts_and_amounts (split_segments "CNT+2:abc'CNT+7:abc'CNT+8'CNT+12'") in
  count_field totals "line_count" = Some (CInt 6)
  /\ count_field totals "total_gross_weight_kg"
     = Some (CFloat (S754_finite false 6755399441055744 (-50)))
  /\ count_field totals "shipment_count" = Some (CInt 2)
  /\ count_field totals "total_value_eur"
     = Some (CFloat (S754_finite false 8918534637077135 (-47)))
  /\ count_field blanks "line_count" = Some (CInt 0)
  /\ count_field blanks "total_gross_weight_kg" = Some CNone
  /\ count_field blanks "shipment_count" = Some (CInt 0)
  /\ count_field blanks "total_value_eur" = Some CNone.
Proof. cbv zeta. repeat split; vm_compute; reflexivity. Qed.

(** C7. A count value that [float()] reads as a NaN or as an infinity is
    passed to [int()], which raises: the decoder returns no totals at all
    for [CNT+2:nan], [CNT+8:inf] and [CNT+2:1e999]. *)
Theorem counts_raises_on_nan_and_inf :
  counts_and_amounts (split_segments "CNT+2:nan'") = Raise ValueError
  /\ counts_and_amounts (split_segments "CNT+8:inf'") = Raise OverflowError
  /\ counts_and_amounts (split_segments "CNT+2:1e999'") = Raise OverflowError.
Proof. repeat split; vm_compute; reflexivity. Qed.

(** ** Shipment decoder: the consignee *)

Lemma for_each_app {S A : Type} (body : S -> A -> result S) (a b : list A) (st : S) :
  for_each body (a ++ b) st = try! st' := for_each body a st in for_each body b st'.
Proof.
  revert st. induction a as [|x a IH]; intros st; simpl; [reflexivity|].
  destruct (body st x); simpl; [apply IH | reflexivity].
Qed.

Lemma mea_store_consignee (key : string) (elems : list string) (r r' : shipment) :
  mea_store key elems r = Ok r' -> consignee r' = consignee r.
Proof.
  unfold mea_store. destruct (Py.contains ":" _); [|congruence].
  destruct (unpack_two _); simpl; [|discriminate]. now intros [= <-].
Qed.

Lemma shipment_step_consignee (fy : Z -> string) (r r' : shipment) (s : segment) :
  is_consignee_seg s = false ->
  shipment_step fy r s = Ok r' -> consignee r' = consignee r.
Proof.
  destruct s as [tag elems]. unfold is_consignee_seg, is_tag, shipment_step.
  cbn [tag_of elems_of fst snd].
  destruct elems as [|e0 more]; [intros _ [= <-]; reflexivity|].
  intros Hc.
  repeat match goal with
  | |- context [if ?b then _ else _] => destruct b
  | |- context [match ?l with [] => _ | _ :: _ => _ end] => destruct l
  | |- context [let '(_, _) := ?p in _] => destruct p
  | |- context [match ?o with Some _ => _ | None => _ end] => destruct o
  | |- context [bind ?x _] => destruct x; cbn [bind]
  | |- Ok _ = Ok _ -> _ => intros [= <-]; reflexivity
  | |- Raise _ = Ok _ -> _ => discriminate
  | |- mea_store _ _ _ = Ok _ -> _ => apply mea_store_consignee
  | H : true = false |- _ => discriminate H
  | H : (_ && _) = false |- _ => cbn in H
  end.
Qed.

Lemma for_each_consignee (fy : Z -> string) (segs : list segment) (r r' : shipment) :
  Forall (fun s => is_consignee_seg s = false) segs ->
  for_each (shipment_step fy) segs r = Ok r' -> consignee r' = consignee r.
Proof.
  intros H. revert r. induction H as [|s rest Hs _ IH]; intros r; simpl.
  - now intros [= <-].
  - destruct (shipment_step fy r s) as [r1|] eqn:E; simpl; [|discriminate].
    intros Hrest. rewrite (IH _ Hrest). now apply (shipment_step_consignee fy r r1 s).
Qed.

Lemma rstrip_idem (p : ascii -> bool) (s : string) :
  Py.rstrip_with p (Py.rstrip_with p s) = Py.rstrip_with p s.
Proof.
  induction s as [|c rest IH]; simpl; [reflexivity|].
  destruct (Py.rstrip_with p rest) as [|d r'] eqn:E.
  - destruct (p c) eqn:Hc; simpl; [reflexivity | now rewrite Hc].
  - cbn [Py.rstrip_with]. cbn [Py.rstrip_with] in IH. now rewrite IH.
Qed.

Lemma lstrip_head (p : ascii -> bool) (s : string) :
  match Py.lstrip_with p s with
  | EmptyString => True
  | String c _ => p c = false
  end.
Proof.
  induction s as [|c rest IH]; simpl; [exact I|].
  destruct (p c) eqn:Hc; [exact IH | exact Hc].
Qed.

Lemma strip_idem (p : ascii -> bool) (s : string) :
  Py.strip_with p (Py.strip_with p s) = Py.strip_with p s.
Proof.
  unfold Py.strip_with. pose proof (lstrip_head p s) as Hh.
  destruct (Py.lstrip_with p s) as [|c r]; [reflexivity|].
  assert (Hk : exists r', Py.rstrip_with p (String c r) = String c r').
  { simpl. destruct (Py.rstrip_with p r); [rewrite Hh|]; eexists; reflexivity. }
  destruct Hk as [r' Hk]. rewrite Hk at 1. cbn [Py.lstrip_with]. rewrite Hh.
  rewrite <- Hk. apply rstrip_idem.
Qed.

Lemma replace_free (c d : ascii) (s : string) :
  Ascii.eqb d c = false -> Py.contains c (Py.replace c d s) = false.
Proof.
  intros Hd. induction s as [|x rest IH]; simpl; [reflexivity|].
  rewrite IH, orb_false_r. destruct (Ascii.eqb x c) eqn:E; assumption.
Qed.

Lemma replace_length (c d : ascii) (s : string) :
  String.length (Py.replace c d s) = String.length s.
Proof. induction s as [|x rest IH]; simpl; [reflexivity | now rewrite IH]. Qed.

Lemma lstrip_cut (p : ascii -> bool) (s : string) :
  exists l, s = l +:+ Py.lstrip_with p s /\ all_chars p l = true.
Proof.
  induction s as [|c rest (l & Hl & Hp)]; [now exists ""|].
  cbn [Py.lstrip_with]. destruct (p c) eqn:Hc; [|now exists ""].
  exists (String c l). change (String c l +:+ Py.lstrip_with p rest)
    with (String c (l +:+ Py.lstrip_with p rest)).
  rewrite <- Hl. cbn [all_chars]. now rewrite Hc, Hp.
Qed.

Lemma rstrip_cut (p : ascii -> bool) (s : string) :
  exists t, s = Py.rstrip_with p s +:+ t /\ all_chars p t = true.
Proof.
  induction s as [|c rest (t & Ht & Hp)]; [now exists ""|].
  cbn [Py.rstrip_with]. destruct (Py.rstrip_with p rest) as [|d r'] eqn:E.
  - change ("" +:+ t) with t in Ht. subst rest. destruct (p c) eqn:Hc.
    + exists (String c t). cbn [all_chars]. now rewrite Hc, Hp.
    + exists t. now split.
  - exists t. split; [|exact Hp].
    change (String c (String d r') +:+ t) with (String c (String d r' +:+ t)).
    now rewrite <- Ht.
Qed.

Lemma rstrip_end (p : ascii -> bool) (s : string) :
  ends_in p (Py.rstrip_with p s) = false.
Proof.
  induction s as [|c rest IH]; [reflexivity|].
  cbn [Py.rstrip_with]. destruct (Py.rstrip_with p rest) as [|d r'].
  - destruct (p c) eqn:Hc; [reflexivity | exact Hc].
  - exact IH.
Qed.

Lemma rstrip_start (p : ascii -> bool) (s : string) :
  starts_in p s = false -> starts_in p (Py.rstrip_with p s) = false.
Proof.
  destruct s as [|c rest]; [reflexivity|]. cbn [starts_in Py.rstrip_with]. intros Hc.
  destruct (Py.rstrip_with p rest); [now rewrite Hc | exact Hc].
Qed.

Lemma lstrip_start (p : ascii -> bool) (s : string) :
  starts_in p (Py.lstrip_with p s) = false.
Proof.
  pose proof (lstrip_head p s) as H. now destruct (Py.lstrip_with p s).
Qed.

(** Stripping cuts characters of [p] off the two ends, and nothing else. *)
Lemma strip_trimmed (p : ascii -> bool) (s : string) :
  trimmed_of p s (Py.strip_with p s).
Proof.
  unfold Py.strip_with.
  destruct (lstrip_cut p s) as (l & Hl & Hpl).
  destruct (rstrip_cut p (Py.lstrip_with p s)) as (t & Ht & Hpt).
  exists l, t. split; [now rewrite <- Ht|].
  split; [exact Hpl|]. split; [exact Hpt|].
  split; [apply rstrip_start, lstrip_start | apply rstrip_end].
Qed.

Lemma all_chars_ext (p q : ascii -> bool) (s : string) :
  (forall c, p c = q c) -> all_chars p s = all_chars q s.
Proof.
  intros H. induction s as [|c rest IH]; [reflexivity|].
  cbn [all_chars]. now rewrite H, IH.
Qed.

Lemma ends_in_ext (p q : ascii -> bool) (s : string) :
  (forall c, p c = q c) -> ends_in p s = ends_in q s.
Proof.
  intros H. induction s as [|c rest IH]; [reflexivity|].
  cbn [ends_in]. destruct rest; [apply H | exact IH].
Qed.

Lemma trimmed_of_ext (p q : ascii -> bool) (s name : string) :
  (forall c, p c = q c) -> trimmed_of p s name -> trimmed_of q s name.
Proof.
  intros H (l & t & Hs & Hl & Ht & Hb & He). exists l, t.
  rewrite <- (all_chars_ext p q l H), <- (all_chars_ext p q t H), <- (ends_in_ext p q name H).
  repeat split; try assumption. destruct name; [reflexivity|]. cbn [starts_in] in *.
  now rewrite <- H.
Qed.

Lemma replace_get (x d : ascii) (s : string) (i : nat) (c : ascii) :
  String.get i s = Some c ->
  String.get i (Py.replace x d s) = Some (if Ascii.eqb c x then d else c).
Proof.
  revert i. induction s as [|a rest IH]; intros i; [discriminate|].
  cbn [Py.replace]. destruct i as [|i]; cbn [String.get].
  - now intros [= ->].
  - apply IH.
Qed.

(** C8. In a group whose last consignee segment is [NAD+CN] with the
    elements [elems], the consignee record has: as name the 3rd element,
    followed by a space and the 4th element when the 4th is present and not
    empty, the whole then cut at its two ends of the characters [+] and
    space and of no other, so that blanks inside the name and white space
    other than the space stay; as street the 5th element with every
    sub-element separator turned into a space, character by character, so
    that the street holds no separator and has the length of the element;
    as city, state, postal code and country the 6th to 9th elements, each
    the empty string when the segment is too short to hold it. *)
Theorem consignee_fields (fy : Z -> string) (pre post : list segment)
    (rest : list string) (r : shipment) :
  Forall (fun s => is_consignee_seg s = false) post ->
  shipment_of_group fy (pre ++ ("NAD", "CN" :: rest) :: post) = Ok r ->
  let el (k : nat) := default "" (("CN" :: rest) !! k) in
  let joined := el 2 +:+ (if String.eqb (el 3) "" then "" else " " +:+ el 3) in
  exists name street,
    consignee r !! "name" = Some name
    /\ trimmed_of plus_or_blank joined name
    /\ consignee r !! "street" = Some street
    /\ String.length street = String.length (el 4)
    /\ (forall i c, String.get i (el 4) = Some c ->
          String.get i street = Some (if Ascii.eqb c ":" then " "%char else c))
    /\ Py.contains ":" street = false
    /\ consignee r !! "city" = Some (el 5)
    /\ consignee r !! "state" = Some (el 6)
    /\ consignee r !! "zip" = Some (el 7)
    /\ consignee r !! "country" = Some (el 8).
Proof.
  intros Hpost Hgroup el joined.
  assert (Hc : consignee r = consignee_of ("CN" :: rest)).
  { unfold shipment_of_group in Hgroup.
    destruct (for_each _ _ _) as [r0|] eqn:E; simpl in Hgroup; [|discriminate].
    injection Hgroup as <-. cbn [consignee set_items].
    change (pre ++ ("NAD", "CN" :: rest) :: post)
      with (pre ++ [("NAD", "CN" :: rest)] ++ post) in E.
    rewrite !for_each_app in E.
    destruct (for_each _ pre _) as [r1|]; simpl in E; [|discriminate].
    rewrite (for_each_consignee fy post _ _ Hpost E). reflexivity. }
  rewrite Hc. unfold consignee_of, Py.get_or. fold (el 2) (el 3) (el 4).
  exists (Py.strip_chars "+ " (el 2 +:+ (if Py.truthy (el 3) then " " +:+ el 3 else ""))),
         (Py.replace ":" " " (el 4)).
  split; [reflexivity|]. split.
  { assert (Hj : el 2 +:+ (if Py.truthy (el 3) then " " +:+ el 3 else "") = joined)
      by (unfold joined; now destruct (el 3)).
    rewrite Hj. unfold Py.strip_chars.
    apply (trimmed_of_ext (fun c => Py.contains c "+ ")); [|apply strip_trimmed].
    intros c. unfold plus_or_blank. cbn [Py.contains]. now rewrite orb_false_r. }
  split; [reflexivity|]. split; [apply replace_length|].
  split; [intros i c; apply replace_get|].
  split; [now apply replace_free|]. repeat split.
Qed.

(** ** Header decoder: the interchange date *)

Lemma digit_char_not_colon (n : Z) :
  Ascii.eqb (PyDate.digit_char n) ":" = false.
Proof.
  unfold PyDate.digit_char.
  assert (Hr : (0 <= n mod 10 < Z.of_nat 10)%Z) by (apply Z.mod_pos_bound; lia).
  revert Hr. generalize (n mod 10)%Z. apply Z_below_cases.
  intros k Hk. below_cases 10 k (reflexivity).
Qed.

Lemma split_first_date_time (a b c : Z) (t : string) :
  Py.split_first ":" (PyDate.pad2 a +:+ PyDate.pad2 b +:+ PyDate.pad2 c +:+ ":" +:+ t)
  = (PyDate.pad2 a +:+ PyDate.pad2 b +:+ PyDate.pad2 c, t).
Proof.
  rewrite !pad2_app. cbn [Py.split_first]. rewrite !digit_char_not_colon.
  cbn [Py.split_first]. reflexivity.
Qed.

Lemma strptime_two_digit_year (yy m d H M : Z) :
  (0 <= yy <= 99)%Z -> valid_date (century yy) m d ->
  (0 <= H <= 23)%Z -> (0 <= M <= 59)%Z ->
  PyDate.strptime
    (PyDate.pad2 yy +:+ PyDate.pad2 m +:+ PyDate.pad2 d +:+ PyDate.pad2 H +:+ PyDate.pad2 M)
    [PyDate.Dy; PyDate.Dm; PyDate.Dd; PyDate.DH; PyDate.DM]
  = Ok (PyDate.mk_datetime (century yy) m d H M 0).
Proof.
  intros Hyy Hv HH HM. unfold PyDate.strptime.
  destruct Hv as (Hy & Hm & Hd). pose proof (days_in_month_le (century yy) m).
  rewrite (pad2_nil M).
  rewrite (match_two PyDate.Dy yy ltac:(simpl; lia) _ _ _ _
             (match_two PyDate.Dm m ltac:(simpl; lia) _ _ _ _
                (match_two PyDate.Dd d ltac:(simpl; lia) _ _ _ _
                   (match_time H M [] "" [] "" HH HM eq_refl)))).
  cbn [Py.truthy fold_left PyDate.set_group fst snd].
  rewrite !int_chars2 by lia. cbn [PyDate.year PyDate.month PyDate.day PyDate.hour
                                     PyDate.minute PyDate.second].
  fold (century yy).
  rewrite valid_intro; [reflexivity | repeat split; lia | repeat split; lia].
Qed.

Lemma header_step_interchange (fy : Z -> string) (data : gmap string string)
    (s : segment) :
  is_tag "UNB" s = false ->
  header_step fy data s !! "interchange_datetime" = data !! "interchange_datetime".
Proof.
  destruct s as [tag elems]. unfold is_tag, header_step; cbn [tag_of fst].
  intros ->.
  repeat match goal with
  | |- context [String.eqb tag ?t] => destruct (String.eqb tag t)
  end; try reflexivity.
  - now rewrite !lookup_insert_ne by discriminate.
  - now rewrite !lookup_insert_ne by discriminate.
  - destruct elems as [|e0 ?]; [reflexivity|].
    destruct (Py.split ":" e0) as [|code [|value more]]; try reflexivity.
    destruct (String.eqb code "9"); [now rewrite lookup_insert_ne by discriminate|].
    destruct (String.eqb code "10"); [now rewrite lookup_insert_ne by discriminate|].
    reflexivity.
  - destruct elems as [|e0 ?]; [reflexivity|].
    destruct (Py.split ":" e0) as [|? [|? ?]];
      now rewrite ?lookup_insert_ne by discriminate.
  - destruct elems as [|? [|e1 ?]]; try reflexivity.
    now rewrite lookup_insert_ne by discriminate.
  - destruct elems as [|e0 ?]; [reflexivity|].
    destruct (String.eqb e0 "198+WTAM");
      [now rewrite lookup_insert_ne by discriminate|].
    destruct (Py.startswith "198" e0); [|reflexivity].
    destruct (Py.split "+" e0) as [|? [|? ?]];
      now rewrite ?lookup_insert_ne by discriminate.
Qed.

Lemma header_fold_interchange (fy : Z -> string) (post : list segment)
    (data : gmap string string) :
  Forall (fun s => is_tag "UNB" s = false) post ->
  fold_left (header_step fy) post data !! "interchange_datetime"
  = data !! "interchange_datetime".
Proof.
  intros H. revert data. induction H as [|s rest Hs _ IH]; intros data; simpl.
  - reflexivity.
  - now rewrite IH, header_step_interchange.
Qed.

(** What the interchange segment with date element [dt] stores. *)
Lemma header_step_unb (fy : Z -> string) (data : gmap string string)
    (elems : list string) (dt : string) :
  elems !! 3 = Some dt -> Py.contains ":" dt = true ->
  header_step fy data ("UNB", elems) !! "interchange_datetime"
  = Some (match PyDate.strptime (fst (Py.split_first ":" dt) +:+ snd (Py.split_first ":" dt))
                  [PyDate.Dy; PyDate.Dm; PyDate.Dd; PyDate.DH; PyDate.DM] with
          | Ok parsed => PyDate.strftime_minutes fy parsed
          | Raise _ => dt
          end).
Proof.
  intros Hdt Hcolon. unfold header_step. cbv beta iota zeta.
  change (String.eqb "UNB" "UNB") with true. cbv iota.
  replace (Py.get_or elems 3 "") with dt by (unfold Py.get_or; now rewrite Hdt).
  assert (Ht : Py.truthy dt = true) by (destruct dt; [discriminate Hcolon | reflexivity]).
  rewrite Ht, Hcolon. cbn [andb].
  destruct (Py.split_first ":" dt) as [d t]. cbn [fst snd].
  rewrite lookup_insert_ne by discriminate.
  destruct (PyDate.strptime _ _); now rewrite lookup_insert_eq.
Qed.

(** An interchange segment whose element 3 holds no separator (or is
    empty, or missing) leaves the date field as it was. *)
Lemma header_step_unb_plain (fy : Z -> string) (data : gmap string string)
    (elems : list string) :
  Py.contains ":" (default "" (elems !! 3)) = false ->
  header_step fy data ("UNB", elems) !! "interchange_datetime"
  = data !! "interchange_datetime".
Proof.
  intros Hplain. unfold header_step. cbv beta iota zeta.
  change (String.eqb "UNB" "UNB") with true. cbv iota.
  assert (Hg : Py.get_or elems 3 "" = default "" (elems !! 3))
    by (unfold Py.get_or; now destruct (elems !! 3)).
  rewrite Hg, Hplain, andb_false_r.
  now rewrite !lookup_insert_ne by discriminate.
Qed.

(** C9. Take the last interchange segment of a message.  When its element
    3 is [yymmdd:HHMM], a valid date with a two-digit year and a time, the
    header field [interchange_datetime] is [YYYY-MM-DD HH:MM], the year
    being 20yy up to 68 and 19yy from 69 on.  When its element 3 holds the
    separator but date and time put together do not parse, the field is
    the element as it stands.  When its element 3 holds no separator, is
    empty or is missing, the segment does not touch the field: it stays
    unset, or keeps what an earlier interchange segment has stored. *)
Theorem header_interchange_datetime (fy : Z -> string) (pre post : list segment)
    (elems elems' elems'' : list string) (yy m d H M : Z) (dt : string) :
  PyDate.year_4digit fy ->
  Forall (fun s => is_tag "UNB" s = false) post ->
  (0 <= yy <= 99)%Z -> valid_date (century yy) m d ->
  (0 <= H <= 23)%Z -> (0 <= M <= 59)%Z ->
  elems !! 3 = Some (PyDate.pad2 yy +:+ PyDate.pad2 m +:+ PyDate.pad2 d +:+ ":"
                       +:+ PyDate.pad2 H +:+ PyDate.pad2 M) ->
  elems' !! 3 = Some dt ->
  Py.contains ":" dt = true ->
  (exists e, PyDate.strptime (fst (Py.split_first ":" dt) +:+ snd (Py.split_first ":" dt))
               [PyDate.Dy; PyDate.Dm; PyDate.Dd; PyDate.DH; PyDate.DM] = Raise e) ->
  Py.contains ":" (default "" (elems'' !! 3)) = false ->
  header fy (pre ++ ("UNB", elems) :: post) !! "interchange_datetime"
    = Some (PyDate.pad4 (century yy) +:+ "-" +:+ PyDate.pad2 m +:+ "-" +:+ PyDate.pad2 d
              +:+ " " +:+ PyDate.pad2 H +:+ ":" +:+ PyDate.pad2 M)
  /\ header fy (pre ++ ("UNB", elems') :: post) !! "interchange_datetime" = Some dt
  /\ header fy (pre ++ ("UNB", elems'') :: post) !! "interchange_datetime"
     = header fy pre !! "interchange_datetime".
Proof.
  intros Hfy Hpost Hyy Hv HH HM He He' Hcolon [e Hfail] Hplain.
  unfold header. split; [|split].
  - change (pre ++ ("UNB", elems) :: post) with (pre ++ [("UNB", elems)] ++ post).
    rewrite !fold_left_app, header_fold_interchange by assumption.
    cbn [fold_left]. rewrite (header_step_unb fy _ elems _ He).
    + rewrite split_first_date_time. cbn [fst snd].
      rewrite string_app_assoc, string_app_assoc.
      rewrite strptime_two_digit_year by assumption.
      unfold PyDate.strftime_minutes, PyDate.strftime_date. cbn.
      rewrite Hfy by (unfold century; destruct (yy <=? 68)%Z; lia).
      now rewrite !string_app_assoc.
    + rewrite !pad2_app. cbn [Py.contains]. rewrite !digit_char_not_colon. reflexivity.
  - change (pre ++ ("UNB", elems') :: post) with (pre ++ [("UNB", elems')] ++ post).
    rewrite !fold_left_app, header_fold_interchange by assumption.
    cbn [fold_left]. rewrite (header_step_unb fy _ elems' _ He' Hcolon).
    now rewrite Hfail.
  - change (pre ++ ("UNB", elems'') :: post) with (pre ++ [("UNB", elems'')] ++ post).
    rewrite !fold_left_app, header_fold_interchange by assumption.
    cbn [fold_left]. now apply header_step_unb_plain.
Qed.

(** ** Party decoder: a communication segment without contact *)

Lemma parties_step_com (ps : gmap string (gmap string party_value))
    (cta : option string) (e : string) (es : list string) :
  parties_step (ps, cta) ("COM", e :: es)
  = (setdefault_store "CTA" "tel" (PStr (head_or_empty (Py.split ":" e))) ps, cta).
Proof. reflexivity. Qed.

Lemma parties_step_no_role (st : gmap string (gmap string party_value) * option string)
    (s : segment) :
  is_tag "CTA" s = false -> no_role (fst st) -> no_role (fst (parties_step st s)).
Proof.
  destruct st as [ps cta], s as [tag elems].
  unfold is_tag, parties_step; cbn [tag_of fst]. intros Htag Hinv.
  destruct elems as [|e0 more]; [exact Hinv|].
  destruct (String.eqb tag "NAD").
  { cbn [fst]. intros rec. destruct (decide (e0 = "CTA")) as [-> | Hne].
    - rewrite lookup_insert_eq. intros [= <-]. reflexivity.
    - rewrite lookup_insert_ne by assumption. apply Hinv. }
  rewrite Htag.
  destruct (String.eqb tag "COM").
  { cbn [fst]. unfold setdefault_store. intros rec.
    rewrite lookup_insert_eq. intros [= <-].
    rewrite lookup_insert_ne by discriminate.
    destruct (ps !! "CTA") as [old|] eqn:E; cbn [default]; [now apply Hinv | reflexivity]. }
  destruct (String.eqb tag "RFF" && Py.startswith "VA:" e0); [|exact Hinv].
  cbn [fst]. intros rec. rewrite lookup_insert_ne by discriminate. apply Hinv.
Qed.

Lemma parties_fold_no_role (segs : list segment)
    (st : gmap string (gmap string party_value) * option string) :
  Forall (fun s => is_tag "CTA" s = false) segs ->
  no_role (fst st) -> no_role (fst (fold_left parties_step segs st)).
Proof.
  intros H. revert st. induction H as [|s rest Hs _ IH]; intros st Hinv; simpl.
  - exact Hinv.
  - apply IH. now apply parties_step_no_role.
Qed.

(** C10. A communication segment that carries an element stores, under
    the synthetic key ["CTA"], the phone read before the first sub-element
    separator, creating the record when none is there; when no contact
    segment precedes it in the message, the record found under ["CTA"]
    right after it has this phone and no role. *)
Theorem parties_com_without_contact (pre : list segment) (e : string)
    (es : list string) :
  Forall (fun s => is_tag "CTA" s = false) pre ->
  let tel := head_or_empty (Py.split ":" e) in
  let ps := parties (pre ++ [("COM", e :: es)]) in
  ps !! "CTA" = Some (<["tel" := PStr tel]> (default ∅ (parties pre !! "CTA")))
  /\ Py.contains ":" tel = false
  /\ forall rec, ps !! "CTA" = Some rec ->
       rec !! "tel" = Some (PStr tel) /\ rec !! "role" = None.
Proof.
  intros Hpre tel ps.
  assert (Hps : ps !! "CTA"
                = Some (<["tel" := PStr tel]> (default ∅ (parties pre !! "CTA")))).
  { subst ps. unfold parties. rewrite fold_left_app. cbn [fold_left].
    destruct (fold_left parties_step pre (∅, None)) as [ps0 cta] eqn:E.
    rewrite parties_step_com. cbn [fst]. unfold setdefault_store.
    now rewrite lookup_insert_eq. }
  split; [exact Hps|]. split.
  - subst tel. pose proof (split_parts_free ":" e) as Hfree.
    destruct (Py.split ":" e) as [|w ws]; [reflexivity|].
    now inversion Hfree.
  - intros rec Hrec. rewrite Hps in Hrec. injection Hrec as <-.
    split; [apply lookup_insert_eq|].
    rewrite lookup_insert_ne by discriminate.
    assert (Hinv : no_role (parties pre)).
    { apply parties_fold_no_role; [assumption|].
      intros rec Hrec. cbn [fst] in Hrec. rewrite lookup_empty in Hrec. discriminate. }
    destruct (parties pre !! "CTA") as [old|] eqn:E; cbn [default];
      [now apply Hinv | reflexivity].
Qed.

Lemma parties_com_without_contact_witness :
  parties (split_segments "NAD+IV+5450534005821::9'COM+0161081000:TE'") !! "CTA"
  = Some {["tel" := PStr "0161081000"]}.
Proof.
  assert (Hpre : Forall (fun s => is_tag "CTA" s = false)
                   [("NAD", ["IV"; "5450534005821::9"])])
    by (repeat constructor).
  exact (proj1 (parties_com_without_contact
                  [("NAD", ["IV"; "5450534005821::9"])] "0161081000:TE" [] Hpre)).
Defined.

Lemma extract_items_pairing_witness :
  _extract_items_from_pci
    [("GID", ["1"; "5:PK"]);
     ("PCI", ["ZZZ"; "Unknown:0000.00.0000:TR:1:EA:528,00:528,00"]);
     ("FTX", ["AAR"; ""; "DDU"]);
     ("RFF", ["VP:B0B8TH8P45"]);
     ("PCI", ["ZZZ"; "Unknown:0000.00.0000:TR:1:EA:532,00:532,00"])]
  = [<["asin" := IStr "B0B8TH8P45"]>
       (<["unit_price_try" := IFloat (S754_finite false 4644337115725824 (-43))]>
          (<["qty" := IFloat (S754_finite false 4503599627370496 (-52))]>
             (<["uom" := IStr "EA"]> ∅)))].
Proof.
  assert (Hmid : Forall (fun s => is_item_line s = false /\ is_product_ref s = false)
                   [("FTX", ["AAR"; ""; "DDU"])])
    by (repeat constructor).
  assert (Hnil : Forall (fun s => is_item_line s = false /\ is_product_ref s = false)
                   (@nil segment))
    by constructor.
  assert (Htail : Forall (fun s => is_product_ref s = false) (@nil segment))
    by constructor.
  assert (Hlen : 4 <= length (Py.split ":"
                    (Py.join ":" ["ZZZ"; "Unknown:0000.00.0000:TR:1:EA:528,00:528,00"])))
    by (vm_compute; repeat constructor).
  pose proof (extract_items_pairing
                [("GID", ["1"; "5:PK"])] [("FTX", ["AAR"; ""; "DDU"])] [] 
                [("PCI", ["ZZZ"; "Unknown:0000.00.0000:TR:1:EA:532,00:532,00"])] []
                "ZZZ" "ZZZ" "B0B8TH8P45"
                ["Unknown:0000.00.0000:TR:1:EA:528,00:528,00"] [] []
                Hmid Hnil Htail) as H.
  cbv zeta in H. destruct H as (Hfields & Hpair & _).
  specialize (Hfields Hlen).
  etransitivity; [exact Hpair|].
  rewrite Hfields. vm_compute. reflexivity.
Defined.

Lemma consignee_fields_witness :
  exists r,
    shipment_of_group PyDate.year_plain
      [("GID", ["1"; "5:PK"]);
       ("NAD", ["CN"; ""; "+ SELCUK "; " COBANBAY +";
                "Kemal Askar Cad.:Oztabak apt.::Merkez"; "Afyonkarahisar"]);
       ("MEA", ["WT"; "G"; "KG:.00"])] = Ok r
    /\ consignee r !! "name" = Some "SELCUK   COBANBAY"
    /\ trimmed_of plus_or_blank "+ SELCUK   COBANBAY +" "SELCUK   COBANBAY"
    /\ consignee r !! "street" = Some "Kemal Askar Cad. Oztabak apt.  Merkez"
    /\ consignee r !! "country" = Some "".
Proof.
  destruct (shipment_of_group PyDate.year_plain
      [("GID", ["1"; "5:PK"]);
       ("NAD", ["CN"; ""; "+ SELCUK "; " COBANBAY +";
                "Kemal Askar Cad.:Oztabak apt.::Merkez"; "Afyonkarahisar"]);
       ("MEA", ["WT"; "G"; "KG:.00"])]) as [r|e] eqn:E;
    [|vm_compute in E; discriminate E].
  exists r. split; [reflexivity|].
  assert (Hpost : Forall (fun s => is_consignee_seg s = false)
                    [("MEA", ["WT"; "G"; "KG:.00"])])
    by (repeat constructor).
  pose proof (consignee_fields PyDate.year_plain [("GID", ["1"; "5:PK"])]
                [("MEA", ["WT"; "G"; "KG:.00"])]
                [""; "+ SELCUK "; " COBANBAY +";
                 "Kemal Askar Cad.:Oztabak apt.::Merkez"; "Afyonkarahisar"] r Hpost E) as H.
  cbv zeta in H.
  destruct H as (name & street & Hn & Ht & Hs & _ & _ & _ & _ & _ & _ & Hc).
  vm_compute in E. injection E as <-.
  vm_compute in Hn. injection Hn as <-.
  vm_compute in Hs. injection Hs as <-.
  split; [vm_compute; reflexivity|]. split; [exact Ht|].
  split; [vm_compute; reflexivity | exact Hc].
Defined.

(** With blanks inside the two elements the name keeps them: the elements
    are not trimmed one by one; and a field the segment is too short for is
    the empty string, not a missing key. *)
Lemma consignee_name_not_trimmed :
  exists r,
    shipment_of_group PyDate.year_plain
      [("GID", ["1"]); ("NAD", ["CN"; ""; "Ada "; " Lovelace"])] = Ok r
    /\ consignee r !! "name" = Some "Ada   Lovelace"
    /\ consignee r !! "name" <> Some (name_both_trimmed "Ada " " Lovelace")
    /\ consignee r !! "country" = Some ""
    /\ consignee r !! "country" <> None.
Proof.
  eexists. split; [vm_compute; reflexivity|].
  split; [vm_compute; reflexivity|]. split; [vm_compute; discriminate|].
  split; [vm_compute; reflexivity | vm_compute; discriminate].
Qed.

Lemma header_interchange_datetime_witness :
  header PyDate.year_plain
    [("UNB", ["UNOC:3"; "5450534000000:14"; "MNGMFN:14"; "991231:2359"; "1"]);
     ("UNB", ["UNOC:3"; "5450534000000:14"; "MNGMFN:14"; "251013:0023"; "2243369"]);
     ("UNH", ["1"; "IFTMIN:D:01A:UN:EAN008"])] !! "interchange_datetime"
  = Some "2025-10-13 00:23"
  /\ header PyDate.year_plain
       [("UNB", ["UNOC:3"; "5450534000000:14"; "MNGMFN:14"; "991231:2359"; "1"]);
        ("UNB", ["UNOC:3"; "5450534000000:14"; "MNGMFN:14"; "251340:0023"; "2243369"]);
        ("UNH", ["1"; "IFTMIN:D:01A:UN:EAN008"])] !! "interchange_datetime"
     = Some "251340:0023"
  /\ header PyDate.year_plain
       [("UNB", ["UNOC:3"; "5450534000000:14"; "MNGMFN:14"; "991231:2359"; "1"]);
        ("UNB", ["UNOC:3"; "5450534000000:14"; "MNGMFN:14"; "2510130023"; "2243369"]);
        ("UNH", ["1"; "IFTMIN:D:01A:UN:EAN008"])] !! "interchange_datetime"
     = header PyDate.year_plain
         [("UNB", ["UNOC:3"; "5450534000000:14"; "MNGMFN:14"; "991231:2359"; "1"])]
         !! "interchange_datetime".
Proof.
  assert (Hpost : Forall (fun s => is_tag "UNB" s = false)
                    [("UNH", ["1"; "IFTMIN:D:01A:UN:EAN008"])])
    by (repeat constructor).
  assert (Hyy : (0 <= 25 <= 99)%Z) by lia.
  assert (Hv : valid_date (century 25) 10 13) by (repeat split; vm_compute; discriminate).
  assert (HH : (0 <= 0 <= 23)%Z) by lia.
  assert (HM : (0 <= 23 <= 59)%Z) by lia.
  assert (Hfail : exists e,
             PyDate.strptime (fst (Py.split_first ":" "251340:0023")
                              +:+ snd (Py.split_first ":" "251340:0023"))
               [PyDate.Dy; PyDate.Dm; PyDate.Dd; PyDate.DH; PyDate.DM] = Raise e)
    by (exists ValueError; reflexivity).
  exact (header_interchange_datetime PyDate.year_plain
           [("UNB", ["UNOC:3"; "5450534000000:14"; "MNGMFN:14"; "991231:2359"; "1"])]
           [("UNH", ["1"; "IFTMIN:D:01A:UN:EAN008"])]
           ["UNOC:3"; "5450534000000:14"; "MNGMFN:14"; "251013:0023"; "2243369"]
           ["UNOC:3"; "5450534000000:14"; "MNGMFN:14"; "251340:0023"; "2243369"]
           ["UNOC:3"; "5450534000000:14"; "MNGMFN:14"; "2510130023"; "2243369"]
           25 10 13 0 23 "251340:0023"
           year_plain_4digit Hpost Hyy Hv HH HM eq_refl eq_refl eq_refl Hfail eq_refl).
Defined.

(** An element 3 without separator is no date the decoder reads, and it
    is not passed through either: alone it leaves the field unset, and
    after an earlier interchange segment it leaves that segment's date. *)
Lemma interchange_without_separator :
  header PyDate.year_plain
    [("UNB", ["UNOC:3"; "5450534000000:14"; "MNGMFN:14"; "2510130023"; "2243369"])]
    !! "interchange_datetime" = None
  /\ header PyDate.year_plain
       [("UNB", ["UNOC:3"; "5450534000000:14"; "MNGMFN:14"; "2510130023"; "2243369"])]
       !! "interchange_datetime" <> Some "2510130023"
  /\ header PyDate.year_plain
       [("UNB", ["UNOC:3"; "5450534000000:14"; "MNGMFN:14"; "251013:0023"; "1"]);
        ("UNB", ["UNOC:3"; "5450534000000:14"; "MNGMFN:14"; "garbage"; "2"])]
       !! "interchange_datetime" = Some "2025-10-13 00:23".
Proof.
  split; [vm_compute; reflexivity|].
  split; [vm_compute; discriminate | vm_compute; reflexivity].
Qed.

(** * Further properties *)

(** ** Tokenizer: tokens, round trip, line breaks *)

Lemma contains_app (c : ascii) (a b : string) :
  Py.contains c (a +:+ b) = Py.contains c a || Py.contains c b.
Proof.
  induction a as [|x a IH]; [reflexivity|].
  change (String x a +:+ b) with (String x (a +:+ b)). simpl.
  now rewrite IH, orb_assoc.
Qed.

Lemma contains_remove_same (c : ascii) (s : string) :
  Py.contains c (Py.remove c s) = false.
Proof.
  induction s as [|x s IH]; simpl; [reflexivity|].
  destruct (Ascii.eqb x c) eqn:E; simpl; [exact IH | now rewrite E].
Qed.

Lemma contains_remove (c d : ascii) (s : string) :
  Py.contains d s = false -> Py.contains d (Py.remove c s) = false.
Proof.
  induction s as [|x s IH]; simpl; [reflexivity|].
  intros H. apply orb_false_iff in H as [Hx Hs].
  destruct (Ascii.eqb x c); simpl; [now apply IH | now rewrite Hx, IH].
Qed.

Lemma contains_lstrip (p : ascii -> bool) (d : ascii) (s : string) :
  Py.contains d s = false -> Py.contains d (Py.lstrip_with p s) = false.
Proof.
  induction s as [|x s IH]; simpl; [reflexivity|].
  intros H. destruct (p x); [|exact H].
  apply orb_false_iff in H as [_ Hs]. now apply IH.
Qed.

Lemma contains_rstrip (p : ascii -> bool) (d : ascii) (s : string) :
  Py.contains d s = false -> Py.contains d (Py.rstrip_with p s) = false.
Proof.
  induction s as [|x s IH]; simpl; [reflexivity|].
  intros H. apply orb_false_iff in H as [Hx Hs]. specialize (IH Hs).
  destruct (Py.rstrip_with p s) as [|y r].
  - destruct (p x); simpl; [reflexivity | now rewrite Hx].
  - cbn [Py.contains]. cbn [Py.contains] in IH. now rewrite Hx, IH.
Qed.

Lemma contains_strip (p : ascii -> bool) (d : ascii) (s : string) :
  Py.contains d s = false -> Py.contains d (Py.strip_with p s) = false.
Proof. intros H. unfold Py.strip_with. now apply contains_rstrip, contains_lstrip. Qed.

Lemma split_parts_keep (c d : ascii) (s : string) :
  Py.contains d s = false ->
  Forall (fun w => Py.contains d w = false) (Py.split c s).
Proof.
  induction s as [|x s IH]; simpl; intros H.
  - repeat constructor.
  - apply orb_false_iff in H as [Hx Hs]. specialize (IH Hs).
    destruct (Ascii.eqb x c).
    + constructor; [reflexivity | exact IH].
    + destruct (Py.split c s) as [|w ws]; simpl.
      * repeat constructor. simpl. now rewrite Hx.
      * inversion IH; subst. constructor; [|assumption]. simpl. now rewrite Hx.
Qed.

Lemma segs_of_parts_clean (parts : list string) :
  Forall (fun p => Py.contains SEG_SEP p = false /\ Py.contains LF p = false
                   /\ Py.contains CR p = false) parts ->
  Forall (fun seg => Forall token_clean (tag_of seg :: elems_of seg)
                     /\ Py.strip (tag_of seg) = tag_of seg)
    (segs_of_parts parts).
Proof.
  induction 1 as [|p rest (Hq & Hl & Hc) _ IH]; simpl; [constructor|].
  destruct (negb (Py.truthy p)); [exact IH|].
  pose proof (split_parts_free COMP_SEP p) as Hplus.
  pose proof (split_parts_keep COMP_SEP SEG_SEP p Hq) as Hq'.
  pose proof (split_parts_keep COMP_SEP LF p Hl) as Hl'.
  pose proof (split_parts_keep COMP_SEP CR p Hc) as Hc'.
  destruct (Py.split COMP_SEP p) as [|chunk0 chunks]; [exact IH|].
  constructor; [|exact IH]. cbn [tag_of elems_of fst snd].
  inversion Hplus; inversion Hq'; inversion Hl'; inversion Hc'; subst.
  split; [|apply strip_idem].
  constructor.
  - unfold token_clean, Py.strip. repeat split; now apply contains_strip.
  - apply Forall_forall. intros e He. unfold token_clean.
    repeat split;
      match goal with
      | H : Forall _ chunks |- Py.contains ?c e = false =>
          let H' := fresh in
          pose proof (proj1 (Forall_forall _ _) H e He) as H';
          simpl in H'; exact H'
      end.
Qed.

(** X1. Whatever the text, no tag and no element of a decoded segment
    holds a segment terminator, an element separator or a line break, and
    every tag is free of white space at both ends. *)
Theorem split_segments_tokens (text : string) :
  Forall (fun seg => Forall token_clean (tag_of seg :: elems_of seg)
                     /\ Py.strip (tag_of seg) = tag_of seg)
    (split_segments text).
Proof.
  unfold split_segments. apply segs_of_parts_clean.
  set (raw := Py.remove CR (Py.remove LF (Py.strip text))).
  assert (Hl : Py.contains LF raw = false)
    by (apply contains_remove, contains_remove_same).
  assert (Hc : Py.contains CR raw = false) by apply contains_remove_same.
  pose proof (split_parts_free SEG_SEP raw) as H1.
  pose proof (split_parts_keep SEG_SEP LF raw Hl) as H2.
  pose proof (split_parts_keep SEG_SEP CR raw Hc) as H3.
  apply List.Forall_forall. intros p Hp. apply filter_In in Hp as [Hp _].
  repeat split.
  - exact (proj1 (List.Forall_forall _ _) H1 p Hp).
  - exact (proj1 (List.Forall_forall _ _) H2 p Hp).
  - exact (proj1 (List.Forall_forall _ _) H3 p Hp).
Qed.

Lemma split_app_sep (c : ascii) (a b : string) :
  Py.contains c a = false -> Py.split c (a +:+ String c b) = a :: Py.split c b.
Proof.
  induction a as [|x a IH]; intros H.
  - change ("" +:+ String c b) with (String c b). simpl. now rewrite Ascii.eqb_refl.
  - change (String x a +:+ String c b) with (String x (a +:+ String c b)).
    simpl in H. apply orb_false_iff in H as [Hx Ha].
    simpl. now rewrite Hx, (IH Ha).
Qed.

Lemma contains_join (c : ascii) (sep : string) (l : list string) :
  Py.contains c sep = false ->
  Forall (fun w => Py.contains c w = false) l ->
  Py.contains c (Py.join sep l) = false.
Proof.
  intros Hsep. induction 1 as [|x rest Hx Hrest IH]; [reflexivity|].
  destruct rest as [|y rest]; [exact Hx|].
  change (Py.join sep (x :: y :: rest)) with (x +:+ sep +:+ Py.join sep (y :: rest)).
  now rewrite !contains_app, Hx, Hsep, IH.
Qed.

Lemma split_join (c : ascii) (x : string) (l : list string) :
  Forall (fun w => Py.contains c w = false) (x :: l) ->
  Py.split c (Py.join (String c "") (x :: l)) = x :: l.
Proof.
  revert x. induction l as [|y l IH]; intros x H; inversion H as [|? ? Hx Hl]; subst.
  - now apply split_absent.
  - change (Py.join (String c "") (x :: y :: l))
      with (x +:+ String c (Py.join (String c "") (y :: l))).
    now rewrite (split_app_sep _ _ _ Hx), (IH y Hl).
Qed.

Lemma remove_absent (c : ascii) (s : string) :
  Py.contains c s = false -> Py.remove c s = s.
Proof.
  induction s as [|x s IH]; simpl; [reflexivity|].
  intros H. apply orb_false_iff in H as [Hx Hs]. now rewrite Hx, (IH Hs).
Qed.

Lemma rstrip_snoc (p : ascii -> bool) (c : ascii) (s : string) :
  p c = false -> Py.rstrip_with p (s +:+ String c "") = s +:+ String c "".
Proof.
  intros Hc. induction s as [|x s IH].
  - change ("" +:+ String c "") with (String c ""). simpl. now rewrite Hc.
  - change (String x s +:+ String c "") with (String x (s +:+ String c "")).
    cbn [Py.rstrip_with]. rewrite IH.
    destruct s; reflexivity.
Qed.

Lemma app_cons_shift (a b d : string) (c : ascii) :
  a +:+ String c (b +:+ d) = (a +:+ String c b) +:+ d.
Proof. now rewrite string_app_assoc. Qed.

Lemma render_last (seg : segment) (rest : list segment) :
  exists X, render (seg :: rest) = X +:+ String SEG_SEP "".
Proof.
  revert seg. induction rest as [|s rest IH]; intros seg.
  - exists (segment_body seg). reflexivity.
  - destruct (IH s) as [Y HY]. cbn [render] in *. rewrite HY.
    eexists. apply app_cons_shift.
Qed.

(** The head of a stripped, non-empty tag is no white space. *)
Lemma stripped_head (t : string) :
  t <> "" -> Py.strip t = t ->
  exists c r, t = String c r /\ Py.isspace c = false.
Proof.
  intros Hne Hs. unfold Py.strip, Py.strip_with in Hs.
  pose proof (lstrip_head Py.isspace t) as Hh.
  destruct (Py.lstrip_with Py.isspace t) as [|c r].
  - simpl in Hs. congruence.
  - cbn [Py.rstrip_with] in Hs.
    destruct (Py.rstrip_with Py.isspace r); [rewrite Hh in Hs|]; subst t; eauto.
Qed.

Lemma body_head (seg : segment) :
  well_formed seg ->
  exists c r, segment_body seg = String c r /\ Py.isspace c = false.
Proof.
  destruct seg as [tag elems]. intros (Hne & Hs & _). cbn [tag_of] in *.
  destruct (stripped_head tag Hne Hs) as (c & r & -> & Hc).
  unfold segment_body. cbn [tag_of elems_of fst snd].
  destruct elems as [|e es]; [eauto|].
  change (Py.join "+" (String c r :: e :: es))
    with (String c (r +:+ "+" +:+ Py.join "+" (e :: es))).
  eauto.
Qed.

Lemma body_free (c : ascii) (seg : segment) :
  Py.contains c "+" = false ->
  Forall (fun w => Py.contains c w = false) (tag_of seg :: elems_of seg) ->
  Py.contains c (segment_body seg) = false.
Proof. intros Hp H. now apply contains_join. Qed.

Lemma well_formed_free (seg : segment) :
  well_formed seg ->
  Py.contains SEG_SEP (segment_body seg) = false
  /\ Py.contains LF (segment_body seg) = false
  /\ Py.contains CR (segment_body seg) = false
  /\ Forall (fun w => Py.contains COMP_SEP w = false) (tag_of seg :: elems_of seg).
Proof.
  intros (_ & _ & Hc).
  repeat split; try (apply body_free; [reflexivity|]);
    (eapply Forall_impl; [exact Hc|]; intros w (H1 & H2 & H3 & H4); assumption).
Qed.

Lemma contains_render (c : ascii) (segs : list segment) :
  Ascii.eqb SEG_SEP c = false ->
  Forall (fun seg => Py.contains c (segment_body seg) = false) segs ->
  Py.contains c (render segs) = false.
Proof.
  intros Hc. induction 1 as [|seg rest Hs _ IH]; [reflexivity|].
  cbn [render]. rewrite contains_app, Hs. cbn [Py.contains orb]. now rewrite Hc, IH.
Qed.

Lemma split_render (segs : list segment) :
  Forall (fun seg => Py.contains SEG_SEP (segment_body seg) = false) segs ->
  Py.split SEG_SEP (render segs) = map segment_body segs ++ [""].
Proof.
  induction 1 as [|seg rest Hs _ IH]; [reflexivity|].
  cbn [render map app]. now rewrite (split_app_sep _ _ _ Hs), IH.
Qed.

Lemma segs_of_bodies (segs : list segment) :
  Forall well_formed segs ->
  List.filter Py.truthy (map segment_body segs ++ [""]) = map segment_body segs
  /\ segs_of_parts (map segment_body segs) = segs.
Proof.
  induction 1 as [|seg rest Hw _ [IH1 IH2]]; [split; reflexivity|].
  destruct (body_head seg Hw) as (c & r & Hb & _).
  destruct (well_formed_free seg Hw) as (_ & _ & _ & Hplus).
  destruct Hw as (_ & Hstrip & _).
  cbn [map app List.filter segs_of_parts]. rewrite IH1, IH2.
  assert (Ht : Py.truthy (segment_body seg) = true) by now rewrite Hb.
  rewrite Ht. cbn [negb]. split; [reflexivity|].
  unfold segment_body. change "+" with (String COMP_SEP "").
  rewrite (split_join COMP_SEP _ _ Hplus), Hstrip. now destruct seg.
Qed.

Lemma strip_render (segs : list segment) :
  Forall well_formed segs -> Py.strip (render segs) = render segs.
Proof.
  intros H. destruct segs as [|seg rest]; [reflexivity|].
  inversion H as [|? ? Hw _]; subst.
  destruct (body_head seg Hw) as (c & r & Hb & Hc).
  unfold Py.strip, Py.strip_with.
  assert (Hl : Py.lstrip_with Py.isspace (render (seg :: rest)) = render (seg :: rest)).
  { cbn [render]. rewrite Hb.
    change (String c r +:+ ?x) with (String c (r +:+ x)). simpl. now rewrite Hc. }
  rewrite Hl. destruct (render_last seg rest) as [X ->].
  now apply rstrip_snoc.
Qed.

(** X2. A sequence of segments with non-empty, stripped tags and clean
    tokens, written out as tag and elements joined by [+] and closed by
    ['], is read back by the tokenizer exactly as it was. *)
Theorem split_segments_render (segs : list segment) :
  Forall well_formed segs -> split_segments (render segs) = segs.
Proof.
  intros H. unfold split_segments. rewrite (strip_render segs H).
  assert (Hfree : forall c, In c [SEG_SEP; LF; CR] ->
            Forall (fun seg => Py.contains c (segment_body seg) = false) segs).
  { intros c Hc. eapply Forall_impl; [exact H|]. intros seg Hw.
    destruct (well_formed_free seg Hw) as (H1 & H2 & H3 & _).
    destruct Hc as [<- | [<- | [<- | []]]]; assumption. }
  rewrite (remove_absent LF), (remove_absent CR);
    try (apply contains_render; [reflexivity | apply Hfree; simpl; tauto]).
  rewrite split_render by (apply Hfree; simpl; tauto).
  destruct (segs_of_bodies segs H) as [-> ->]. reflexivity.
Qed.

Lemma split_segments_render_witness :
  split_segments "BGM+87+1027214650005003+9'CUX+2:EUR'UNT'"
  = [("BGM", ["87"; "1027214650005003"; "9"]); ("CUX", ["2:EUR"]); ("UNT", [])].
Proof.
  apply (split_segments_render
           [("BGM", ["87"; "1027214650005003"; "9"]); ("CUX", ["2:EUR"]); ("UNT", [])]).
  repeat constructor; discriminate.
Defined.

Lemma remove_app (c : ascii) (a b : string) :
  Py.remove c (a +:+ b) = Py.remove c a +:+ Py.remove c b.
Proof.
  induction a as [|x a IH]; [reflexivity|].
  change (String x a +:+ b) with (String x (a +:+ b)). simpl.
  destruct (Ascii.eqb x c); [exact IH|].
  change (String x (Py.remove c a) +:+ Py.remove c b)
    with (String x (Py.remove c a +:+ Py.remove c b)).
  now rewrite IH.
Qed.

Lemma remove_idem (c : ascii) (s : string) :
  Py.remove c (Py.remove c s) = Py.remove c s.
Proof. apply remove_absent, contains_remove_same. Qed.

Lemma remove_comm (c d : ascii) (s : string) :
  Py.remove c (Py.remove d s) = Py.remove d (Py.remove c s).
Proof.
  induction s as [|x s IH]; simpl; [reflexivity|].
  destruct (Ascii.eqb x d) eqn:Ed, (Ascii.eqb x c) eqn:Ec; simpl;
    rewrite ?Ed, ?Ec, ?IH; reflexivity.
Qed.

Lemma lstrip_remove (p : ascii -> bool) (c : ascii) (s : string) :
  p c = true ->
  Py.lstrip_with p (Py.remove c s) = Py.remove c (Py.lstrip_with p s).
Proof.
  intros Hc. induction s as [|x s IH]; simpl; [reflexivity|].
  destruct (Ascii.eqb_spec x c) as [-> | Hne].
  - now rewrite Hc.
  - simpl. destruct (p x); [exact IH|]. simpl.
    destruct (Ascii.eqb_spec x c); [contradiction | reflexivity].
Qed.

Lemma rstrip_kept (p : ascii -> bool) (c : ascii) (s : string) :
  p c = true ->
  Py.rstrip_with p s = "" \/ Py.remove c (Py.rstrip_with p s) <> "".
Proof.
  intros Hc. induction s as [|x s IH]; simpl; [now left|].
  destruct (Py.rstrip_with p s) as [|d r].
  - destruct (p x) eqn:Hx; [now left|]. right. simpl.
    destruct (Ascii.eqb_spec x c) as [-> | _]; [congruence | discriminate].
  - right. destruct IH as [IH | IH]; [discriminate|].
    cbn [Py.remove]. destruct (Ascii.eqb x c); [exact IH | discriminate].
Qed.

Lemma rstrip_remove (p : ascii -> bool) (c : ascii) (s : string) :
  p c = true ->
  Py.rstrip_with p (Py.remove c s) = Py.remove c (Py.rstrip_with p s).
Proof.
  intros Hc. induction s as [|x s IH]; [reflexivity|].
  cbn [Py.remove Py.rstrip_with].
  pose proof (rstrip_kept p c s Hc) as Hk.
  destruct (Py.rstrip_with p s) as [|d r] eqn:E.
  - cbn [Py.remove] in IH.
    destruct (Ascii.eqb_spec x c) as [-> | Hne].
    + now rewrite IH, Hc.
    + cbn [Py.rstrip_with]. rewrite IH.
      destruct (p x); cbn [Py.remove]; [reflexivity|].
      destruct (Ascii.eqb_spec x c); [contradiction | reflexivity].
  - destruct Hk as [Hk | Hk]; [discriminate|].
    destruct (Ascii.eqb_spec x c) as [-> | Hne].
    + rewrite IH. cbn [Py.remove]. now rewrite Ascii.eqb_refl.
    + cbn [Py.rstrip_with]. rewrite IH.
      destruct (Py.remove c (String d r)) as [|y w] eqn:Er; [contradiction|].
      cbn [Py.remove].
      destruct (Ascii.eqb_spec x c); [contradiction|].
      change (Py.remove c (String d r)) with
        (if Ascii.eqb d c then Py.remove c r else String d (Py.remove c r)).
      change (Py.remove c (String d r)) with
        (if Ascii.eqb d c then Py.remove c r else String d (Py.remove c r)) in Er.
      now rewrite Er.
Qed.

Lemma strip_remove (c : ascii) (s : string) :
  Py.isspace c = true -> Py.strip (Py.remove c s) = Py.remove c (Py.strip s).
Proof.
  intros Hc. unfold Py.strip, Py.strip_with.
  now rewrite lstrip_remove, rstrip_remove.
Qed.

Lemma split_segments_remove (c : ascii) (text : string) :
  c = LF \/ c = CR -> split_segments (Py.remove c text) = split_segments text.
Proof.
  intros Hc. unfold split_segments.
  rewrite strip_remove by (destruct Hc as [-> | ->]; reflexivity).
  destruct Hc as [-> | ->].
  - now rewrite remove_idem.
  - now rewrite (remove_comm LF CR), remove_idem.
Qed.

(** X3. A line feed or a carriage return put anywhere into a text, also
    inside a tag or an element, does not change the segments decoded from
    it. *)
Theorem split_segments_line_breaks (a b : string) :
  split_segments (a +:+ String LF b) = split_segments (a +:+ b)
  /\ split_segments (a +:+ String CR b) = split_segments (a +:+ b).
Proof.
  assert (H : forall c, c = LF \/ c = CR ->
            split_segments (a +:+ String c b) = split_segments (a +:+ b)).
  { intros c Hc.
    rewrite <- (split_segments_remove c (a +:+ String c b) Hc).
    rewrite <- (split_segments_remove c (a +:+ b) Hc).
    rewrite !remove_app. cbn [Py.remove]. now rewrite Ascii.eqb_refl. }
  split; apply H; auto.
Qed.

(** ** Numbers: the decimal comma, exact integers *)

Lemma comma_sub_free (prev : ascii) (s : string) :
  Py.contains "," s = false -> decimal_comma_sub prev s = s.
Proof.
  revert prev. induction s as [|c s IH]; intros prev H; [reflexivity|].
  simpl in H. apply orb_false_iff in H as [Hc Hs].
  cbn [decimal_comma_sub]. rewrite Hc, (IH c Hs). reflexivity.
Qed.

Lemma comma_sub_between (prev : ascii) (a b : string) :
  Py.contains "," a = false -> Py.contains "," b = false ->
  ends_with_digit a = true -> starts_with_digit b = true ->
  decimal_comma_sub prev (a +:+ String "," b) = a +:+ String "." b.
Proof.
  intros Ha Hb Hea Hsb. revert prev Ha Hea.
  induction a as [|x a IH]; intros prev Ha Hea; [discriminate|].
  simpl in Ha. apply orb_false_iff in Ha as [Hx Ha].
  change (String x a +:+ ?t) with (String x (a +:+ t)).
  cbn [decimal_comma_sub]. rewrite Hx. cbn [andb].
  destruct a as [|y a].
  - change ("" +:+ ?t) with t. cbn [decimal_comma_sub].
    cbn [ends_with_digit] in Hea. rewrite Hea, Ascii.eqb_refl.
    destruct b as [|z b]; [discriminate|]. cbn [starts_with_digit] in Hsb.
    rewrite Hsb. cbn [andb]. now rewrite (comma_sub_free _ _ Hb).
  - now rewrite (IH x Ha Hea).
Qed.

(** X4. A comma standing between two digits reads as a decimal point:
    when no other comma occurs, the text with the comma and the text with
    the point give the same number, or both none. *)
Theorem decimal_comma_reads_as_point (a b : string) :
  Py.contains "," a = false -> Py.contains "," b = false ->
  ends_with_digit a = true -> starts_with_digit b = true ->
  _to_float (Some (a +:+ String "," b)) = _to_float (Some (a +:+ String "." b)).
Proof.
  intros Ha Hb Hea Hsb. unfold _to_float.
  rewrite (comma_sub_between NUL a b Ha Hb Hea Hsb).
  rewrite (comma_sub_free NUL (a +:+ String "." b))
    by (rewrite contains_app, Ha; simpl; exact Hb).
  destruct a; [discriminate | reflexivity].
Qed.

Lemma decimal_comma_reads_as_point_witness :
  _to_float (Some "-58,28") = _to_float (Some "-58.28").
Proof.
  exact (decimal_comma_reads_as_point "-58" "28" eq_refl eq_refl eq_refl eq_refl).
Defined.

Lemma digits2_pos_size (p : positive) : digits2_pos p = Pos.size p.
Proof. induction p as [p IH | p IH |]; simpl; now rewrite ?IH. Qed.

Lemma digits2_pos_bound (p : positive) :
  (Zpos p < 2 ^ 53)%Z -> (Zpos (digits2_pos p) <= 53)%Z.
Proof.
  intros H. rewrite digits2_pos_size.
  destruct (Z.le_gt_cases (Zpos (Pos.size p)) 53) as [Hle | Hgt]; [exact Hle|].
  exfalso. pose proof (Pos.size_le p) as Hs.
  assert (H54 : (2 ^ 54 <= Zpos (2 ^ Pos.size p))%Z).
  { rewrite Pos2Z.inj_pow. apply Z.pow_le_mono_r; lia. }
  assert (Hs' : (Zpos (2 ^ Pos.size p) <= Zpos p~0)%Z) by exact Hs.
  change (2 ^ 54)%Z with (2 * 2 ^ 53)%Z in H54. lia.
Qed.

Lemma iter_xO_digits (n k : positive) :
  digits2_pos (Pos.iter xO n k) = (digits2_pos n + k)%positive.
Proof.
  induction k as [|k IH] using Pos.peano_ind.
  - simpl. lia.
  - rewrite Pos.iter_succ. simpl. rewrite IH. lia.
Qed.

Lemma iter_xO_value (n k : positive) :
  Zpos (Pos.iter xO n k) = (Zpos n * 2 ^ Zpos k)%Z.
Proof.
  induction k as [|k IH] using Pos.peano_ind.
  - simpl. lia.
  - rewrite Pos.iter_succ, Pos2Z.inj_succ, Z.pow_succ_r by lia.
    change (Zpos (Pos.iter xO n k)~0) with (2 * Zpos (Pos.iter xO n k))%Z. lia.
Qed.

(** A mantissa of 53 digits with an exponent in range is a binary64
    number as it stands. *)
Lemma round_aux_exact (mz : positive) (ez : Z) :
  Zpos (digits2_pos mz) = 53%Z -> (-1074 <= ez <= 971)%Z ->
  binary_round_aux 53 1024 false (Zpos mz) ez loc_Exact = S754_finite false mz ez.
Proof.
  intros Hd He.
  assert (Hs : fexp 53 1024 (53 + ez) = ez) by (unfold fexp, emin; lia).
  unfold binary_round_aux, shr_fexp. cbn [Zdigits2].
  rewrite Hd, Hs, Z.sub_diag.
  cbn [shr shr_record_of_loc shr_m loc_of_shr_record round_nearest_even Zdigits2].
  rewrite Hd, Hs, Z.sub_diag. cbn [shr shr_record_of_loc shr_m].
  assert (Hle : (ez <=? 1024 - 53)%Z = true) by (apply Z.leb_le; lia).
  now rewrite Hle.
Qed.

(** A positive integer below 2^53 is a binary64 number, and [int] gives
    it back. *)
Lemma int_binary_round (n : positive) :
  (Zpos n < 2 ^ 53)%Z ->
  PyFloat.int (binary_round PyFloat.prec PyFloat.emax false n 0) = Ok (Zpos n).
Proof.
  intros Hn. pose proof (digits2_pos_bound n Hn) as Hd.
  unfold binary_round, PyFloat.prec, PyFloat.emax.
  assert (Hf : fexp 53 1024 (Zpos (digits2_pos n) + 0) = (Zpos (digits2_pos n) - 53)%Z).
  { unfold fexp, emin. lia. }
  rewrite Hf. unfold shl_align.
  destruct (Zpos (digits2_pos n) - 53 - 0)%Z as [|q|q] eqn:E; try lia.
  - rewrite round_aux_exact by lia. reflexivity.
  - assert (Hez : (Zpos (digits2_pos n) - 53)%Z = Zneg q) by lia.
    rewrite Hez, round_aux_exact by (rewrite ?iter_xO_digits; lia).
    cbn [PyFloat.int].
    rewrite iter_xO_value, Z.shiftr_div_pow2 by lia.
    f_equal. apply Z.div_mul. apply Z.pow_nonzero; lia.
Qed.

Lemma digit_cases (c : ascii) :
  Py.isdigit c = true ->
  In c ["0"; "1"; "2"; "3"; "4"; "5"; "6"; "7"; "8"; "9"]%char.
Proof.
  destruct c as [[] [] [] [] [] [] [] []]; intros H; try discriminate H;
    simpl; tauto.
Qed.

Ltac by_digit_cases c H :=
  apply digit_cases in H; simpl in H;
  repeat (destruct H as [H | H]; [subst c; try reflexivity|]); try contradiction.

Lemma digit_basics (c : ascii) (r : string) :
  Py.isdigit c = true ->
  PyFloat.isspace c = false
  /\ Ascii.eqb c "_" = false /\ Ascii.eqb c ":" = false /\ Ascii.eqb c "," = false
  /\ PyFloat.parse_sign (String c r) = (false, String c r)
  /\ String.eqb (PyFloat.lower_string (String c r)) "inf" = false
  /\ String.eqb (PyFloat.lower_string (String c r)) "infinity" = false
  /\ String.eqb (PyFloat.lower_string (String c r)) "nan" = false.
Proof.
  intros H. apply digit_cases in H. simpl in H.
  repeat (destruct H as [H | H]; [subst c; repeat split|]); contradiction.
Qed.

Lemma all_digits_free (c : ascii) (s : string) :
  Py.isdigit c = false -> all_digits s = true -> Py.contains c s = false.
Proof.
  intros Hc. induction s as [|x s IH]; simpl; [reflexivity|].
  intros H. apply andb_true_iff in H as [Hx Hs]. rewrite (IH Hs), orb_false_r.
  destruct (Ascii.eqb_spec x c) as [-> | _]; [congruence | reflexivity].
Qed.

Lemma all_digits_strip (s : string) :
  all_digits s = true -> Py.strip_with PyFloat.isspace s = s.
Proof.
  intros H. unfold Py.strip_with.
  assert (Hl : Py.lstrip_with PyFloat.isspace s = s).
  { destruct s as [|c r]; [reflexivity|]. simpl in H.
    apply andb_true_iff in H as [Hc _]. simpl.
    now rewrite (proj1 (digit_basics c "" Hc)). }
  rewrite Hl. induction s as [|c r IH]; [reflexivity|].
  simpl in H. apply andb_true_iff in H as [Hc Hr].
  cbn [Py.rstrip_with]. rewrite IH; [|exact Hr|].
  - destruct r; [|reflexivity]. now rewrite (proj1 (digit_basics c "" Hc)).
  - destruct r as [|d r]; [reflexivity|]. simpl in Hr.
    apply andb_true_iff in Hr as [Hd _]. simpl.
    now rewrite (proj1 (digit_basics d "" Hd)).
Qed.

Lemma span_all_digits (s : string) :
  all_digits s = true -> PyFloat.span_digits s = (list_ascii_of_string s, "").
Proof.
  induction s as [|c r IH]; [reflexivity|]. simpl.
  intros H. apply andb_true_iff in H as [Hc Hr]. now rewrite Hc, (IH Hr).
Qed.

Lemma digits_value_nonneg (ds : list ascii) (acc : Z) :
  Forall (fun c => Py.isdigit c = true) ds -> (0 <= acc)%Z ->
  (0 <= fold_left (fun a c => (10 * a + Py.digit_val c)%Z) ds acc)%Z.
Proof.
  intros H. revert acc. induction H as [|c ds Hc _ IH]; intros acc Hacc; simpl; [exact Hacc|].
  apply IH. assert (0 <= Py.digit_val c)%Z; [|lia].
  apply digit_cases in Hc. simpl in Hc.
  repeat (destruct Hc as [Hc | Hc]; [subst c; vm_compute; discriminate|]). contradiction.
Qed.

Lemma decimal_value_nonneg (s : string) :
  all_digits s = true -> (0 <= decimal_value s)%Z.
Proof.
  intros H. apply digits_value_nonneg; [|lia].
  induction s as [|c r IH]; [constructor|]. simpl in H.
  apply andb_true_iff in H as [Hc Hr]. constructor; auto.
Qed.

(** [float()] of a text of digits is the binary64 number nearest to the
    integer it writes. *)
Lemma float_of_digits (s : string) :
  s <> "" -> all_digits s = true ->
  PyFloat.float s = Ok (PyFloat.of_decimal false (decimal_value s) 0).
Proof.
  intros Hne H. unfold PyFloat.float.
  rewrite (all_digits_free "_" s eq_refl H), (all_digits_strip s H).
  destruct s as [|c r]; [contradiction|].
  pose proof (span_all_digits _ H) as Hspan.
  simpl in H. apply andb_true_iff in H as [Hc Hr].
  destruct (digit_basics c r Hc) as (_ & _ & _ & _ & Hsign & Hinf & Hinfinity & Hnan).
  unfold PyFloat.parse_numeral. rewrite Hsign, Hinf, Hinfinity, Hnan, Hspan.
  cbn [orb]. cbn [list_ascii_of_string app PyFloat.parse_exponent].
  rewrite app_nil_r. cbn [length Z.of_nat Z.sub Z.opp Z.add]. reflexivity.
Qed.

(** [int(float(s))] of a text of digits writing a number below 2^53 is
    that number. *)
Lemma int_float_of_digits (s : string) :
  s <> "" -> all_digits s = true -> (decimal_value s < 2 ^ 53)%Z ->
  PyFloat.float s = Ok (PyFloat.of_decimal false (decimal_value s) 0)
  /\ PyFloat.int (PyFloat.of_decimal false (decimal_value s) 0) = Ok (decimal_value s).
Proof.
  intros Hne H Hlt. split; [now apply float_of_digits|].
  pose proof (decimal_value_nonneg s H) as Hpos.
  unfold PyFloat.of_decimal.
  destruct (decimal_value s) as [|p|p]; [reflexivity | | lia].
  cbn [Z.leb Z.compare]. rewrite Z.pow_0_r, Z.mul_1_r.
  now apply int_binary_round.
Qed.

Lemma int_or_zero_digits (s : string) :
  s <> "" -> all_digits s = true -> (decimal_value s < 2 ^ 53)%Z ->
  int_or_zero (Some s) = Ok (decimal_value s).
Proof.
  intros Hne H Hlt. destruct (int_float_of_digits s Hne H Hlt) as [Hf Hi].
  unfold int_or_zero, _to_float.
  rewrite (comma_sub_free NUL s (all_digits_free "," s eq_refl H)), Hf.
  destruct s; [contradiction|]. cbn [Py.truthy negb].
  destruct (PyFloat.of_decimal false _ 0); cbn [PyFloat.truthy]; exact Hi.
Qed.

(** X5. A count or a number of packages written with decimal digits only,
    below 2^53, is decoded to exactly that integer: the passage through
    [float] loses nothing. *)
Theorem decimal_integers_exact (fy : Z -> string) (out : gmap string count_value)
    (record : shipment) (s seq unit : string) (more more' : list string) :
  s <> "" -> all_digits s = true -> (decimal_value s < 2 ^ 53)%Z ->
  counts_step out ("CNT", String "2" (String ":" s) :: more)
    = Ok (<["line_count" := CInt (decimal_value s)]> out)
  /\ counts_step out ("CNT", String "8" (String ":" s) :: more)
     = Ok (<["shipment_count" := CInt (decimal_value s)]> out)
  /\ shipment_step fy record ("GID", seq :: (s +:+ String ":" unit) :: more')
     = Ok (set_packages (decimal_value s) record).
Proof.
  intros Hne H Hlt.
  pose proof (all_digits_free ":" s eq_refl H) as Hcolon.
  assert (Hq : forall q, Ascii.eqb q ":" = false ->
            qual_and_value (String q (String ":" s)) = (String q "", Some s)).
  { intros q Hq. unfold qual_and_value. cbn [Py.split]. rewrite Hq.
    cbn [Py.split]. rewrite Ascii.eqb_refl, (split_absent _ _ Hcolon). reflexivity. }
  split; [|split].
  - unfold counts_step. change (String.eqb "CNT" "CNT") with true. cbv iota.
    rewrite (Hq "2"%char eq_refl), (int_or_zero_digits s Hne H Hlt). reflexivity.
  - unfold counts_step. change (String.eqb "CNT" "CNT") with true. cbv iota.
    rewrite (Hq "8"%char eq_refl), (int_or_zero_digits s Hne H Hlt). reflexivity.
  - destruct (int_float_of_digits s Hne H Hlt) as [Hf Hi].
    unfold shipment_step. change (String.eqb "GID" "GID") with true. cbv iota.
    rewrite contains_app, (split_app_sep _ _ _ Hcolon). cbn [Py.contains].
    rewrite Ascii.eqb_refl, orb_true_r. cbn [orb head_or_empty].
    rewrite Hf. cbn [bind]. rewrite Hi. reflexivity.
Qed.

Lemma decimal_integers_exact_witness :
  counts_step ∅ ("CNT", ["2:9007199254740991"])
  = Ok (<["line_count" := CInt 9007199254740991]> ∅).
Proof.
  assert (Hlt : (decimal_value "9007199254740991" < 2 ^ 53)%Z)
    by (vm_compute; reflexivity).
  exact (proj1 (decimal_integers_exact PyDate.year_plain ∅ empty_record
                  "9007199254740991" "1" "PK" [] []
                  ltac:(discriminate) eq_refl Hlt)).
Defined.

(** ** Dates: impossible calendar dates *)

Lemma valid_elim (dt : PyDate.datetime) :
  PyDate.valid dt = true ->
  valid_date (PyDate.year dt) (PyDate.month dt) (PyDate.day dt).
Proof.
  unfold PyDate.valid, valid_date. intros H.
  repeat (apply andb_true_iff in H as [H ?]).
  repeat match goal with
  | H : (_ <=? _)%Z = true |- _ => apply Z.leb_le in H
  end.
  lia.
Qed.

Lemma invalid_raises (y m d H M S : Z) :
  ~ valid_date y m d ->
  (if PyDate.valid (PyDate.mk_datetime y m d H M S)
   then Ok (PyDate.mk_datetime y m d H M S) else Raise ValueError)
  = Raise ValueError.
Proof.
  intros Hnot. destruct (PyDate.valid _) eqn:E; [|reflexivity].
  apply valid_elim in E. contradiction.
Qed.

Lemma strptime_impossible_date (y m d : Z) :
  (0 <= y <= 9999)%Z -> (1 <= m <= 12)%Z -> (1 <= d <= 31)%Z ->
  ~ valid_date y m d ->
  PyDate.strptime (PyDate.pad4 y +:+ PyDate.pad2 m +:+ PyDate.pad2 d)
    [PyDate.DY; PyDate.Dm; PyDate.Dd] = Raise ValueError.
Proof.
  intros Hy Hm Hd Hnot. unfold PyDate.strptime.
  rewrite (pad2_nil d).
  rewrite (match_four y _ _ _ _
             (match_two PyDate.Dm m ltac:(simpl; lia) _ _ _ _
                (match_two PyDate.Dd d ltac:(simpl; lia) [] "" [] "" eq_refl))).
  cbn [Py.truthy fold_left PyDate.set_group fst snd].
  rewrite int_chars4, !int_chars2 by lia.
  cbn [PyDate.year PyDate.month PyDate.day PyDate.hour PyDate.minute PyDate.second].
  now apply invalid_raises.
Qed.

Lemma strptime_impossible_date_time (y m d H M : Z) :
  (0 <= y <= 9999)%Z -> (1 <= m <= 12)%Z -> (1 <= d <= 31)%Z ->
  (0 <= H <= 23)%Z -> (0 <= M <= 59)%Z ->
  ~ valid_date y m d ->
  PyDate.strptime
    (PyDate.pad4 y +:+ PyDate.pad2 m +:+ PyDate.pad2 d +:+ PyDate.pad2 H +:+ PyDate.pad2 M)
    [PyDate.DY; PyDate.Dm; PyDate.Dd; PyDate.DH; PyDate.DM] = Raise ValueError.
Proof.
  intros Hy Hm Hd HH HM Hnot. unfold PyDate.strptime.
  rewrite (pad2_nil M).
  rewrite (match_four y _ _ _ _
             (match_two PyDate.Dm m ltac:(simpl; lia) _ _ _ _
                (match_two PyDate.Dd d ltac:(simpl; lia) _ _ _ _
                   (match_time H M [] "" [] "" HH HM eq_refl)))).
  cbn [Py.truthy fold_left PyDate.set_group fst snd].
  rewrite int_chars4, !int_chars2 by lia.
  cbn [PyDate.year PyDate.month PyDate.day PyDate.hour PyDate.minute PyDate.second].
  now apply invalid_raises.
Qed.

(** X6. A date that the calendar does not have, a day beyond the length
    of its month (the 29th of February outside leap years, the 31st of a
    month of 30 days) or the year 0000, is not reformatted: under the
    codes 102 and 203 the value comes back as it was given. *)
Theorem dtm_impossible_date (fy : Z -> string) (y m d H M : Z) :
  (0 <= y <= 9999)%Z -> (1 <= m <= 12)%Z -> (1 <= d <= 31)%Z ->
  (0 <= H <= 23)%Z -> (0 <= M <= 59)%Z ->
  (y = 0 \/ PyDate.days_in_month y m < d)%Z ->
  _dtm fy (PyDate.pad4 y +:+ PyDate.pad2 m +:+ PyDate.pad2 d) "102"
    = PyDate.pad4 y +:+ PyDate.pad2 m +:+ PyDate.pad2 d
  /\ _dtm fy (PyDate.pad4 y +:+ PyDate.pad2 m +:+ PyDate.pad2 d +:+ PyDate.pad2 H
                +:+ PyDate.pad2 M) "203"
     = PyDate.pad4 y +:+ PyDate.pad2 m +:+ PyDate.pad2 d +:+ PyDate.pad2 H +:+ PyDate.pad2 M.
Proof.
  intros Hy Hm Hd HH HM Hbad.
  assert (Hnot : ~ valid_date y m d) by (unfold valid_date; lia).
  split; apply dtm_passthrough; intros n ds E; vm_compute in E; injection E as <- <-; right.
  - exists ValueError. now apply strptime_impossible_date.
  - exists ValueError. now apply strptime_impossible_date_time.
Qed.

Lemma dtm_impossible_date_witness :
  _dtm PyDate.year_plain "20250229" "102" = "20250229"
  /\ _dtm PyDate.year_plain "000006311200" "203" = "000006311200".
Proof.
  split.
  - refine (proj1 (dtm_impossible_date PyDate.year_plain 2025 2 29 0 0 _ _ _ _ _ _));
      try (split; discriminate). right. reflexivity.
  - refine (proj2 (dtm_impossible_date PyDate.year_plain 0 6 31 12 0 _ _ _ _ _ _));
      try (split; discriminate). left. reflexivity.
Defined.

(** ** Date segments: which codes are read, and what is stored *)

Lemma header_step_dtm (fy : Z -> string) (data : gmap string string) (e0 : string)
    (more : list string) :
  header_step fy data ("DTM", e0 :: more)
  = match Py.split ":" e0 with
    | code :: value :: rest =>
        if String.eqb code "9" then <["message_datetime" := _dtm fy value (head_or_empty rest)]> data
        else if String.eqb code "10" then
          <["shipment_date" := _dtm fy value (head_or_empty rest)]> data
        else data
    | _ => data
    end.
Proof.
  unfold header_step.
  change (String.eqb "DTM" "UNB") with false. change (String.eqb "DTM" "UNH") with false.
  change (String.eqb "DTM" "BGM") with false. change (String.eqb "DTM" "DTM") with true.
  cbv iota. destruct (Py.split ":" e0) as [|code [|value rest]]; try reflexivity.
  destruct (String.eqb code "9"); [reflexivity|]. now destruct (String.eqb code "10").
Qed.

Lemma shipment_step_dtm (fy : Z -> string) (record : shipment) (e0 : string)
    (more : list string) :
  shipment_step fy record ("DTM", e0 :: more)
  = match Py.split ":" e0 with
    | code :: value :: rest =>
        let stored := _dtm fy value (head_or_empty rest) in
        Ok (if String.eqb code "17" then
              set_dates (<["scheduled_delivery" := stored]> (dates record)) record
            else if String.eqb code "200" then
              set_dates (<["pickup_time" := stored]> (dates record)) record
            else if String.eqb code "3" then
              set_dates (<["invoice_date" := stored]> (dates record)) record
            else record)
    | _ => Ok record
    end.
Proof.
  unfold shipment_step.
  change (String.eqb "DTM" "GID") with false. change (String.eqb "DTM" "TMD") with false.
  change (String.eqb "DTM" "LOC") with false. change (String.eqb "DTM" "MOA") with false.
  change (String.eqb "DTM" "FTX") with false. change (String.eqb "DTM" "NAD") with false.
  change (String.eqb "DTM" "MEA") with false. change (String.eqb "DTM" "DIM") with false.
  change (String.eqb "DTM" "DTM") with true.
  cbv iota. cbn [andb]. cbv iota.
  destruct (Py.split ":" e0) as [|code [|value rest]]; try reflexivity.
  cbv zeta. destruct (String.eqb code "17"); [reflexivity|].
  destruct (String.eqb code "200"); [reflexivity|]. now destruct (String.eqb code "3").
Qed.

Lemma dtm_minutes (fy : Z -> string) (y m d H M : Z) :
  valid_date y m d -> (0 <= H <= 23)%Z -> (0 <= M <= 59)%Z ->
  _dtm fy (PyDate.pad4 y +:+ PyDate.pad2 m +:+ PyDate.pad2 d +:+ PyDate.pad2 H
             +:+ PyDate.pad2 M) "203"
  = fy y +:+ "-" +:+ PyDate.pad2 m +:+ "-" +:+ PyDate.pad2 d
      +:+ " " +:+ PyDate.pad2 H +:+ ":" +:+ PyDate.pad2 M.
Proof.
  intros Hd HH HM. unfold _dtm.
  replace (String.length _) with 12%nat by (rewrite pad4_app, !pad2_app; reflexivity).
  cbn [String.eqb Ascii.eqb Bool.eqb Nat.eqb andb].
  rewrite strptime_minutes by assumption. cbn [bind].
  unfold PyDate.strftime_minutes, PyDate.strftime_date. cbn.
  now rewrite !string_app_assoc.
Qed.

Lemma stamp_colon_free (y m d H M : Z) :
  Py.contains ":" (PyDate.pad4 y +:+ PyDate.pad2 m +:+ PyDate.pad2 d +:+ PyDate.pad2 H
                     +:+ PyDate.pad2 M) = false.
Proof.
  rewrite (pad2_nil M), pad4_app, !pad2_app. cbn [Py.contains].
  now rewrite !digit_char_not_colon.
Qed.

(** X7. A date segment [DTM+code:yyyymmddHHMM:203] with a date of the
    calendar is stored as [YYYY-MM-DD HH:MM], and the code alone decides
    where: the header keeps it as message date for code 9 and as shipment
    date for code 10 and reads no other code; the shipment decoder keeps it
    as scheduled delivery for code 17, pickup time for code 200 and invoice
    date for code 3, and reads no other code. *)
Theorem dtm_segment_fields (fy : Z -> string) (data : gmap string string)
    (record : shipment) (code : string) (y m d H M : Z) (more : list string) :
  valid_date y m d -> (0 <= H <= 23)%Z -> (0 <= M <= 59)%Z ->
  Py.contains ":" code = false ->
  let stamp := PyDate.pad4 y +:+ PyDate.pad2 m +:+ PyDate.pad2 d +:+ PyDate.pad2 H
                 +:+ PyDate.pad2 M in
  let iso := fy y +:+ "-" +:+ PyDate.pad2 m +:+ "-" +:+ PyDate.pad2 d
               +:+ " " +:+ PyDate.pad2 H +:+ ":" +:+ PyDate.pad2 M in
  let seg := ("DTM", (code +:+ String ":" (stamp +:+ String ":" "203")) :: more) in
  header_step fy data seg
  = (if String.eqb code "9" then <["message_datetime" := iso]> data
     else if String.eqb code "10" then <["shipment_date" := iso]> data
     else data)
  /\ shipment_step fy record seg
     = Ok (if String.eqb code "17" then
             set_dates (<["scheduled_delivery" := iso]> (dates record)) record
           else if String.eqb code "200" then
             set_dates (<["pickup_time" := iso]> (dates record)) record
           else if String.eqb code "3" then
             set_dates (<["invoice_date" := iso]> (dates record)) record
           else record).
Proof.
  intros Hd HH HM Hcode stamp iso seg.
  assert (Hsplit : Py.split ":" (code +:+ String ":" (stamp +:+ String ":" "203"))
                   = [code; stamp; "203"]).
  { rewrite (split_app_sep ":" code _ Hcode).
    now rewrite (split_app_sep ":" stamp "203" (stamp_colon_free y m d H M)). }
  pose proof (dtm_minutes fy y m d H M Hd HH HM) as Hiso. fold stamp iso in Hiso.
  unfold seg. rewrite header_step_dtm, shipment_step_dtm, Hsplit.
  cbn [head_or_empty]. cbv zeta. rewrite Hiso. now split.
Qed.

Lemma dtm_segment_fields_witness :
  header_step PyDate.year_plain ∅ ("DTM", ["137:202510130023:203"]) = ∅
  /\ shipment_step PyDate.year_plain empty_record ("DTM", ["17:202510130023:203"])
     = Ok (set_dates (<["scheduled_delivery" := "2025-10-13 00:23"]> ∅) empty_record).
Proof.
  assert (Hd : valid_date 2025 10 13) by (repeat split; vm_compute; discriminate).
  assert (HH : (0 <= 0 <= 23)%Z) by lia.
  assert (HM : (0 <= 23 <= 59)%Z) by lia.
  split.
  - exact (proj1 (dtm_segment_fields PyDate.year_plain ∅ empty_record "137"
                    2025 10 13 0 23 [] Hd HH HM eq_refl)).
  - exact (proj2 (dtm_segment_fields PyDate.year_plain ∅ empty_record "17"
                    2025 10 13 0 23 [] Hd HH HM eq_refl)).
Defined.

(** ** Header decoder: what a segment can change *)

Lemma lookup_insert_frame (k k0 v : string) (data : gmap string string)
    (keys : list string) :
  ~ In k keys -> In k0 keys -> <[k0 := v]> data !! k = data !! k.
Proof. intros Hk Hk0. apply lookup_insert_ne. intros ->. contradiction. Qed.

Ltac frame_inserts :=
  repeat (erewrite lookup_insert_frame; [| eassumption | simpl; tauto]).

Lemma header_step_frame (fy : Z -> string) (data : gmap string string)
    (seg : segment) (k : string) :
  ~ In k (header_keys (tag_of seg)) ->
  header_step fy data seg !! k = data !! k.
Proof.
  destruct seg as [tag elems]. unfold header_keys, header_step; cbn [tag_of fst].
  repeat match goal with
  | |- context [String.eqb tag ?t] => destruct (String.eqb tag t)
  end; intros Hk; try reflexivity.
  - destruct (Py.truthy _ && Py.contains _ _).
    + destruct (Py.split_first _ _) as [d t].
      destruct (PyDate.strptime _ _); frame_inserts; reflexivity.
    + frame_inserts; reflexivity.
  - frame_inserts; reflexivity.
  - frame_inserts; reflexivity.
  - destruct elems as [|e0 ?]; [reflexivity|].
    destruct (Py.split ":" e0) as [|code [|value more]]; try reflexivity.
    destruct (String.eqb code "9"); [frame_inserts; reflexivity|].
    destruct (String.eqb code "10"); [frame_inserts; reflexivity|].
    reflexivity.
  - destruct elems as [|e0 ?]; [reflexivity|].
    destruct (Py.split ":" e0) as [|? [|? ?]]; frame_inserts; reflexivity.
  - destruct elems as [|? [|e1 ?]]; try reflexivity. frame_inserts; reflexivity.
  - destruct elems as [|e0 ?]; [reflexivity|].
    destruct (String.eqb e0 "198+WTAM"); [frame_inserts; reflexivity|].
    destruct (Py.startswith "198" e0); [|reflexivity].
    destruct (Py.split "+" e0) as [|? [|? ?]]; frame_inserts; reflexivity.
Qed.

Lemma header_keys_other (s : segment) :
  is_header_seg s = false -> header_keys (tag_of s) = [].
Proof.
  unfold is_header_seg, header_keys, header_tags. cbn [existsb].
  intros H.
  repeat (let E := fresh "E" in apply orb_false_iff in H as [E H]; rewrite E).
  reflexivity.
Qed.

Lemma header_step_other (fy : Z -> string) (data : gmap string string) (s : segment) :
  is_header_seg s = false -> header_step fy data s = data.
Proof.
  intros H. apply map_eq. intros k. apply header_step_frame.
  now rewrite (header_keys_other s H).
Qed.

Lemma header_step_fields (fy : Z -> string) (data : gmap string string)
    (seg : segment) (k : string) :
  is_Some (header_step fy data seg !! k) ->
  is_Some (data !! k) \/ In k (header_keys (tag_of seg)).
Proof.
  intros H. destruct (in_dec string_dec k (header_keys (tag_of seg))) as [Hin | Hout].
  - now right.
  - left. now rewrite <- (header_step_frame fy data seg k Hout).
Qed.

(** X8. A segment changes no header field but those of its own tag: the
    fields listed for the tag by [header_keys], none at all for a tag that
    [header()] does not read. *)
Theorem header_segment_frame (fy : Z -> string) (segs : list segment)
    (seg : segment) (k : string) :
  ~ In k (header_keys (tag_of seg)) ->
  header fy (segs ++ [seg]) !! k = header fy segs !! k.
Proof.
  intros Hk. unfold header. rewrite fold_left_app. cbn [fold_left].
  now apply header_step_frame.
Qed.

Lemma header_segment_frame_witness :
  header PyDate.year_plain
    ([("BGM", ["87"; "1027214650005003"; "9"])] ++ [("CUX", ["2:EUR"])])
    !! "manifest_number"
  = header PyDate.year_plain [("BGM", ["87"; "1027214650005003"; "9"])]
      !! "manifest_number".
Proof.
  apply (header_segment_frame PyDate.year_plain
           [("BGM", ["87"; "1027214650005003"; "9"])] ("CUX", ["2:EUR"])
           "manifest_number").
  simpl. intros [H | []]. discriminate H.
Defined.

Lemma header_fold_other (fy : Z -> string) (segs : list segment)
    (data : gmap string string) :
  fold_left (header_step fy) segs data
  = fold_left (header_step fy) (List.filter is_header_seg segs) data.
Proof.
  revert data. induction segs as [|s rest IH]; intros data; [reflexivity|].
  cbn [fold_left List.filter]. destruct (is_header_seg s) eqn:E.
  - cbn [fold_left]. apply IH.
  - rewrite (header_step_other fy data s E). apply IH.
Qed.

Lemma header_fold_fields (fy : Z -> string) (segs : list segment)
    (data : gmap string string) (k : string) :
  is_Some (fold_left (header_step fy) segs data !! k) ->
  is_Some (data !! k) \/ In k header_fields.
Proof.
  revert data. induction segs as [|s rest IH]; intros data H; [now left|].
  cbn [fold_left] in H. destruct (IH _ H) as [Hs | Hin]; [|now right].
  destruct (header_step_fields fy data s k Hs) as [Hd | Hk]; [now left|].
  right. destruct (is_header_seg s) eqn:E.
  - unfold header_fields. apply in_flat_map. exists (tag_of s). split; [|exact Hk].
    unfold is_header_seg in E. apply existsb_exists in E as (t & Ht & Heq).
    apply String.eqb_eq in Heq. now subst t.
  - rewrite (header_keys_other s E) in Hk. contradiction.
Qed.

(** X9. [header()] depends on the segments of its seven tags only, the
    others can be dropped from the sequence without changing the header;
    and the header never holds a field outside the fifteen of
    [header_fields]. *)
Theorem header_reads_own_tags (fy : Z -> string) (segs : list segment) :
  header fy segs = header fy (List.filter is_header_seg segs)
  /\ forall k, is_Some (header fy segs !! k) -> In k header_fields.
Proof.
  split; [apply header_fold_other|].
  intros k H. destruct (header_fold_fields fy segs ∅ k H) as [He | Hin]; [|exact Hin].
  rewrite lookup_empty in He. now destruct He.
Qed.

Lemma header_reads_own_tags_witness :
  In "currency" header_fields.
Proof.
  apply (proj2 (header_reads_own_tags PyDate.year_plain [("CUX", ["2:EUR"])]) "currency").
  vm_compute. eauto.
Defined.

Lemma header_fold_frame (fy : Z -> string) (post : list segment)
    (data : gmap string string) (k : string) :
  Forall (fun s => ~ In k (header_keys (tag_of s))) post ->
  fold_left (header_step fy) post data !! k = data !! k.
Proof.
  intros H. revert data. induction H as [|s rest Hs _ IH]; intros data; [reflexivity|].
  cbn [fold_left]. now rewrite IH, header_step_frame.
Qed.

Lemma header_keys_not_tag (tag : string) (s : segment) (k : string) :
  is_tag tag s = false -> In k (header_keys tag) -> ~ In k (header_keys (tag_of s)).
Proof.
  unfold is_tag. intros Htag Hk Hin.
  assert (Hsame : forall t1 t2 k, In k (header_keys t1) -> In k (header_keys t2) ->
            header_keys t1 = header_keys t2).
  { clear. intros t1 t2 k. unfold header_keys.
    repeat match goal with
    | |- context [String.eqb ?t ?c] => destruct (String.eqb t c)
    end; simpl; intuition (subst; try discriminate; try reflexivity). }
  assert (Hinj : header_keys (tag_of s) = header_keys tag) by (eapply Hsame; eassumption).
  revert Hinj Hk Htag. unfold header_keys.
  repeat match goal with
  | |- context [String.eqb ?t ?c] => destruct (String.eqb_spec t c)
  end; subst; simpl; try discriminate; try tauto;
    intros; try congruence.
Qed.

(** X10. The document fields come from the last [BGM] segment of the
    message and the message fields from its last [UNH] segment, whatever
    stands before and after: each field is the element at its position,
    and the empty string when the segment is too short to hold it. *)
Theorem header_last_document (fy : Z -> string) (pre post pre' post' : list segment)
    (elems elems' : list string) :
  Forall (fun s => is_tag "BGM" s = false) post ->
  Forall (fun s => is_tag "UNH" s = false) post' ->
  let h := header fy (pre ++ ("BGM", elems) :: post) in
  let h' := header fy (pre' ++ ("UNH", elems') :: post') in
  h !! "document_type" = Some (default "" (elems !! 0))
  /\ h !! "manifest_number" = Some (default "" (elems !! 1))
  /\ h !! "msg_function" = Some (default "" (elems !! 2))
  /\ h' !! "message_ref" = Some (default "" (elems' !! 0))
  /\ h' !! "message_type" = Some (default "" (elems' !! 1)).
Proof.
  intros Hpost Hpost' h h'. subst h h'. unfold header.
  change (pre ++ ("BGM", elems) :: post) with (pre ++ [("BGM", elems)] ++ post).
  change (pre' ++ ("UNH", elems') :: post') with (pre' ++ [("UNH", elems')] ++ post').
  rewrite !fold_left_app. cbn [fold_left].
  assert (Hb : forall k, In k (header_keys "BGM") ->
            Forall (fun s => ~ In k (header_keys (tag_of s))) post).
  { intros k Hk. eapply Forall_impl; [exact Hpost|]. intros s Hs.
    now apply (header_keys_not_tag "BGM"). }
  assert (Hu : forall k, In k (header_keys "UNH") ->
            Forall (fun s => ~ In k (header_keys (tag_of s))) post').
  { intros k Hk. eapply Forall_impl; [exact Hpost'|]. intros s Hs.
    now apply (header_keys_not_tag "UNH"). }
  repeat split.
  - rewrite header_fold_frame by (apply Hb; simpl; tauto).
    unfold header_step. cbn [String.eqb Ascii.eqb Bool.eqb]. cbv iota.
    now rewrite !lookup_insert_ne, lookup_insert_eq by discriminate.
  - rewrite header_fold_frame by (apply Hb; simpl; tauto).
    unfold header_step. cbn [String.eqb Ascii.eqb Bool.eqb]. cbv iota.
    now rewrite !lookup_insert_ne, lookup_insert_eq by discriminate.
  - rewrite header_fold_frame by (apply Hb; simpl; tauto).
    unfold header_step. cbn [String.eqb Ascii.eqb Bool.eqb]. cbv iota.
    now rewrite lookup_insert_eq.
  - rewrite header_fold_frame by (apply Hu; simpl; tauto).
    unfold header_step. cbn [String.eqb Ascii.eqb Bool.eqb]. cbv iota.
    now rewrite !lookup_insert_ne, lookup_insert_eq by discriminate.
  - rewrite header_fold_frame by (apply Hu; simpl; tauto).
    unfold header_step. cbn [String.eqb Ascii.eqb Bool.eqb]. cbv iota.
    now rewrite lookup_insert_eq.
Qed.

Lemma header_last_document_witness :
  header PyDate.year_plain
    [("BGM", ["1"; "OLD"; "9"]); ("BGM", ["87"; "1027214650005003"]); ("CUX", ["2:EUR"])]
    !! "manifest_number" = Some "1027214650005003"
  /\ header PyDate.year_plain
       [("BGM", ["1"; "OLD"; "9"]); ("BGM", ["87"; "1027214650005003"]); ("CUX", ["2:EUR"])]
       !! "msg_function" = Some "".
Proof.
  assert (H1 : Forall (fun s => is_tag "BGM" s = false) [("CUX", ["2:EUR"])])
    by (repeat constructor).
  assert (H2 : Forall (fun s => is_tag "UNH" s = false) (@nil segment)) by constructor.
  pose proof (header_last_document PyDate.year_plain [("BGM", ["1"; "OLD"; "9"])]
                [("CUX", ["2:EUR"])] [] [] ["87"; "1027214650005003"] [] H1 H2) as H.
  cbv zeta in H. destruct H as (_ & Hm & Hf & _). split; [exact Hm | exact Hf].
Defined.

(** ** Counts decoder: when it fails, what it returns *)

Lemma int_or_zero_result (val : option string) :
  if is_nonfinite (_to_float val)
  then exists e, int_or_zero val = Raise e
  else exists z, int_or_zero val = Ok z.
Proof.
  unfold int_or_zero, is_nonfinite.
  destruct (_to_float val) as [[s | s | | s m e] |]; cbn; eauto.
Qed.

Lemma counts_step_result (out : gmap string count_value) (seg : segment) :
  if count_nonfinite seg
  then exists e, counts_step out seg = Raise e
  else exists out', counts_step out seg = Ok out'.
Proof.
  destruct seg as [tag elems]. unfold count_nonfinite, is_tag, counts_step.
  cbn [tag_of elems_of fst snd].
  destruct (String.eqb tag "CNT"); cbn [andb]; [|eauto].
  destruct elems as [|e0 more]; [eauto|].
  destruct (qual_and_value e0) as [qual val]. cbn [fst snd].
  pose proof (int_or_zero_result val) as Hi.
  destruct (String.eqb_spec qual "2") as [-> | _]; cbn [orb andb].
  { destruct (is_nonfinite (_to_float val)); destruct Hi as [x ->]; cbn [bind]; eauto. }
  destruct (String.eqb_spec qual "7") as [-> | _]; [cbn; eauto|].
  destruct (String.eqb_spec qual "8") as [-> | _]; cbn [orb andb].
  { destruct (is_nonfinite (_to_float val)); destruct Hi as [x ->]; cbn [bind]; eauto. }
  destruct (String.eqb qual "12"); eauto.
Qed.

Lemma counts_step_other (out : gmap string count_value) (seg : segment) :
  is_tag "CNT" seg = false -> counts_step out seg = Ok out.
Proof.
  destruct seg as [tag elems]. unfold is_tag, counts_step. cbn [tag_of fst].
  now intros ->.
Qed.

Lemma counts_fold_filter (segs : list segment) (out : gmap string count_value) :
  for_each counts_step segs out
  = for_each counts_step (List.filter (is_tag "CNT") segs) out.
Proof.
  revert out. induction segs as [|s rest IH]; intros out; [reflexivity|].
  cbn [List.filter for_each]. destruct (is_tag "CNT" s) eqn:E.
  - cbn [for_each]. destruct (counts_step out s); cbn [bind]; [apply IH | reflexivity].
  - rewrite (counts_step_other out s E). cbn [bind]. apply IH.
Qed.

Lemma counts_fold_result (segs : list segment) (out : gmap string count_value) :
  (exists out', for_each counts_step segs out = Ok out')
  <-> Forall (fun s => count_nonfinite s = false) segs.
Proof.
  revert out. induction segs as [|s rest IH]; intros out.
  - split; [constructor | intros _; now exists out].
  - cbn [for_each]. pose proof (counts_step_result out s) as Hs.
    destruct (count_nonfinite s) eqn:E.
    + destruct Hs as [e ->]. cbn [bind]. split.
      * intros [? H]. discriminate H.
      * intros H. inversion H; congruence.
    + destruct Hs as [out1 ->]. cbn [bind]. rewrite IH. split.
      * intros H. now constructor.
      * intros H. now inversion H.
Qed.

(** X11. The counts decoder reads the [CNT] segments only, and it fails
    on one kind of input only: it returns totals exactly when no [CNT]
    segment with qualifier 2 or 8 carries a value that reads as a NaN or
    an infinity. *)
Theorem counts_fail_only_on_nonfinite (segs : list segment) :
  counts_and_amounts segs = counts_and_amounts (List.filter (is_tag "CNT") segs)
  /\ ((exists out, counts_and_amounts segs = Ok out)
      <-> Forall (fun s => count_nonfinite s = false) segs).
Proof. split; [apply counts_fold_filter | apply counts_fold_result]. Qed.

Lemma count_typed_insert (out : gmap string count_value) (k0 : string) (v0 : count_value) :
  count_typed k0 v0 ->
  (forall k v, out !! k = Some v -> count_typed k v) ->
  forall k v, <[k0 := v0]> out !! k = Some v -> count_typed k v.
Proof.
  intros H0 Hout k v. destruct (decide (k0 = k)) as [<- | Hne].
  - rewrite lookup_insert_eq. now intros [= <-].
  - rewrite lookup_insert_ne by assumption. apply Hout.
Qed.

Lemma counts_step_typed (out out' : gmap string count_value) (seg : segment) :
  counts_step out seg = Ok out' ->
  (forall k v, out !! k = Some v -> count_typed k v) ->
  forall k v, out' !! k = Some v -> count_typed k v.
Proof.
  destruct seg as [tag elems]. unfold counts_step.
  destruct (String.eqb tag "CNT"); [|now intros [= <-]].
  destruct elems as [|e0 more]; [now intros [= <-]|].
  destruct (qual_and_value e0) as [qual val].
  destruct (String.eqb qual "2").
  { destruct (int_or_zero val); cbn [bind]; [|discriminate].
    intros [= <-]. apply count_typed_insert. left. eauto. }
  destruct (String.eqb qual "7").
  { intros [= <-]. apply count_typed_insert. right. split; [tauto|].
    destruct (_to_float val); cbn; eauto. }
  destruct (String.eqb qual "8").
  { destruct (int_or_zero val); cbn [bind]; [|discriminate].
    intros [= <-]. apply count_typed_insert. left. eauto. }
  destruct (String.eqb qual "12"); [|now intros [= <-]].
  intros [= <-]. apply count_typed_insert. right. split; [tauto|].
  destruct (_to_float val); cbn; eauto.
Qed.

(** X12. Whatever totals the counts decoder returns, they hold no field
    but the four of the decoder, the two counts are integers, and weight
    and value are floats or [None]. *)
Theorem counts_typed (segs : list segment) (out : gmap string count_value) :
  counts_and_amounts segs = Ok out ->
  forall k v, out !! k = Some v -> count_typed k v.
Proof.
  unfold counts_and_amounts.
  assert (H : forall start, (forall k v, start !! k = Some v -> count_typed k v) ->
            for_each counts_step segs start = Ok out ->
            forall k v, out !! k = Some v -> count_typed k v).
  { induction segs as [|s rest IH]; intros start Hstart.
    - now intros [= <-].
    - cbn [for_each]. destruct (counts_step start s) as [next|] eqn:E; cbn [bind];
        [|discriminate].
      apply IH. now apply (counts_step_typed start next s E). }
  apply H. intros k v Hk. rewrite lookup_empty in Hk. discriminate.
Qed.

Lemma counts_typed_witness :
  count_typed "total_gross_weight_kg" (CFloat (S754_finite false 6755399441055744 (-50))).
Proof.
  apply (counts_typed [("CNT", ["2:6"]); ("CNT", ["7:6,0"])]
           (<["total_gross_weight_kg" := CFloat (S754_finite false 6755399441055744 (-50))]>
              (<["line_count" := CInt 6]> ∅))).
  - vm_compute. reflexivity.
  - reflexivity.
Defined.

(** ** Party decoder: name and address, VAT reference, contact *)

Lemma parties_step_nad (ps : gmap string (gmap string party_value))
    (cta : option string) (q : string) (rest : list string) :
  parties_step (ps, cta) ("NAD", q :: rest) = (<[q := nad_record (q :: rest)]> ps, cta).
Proof. reflexivity. Qed.

Lemma parties_step_frame (st : gmap string (gmap string party_value) * option string)
    (s : segment) (q : string) :
  q <> "CTA" -> q <> "IV" -> is_nad_for q s = false ->
  fst (parties_step st s) !! q = fst st !! q.
Proof.
  destruct st as [ps cta], s as [tag elems].
  unfold is_nad_for, is_tag, parties_step; cbn [tag_of elems_of fst snd].
  intros Hc Hi Hq. destruct elems as [|e0 more]; [reflexivity|].
  destruct (String.eqb tag "NAD"); cbn [andb] in Hq.
  { cbn [fst]. apply String.eqb_neq in Hq. now rewrite lookup_insert_ne. }
  destruct (String.eqb tag "CTA").
  { cbn [fst]. unfold setdefault_store. now rewrite lookup_insert_ne by congruence. }
  destruct (String.eqb tag "COM").
  { cbn [fst]. unfold setdefault_store. now rewrite lookup_insert_ne by congruence. }
  destruct (String.eqb tag "RFF" && Py.startswith "VA:" e0); [|reflexivity].
  cbn [fst]. now rewrite lookup_insert_ne by congruence.
Qed.

Lemma parties_fold_frame (post : list segment)
    (st : gmap string (gmap string party_value) * option string) (q : string) :
  q <> "CTA" -> q <> "IV" ->
  Forall (fun s => is_nad_for q s = false) post ->
  fst (fold_left parties_step post st) !! q = fst st !! q.
Proof.
  intros Hc Hi H. revert st. induction H as [|s rest Hs _ IH]; intros st; [reflexivity|].
  cbn [fold_left]. now rewrite IH, parties_step_frame.
Qed.

(** X13. The party of a qualifier other than the two synthetic keys is
    the record of the last [NAD] segment with that qualifier, whatever
    contact, communication and reference segments surround it: the party
    id is the text before the first sub-element separator of element 2,
    name and address are elements 4 and 5 with the separators turned into
    spaces, city, state, postal code and country are elements 6 to 9, each
    the empty string when the segment is short; the record holds no role,
    phone or reference. *)
Theorem parties_last_nad (pre post : list segment) (q : string) (rest : list string) :
  q <> "CTA" -> q <> "IV" ->
  Forall (fun s => is_nad_for q s = false) post ->
  let el (k : nat) := default "" ((q :: rest) !! k) in
  exists rec,
    parties (pre ++ ("NAD", q :: rest) :: post) !! q = Some rec
    /\ rec !! "qualifier" = Some (PStr q)
    /\ rec !! "party_id" = Some (PStr (head_or_empty (Py.split ":" (el 1))))
    /\ rec !! "name" = Some (PStr (Py.replace ":" " " (el 3)))
    /\ rec !! "addr" = Some (PStr (Py.replace ":" " " (el 4)))
    /\ rec !! "city" = Some (PStr (el 5))
    /\ rec !! "state" = Some (PStr (el 6))
    /\ rec !! "zip" = Some (PStr (el 7))
    /\ rec !! "country" = Some (PStr (el 8))
    /\ rec !! "role" = None /\ rec !! "tel" = None /\ rec !! "refs" = None.
Proof.
  intros Hc Hi Hpost el. exists (nad_record (q :: rest)). split.
  - unfold parties.
    change (pre ++ ("NAD", q :: rest) :: post) with (pre ++ [("NAD", q :: rest)] ++ post).
    rewrite !fold_left_app, parties_fold_frame by assumption.
    cbn [fold_left]. destruct (fold_left parties_step pre (∅, None)) as [ps cta].
    rewrite parties_step_nad. cbn [fst]. apply lookup_insert_eq.
  - repeat split.
Qed.

Lemma parties_last_nad_witness :
  exists rec,
    parties [("NAD", ["IV"; "X"]); ("NAD", ["SF"; "::9"; ""; "WTAM"; "Nokra:caddesi"; "Istanbul"]);
             ("CTA", ["TR"]); ("COM", ["0161081000:TE"])] !! "SF" = Some rec
    /\ rec !! "addr" = Some (PStr "Nokra caddesi")
    /\ rec !! "country" = Some (PStr "").
Proof.
  assert (Hpost : Forall (fun s => is_nad_for "SF" s = false)
                    [("CTA", ["TR"]); ("COM", ["0161081000:TE"])])
    by (repeat constructor).
  destruct (parties_last_nad [("NAD", ["IV"; "X"])]
              [("CTA", ["TR"]); ("COM", ["0161081000:TE"])] "SF"
              ["::9"; ""; "WTAM"; "Nokra:caddesi"; "Istanbul"]
              ltac:(discriminate) ltac:(discriminate) Hpost)
    as (rec & Hrec & _ & _ & _ & Haddr & _ & _ & _ & Hcountry & _).
  exists rec. split; [exact Hrec|]. split; [exact Haddr | exact Hcountry].
Defined.

Lemma parties_step_vat (ps : gmap string (gmap string party_value))
    (cta : option string) (v : string) (rs : list string) :
  parties_step (ps, cta) ("RFF", String "V" (String "A" (String ":" v)) :: rs)
  = (<["IV" := <["refs" := PDict (<["VAT" := v]>
                    (match default ∅ (ps !! "IV") !! "refs" with
                     | Some (PDict m) => m
                     | _ => ∅
                     end))]> (default ∅ (ps !! "IV"))]> ps, cta).
Proof. reflexivity. Qed.

(** X14. A reference segment [RFF+VA:v] stores [v] as the VAT reference
    of the synthetic party ["IV"] and leaves every other field of that
    party as it was; a [NAD+IV] segment that comes after it replaces the
    party, and the reference is gone. *)
Theorem parties_vat_reference (pre : list segment) (v : string) (rs rest : list string) :
  let ref := ("RFF", String "V" (String "A" (String ":" v)) :: rs) in
  (exists rec refs,
      parties (pre ++ [ref]) !! "IV" = Some rec
      /\ rec !! "refs" = Some (PDict refs)
      /\ refs !! "VAT" = Some v
      /\ forall k, k <> "refs" -> rec !! k = default ∅ (parties pre !! "IV") !! k)
  /\ exists rec',
      parties (pre ++ [ref; ("NAD", "IV" :: rest)]) !! "IV" = Some rec'
      /\ rec' !! "refs" = None.
Proof.
  intros ref. split.
  - unfold parties. rewrite fold_left_app. cbn [fold_left].
    destruct (fold_left parties_step pre (∅, None)) as [ps cta].
    unfold ref. rewrite parties_step_vat. cbn [fst].
    eexists _, _. rewrite lookup_insert_eq. split; [reflexivity|].
    rewrite lookup_insert_eq. split; [reflexivity|].
    rewrite lookup_insert_eq. split; [reflexivity|].
    intros k Hk. now rewrite lookup_insert_ne by congruence.
  - exists (nad_record ("IV" :: rest)). split; [|reflexivity].
    unfold parties. rewrite fold_left_app. cbn [fold_left].
    destruct (fold_left parties_step pre (∅, None)) as [ps cta].
    unfold ref. rewrite parties_step_vat, parties_step_nad. cbn [fst].
    apply lookup_insert_eq.
Qed.

(** The record under ["CTA"] has the role [r]. *)
Lemma parties_step_role (st : gmap string (gmap string party_value) * option string)
    (s : segment) (r : string) :
  is_tag "CTA" s = false -> is_nad_for "CTA" s = false ->
  (exists rec, fst st !! "CTA" = Some rec /\ rec !! "role" = Some (PStr r)) ->
  exists rec, fst (parties_step st s) !! "CTA" = Some rec /\ rec !! "role" = Some (PStr r).
Proof.
  destruct st as [ps cta], s as [tag elems].
  unfold is_nad_for, is_tag, parties_step; cbn [tag_of elems_of fst snd].
  intros Htag Hq (rec & Hrec & Hrole). destruct elems as [|e0 more]; [eauto|].
  destruct (String.eqb tag "NAD"); cbn [andb] in Hq.
  { cbn [fst]. apply String.eqb_neq in Hq. rewrite lookup_insert_ne by assumption. eauto. }
  rewrite Htag. destruct (String.eqb tag "COM").
  { cbn [fst]. unfold setdefault_store. rewrite lookup_insert_eq, Hrec. cbn [default].
    eexists. split; [reflexivity|]. now rewrite lookup_insert_ne by discriminate. }
  destruct (String.eqb tag "RFF" && Py.startswith "VA:" e0); [|eauto].
  cbn [fst]. rewrite lookup_insert_ne by discriminate. eauto.
Qed.

(** X15. After a contact segment [CTA+r], a communication segment sets
    the phone on the same synthetic party: as long as no other contact
    segment and no [NAD+CTA] segment stands between the two, the party
    ["CTA"] holds the role [r] and the phone read before the first
    sub-element separator of the communication element. *)
Theorem parties_contact_then_phone (pre mid : list segment) (r t : string)
    (rs ts : list string) :
  Forall (fun s => is_tag "CTA" s = false /\ is_nad_for "CTA" s = false) mid ->
  exists rec,
    parties (pre ++ ("CTA", r :: rs) :: mid ++ [("COM", t :: ts)]) !! "CTA" = Some rec
    /\ rec !! "role" = Some (PStr r)
    /\ rec !! "tel" = Some (PStr (head_or_empty (Py.split ":" t))).
Proof.
  intros Hmid. unfold parties.
  change (pre ++ ("CTA", r :: rs) :: mid ++ [("COM", t :: ts)])
    with (pre ++ [("CTA", r :: rs)] ++ mid ++ [("COM", t :: ts)]).
  rewrite !fold_left_app. cbn [fold_left].
  destruct (fold_left parties_step pre (∅, None)) as [ps cta].
  change (parties_step (ps, cta) ("CTA", r :: rs))
    with (setdefault_store "CTA" "role" (PStr r) ps, Some r).
  assert (H : exists rec,
             fst (fold_left parties_step mid
                    (setdefault_store "CTA" "role" (PStr r) ps, Some r)) !! "CTA" = Some rec
             /\ rec !! "role" = Some (PStr r)).
  { generalize (Some r). intros c.
    assert (H0 : exists rec, fst (setdefault_store "CTA" "role" (PStr r) ps, c) !! "CTA"
                             = Some rec /\ rec !! "role" = Some (PStr r)).
    { cbn [fst]. unfold setdefault_store. rewrite lookup_insert_eq.
      eexists. split; [reflexivity | apply lookup_insert_eq]. }
    revert H0. generalize (setdefault_store "CTA" "role" (PStr r) ps, c).
    induction Hmid as [|s rest [Hs1 Hs2] _ IH]; intros st H0; [exact H0|].
    cbn [fold_left]. apply IH. now apply parties_step_role. }
  destruct H as (rec & Hrec & Hrole).
  destruct (fold_left parties_step mid _) as [ps' cta']. cbn [fst] in Hrec.
  rewrite parties_step_com. cbn [fst]. unfold setdefault_store.
  rewrite lookup_insert_eq, Hrec. cbn [default].
  eexists. split; [reflexivity|]. split.
  - now rewrite lookup_insert_ne by discriminate.
  - apply lookup_insert_eq.
Qed.

Lemma parties_contact_then_phone_witness :
  exists rec,
    parties [("CTA", ["TR"]); ("RFF", ["VA:FR1"]); ("COM", ["0161081000:TE"])] !! "CTA"
      = Some rec
    /\ rec !! "role" = Some (PStr "TR")
    /\ rec !! "tel" = Some (PStr "0161081000").
Proof.
  apply (parties_contact_then_phone [] [("RFF", ["VA:FR1"])] "TR" "0161081000:TE" [] []).
  repeat constructor.
Defined.

(** ** Shipment decoder: one record per group, groups independent *)

Lemma until_gid_app (r b : list segment) (s : segment) :
  is_tag "GID" s = true -> until_gid (r ++ s :: b) = until_gid r.
Proof.
  intros Hs. induction r as [|x r IH]; cbn [app until_gid].
  - now rewrite Hs.
  - destruct (is_tag "GID" x); [reflexivity | now rewrite IH].
Qed.

Lemma scan_app (a b : list segment) (s : segment) :
  is_tag "GID" s = true ->
  groups_by_scan (a ++ s :: b) = groups_by_scan a ++ groups_by_scan (s :: b).
Proof.
  intros Hs. induction a as [|x a IH]; [reflexivity|].
  cbn [app]. cbn [groups_by_scan]. fold (groups_by_scan (a ++ s :: b)).
  destruct (is_tag "GID" x); [|exact IH].
  now rewrite until_gid_app, IH.
Qed.

Lemma scan_no_gid (a : list segment) : gid_count a = 0 -> groups_by_scan a = [].
Proof.
  intros H. pose proof (scan_length a) as Hl. rewrite H in Hl.
  now destruct (groups_by_scan a).
Qed.

Lemma shipments_loop_acc (fy : Z -> string) (groups : list (list segment))
    (acc : list shipment) :
  shipments_loop fy groups acc
  = try! l := shipments_loop fy groups [] in Ok (acc ++ l).
Proof.
  revert acc. induction groups as [|g rest IH]; intros acc; cbn [shipments_loop].
  - cbn [bind]. now rewrite app_nil_r.
  - destruct (shipment_of_group fy g) as [r|e]; cbn [bind]; [|reflexivity].
    rewrite (IH (acc ++ [r])), (IH ([] ++ [r])).
    destruct (shipments_loop fy rest []) as [l|e]; cbn [bind]; [|reflexivity].
    now rewrite <- app_assoc.
Qed.

Lemma shipments_loop_app (fy : Z -> string) (g1 g2 : list (list segment)) :
  shipments_loop fy (g1 ++ g2) []
  = both (shipments_loop fy g1 []) (shipments_loop fy g2 []).
Proof.
  unfold both. induction g1 as [|g rest IH]; cbn [app shipments_loop].
  - cbn [bind]. now destruct (shipments_loop fy g2 []).
  - destruct (shipment_of_group fy g) as [r|e]; cbn [bind]; [|reflexivity].
    rewrite (shipments_loop_acc fy (rest ++ g2)), (shipments_loop_acc fy rest), IH.
    destruct (shipments_loop fy rest []) as [l1|e]; cbn [bind]; [|reflexivity].
    destruct (shipments_loop fy g2 []) as [l2|e]; cbn [bind]; [|reflexivity].
    now rewrite app_assoc.
Qed.

(** X16. Shipments are decoded group by group and nothing carries over
    from one group to the next: cutting the sequence before any grouping
    segment, the shipments of the whole are the shipments of the part
    before the cut followed by the shipments of the part from the cut on,
    the first error met in that order being the error of the whole; and
    the segments that come before the first grouping segment take no part
    in the result. *)
Theorem shipments_group_independent (fy : Z -> string) (a b : list segment)
    (s : segment) :
  is_tag "GID" s = true ->
  shipments fy (a ++ s :: b) = both (shipments fy a) (shipments fy (s :: b))
  /\ (gid_count a = 0 -> shipments fy (a ++ s :: b) = shipments fy (s :: b)).
Proof.
  intros Hs. unfold shipments. rewrite !shipment_groups_scan, (scan_app a b s Hs).
  split; [apply shipments_loop_app|].
  intros H0. now rewrite (scan_no_gid a H0).
Qed.

Lemma shipments_group_independent_witness :
  shipments PyDate.year_plain
    ([("NAD", ["CN"; ""; "Ada"])] ++ ("GID", ["1"; "2:PK"]) :: [("TMD", ["3"])])
  = shipments PyDate.year_plain (("GID", ["1"; "2:PK"]) :: [("TMD", ["3"])]).
Proof.
  apply (shipments_group_independent PyDate.year_plain
           [("NAD", ["CN"; ""; "Ada"])] [("TMD", ["3"])] ("GID", ["1"; "2:PK"]));
    reflexivity.
Defined.

Lemma shipments_loop_records (fy : Z -> string) (groups : list (list segment))
    (l : list shipment) :
  shipments_loop fy groups [] = Ok l ->
  Forall2 (fun g r => shipment_of_group fy g = Ok r) groups l.
Proof.
  revert l. induction groups as [|g rest IH]; intros l; cbn [shipments_loop].
  - intros [= <-]. constructor.
  - destruct (shipment_of_group fy g) as [r|e] eqn:E; cbn [bind]; [|discriminate].
    rewrite shipments_loop_acc.
    destruct (shipments_loop fy rest []) as [l'|e]; cbn [bind]; [|discriminate].
    intros [= <-]. constructor; [exact E | now apply IH].
Qed.

Lemma shipment_step_items (fy : Z -> string) (r r' : shipment) (s : segment) :
  shipment_step fy r s = Ok r' -> items r' = items r.
Proof.
  destruct s as [tag elems]. unfold shipment_step, mea_store.
  destruct elems as [|e0 more]; [intros [= <-]; reflexivity|].
  repeat match goal with
  | |- context [if ?b then _ else _] => destruct b
  | |- context [match ?l with [] => _ | _ :: _ => _ end] => destruct l
  | |- context [let '(_, _) := ?p in _] => destruct p
  | |- context [match ?o with Some _ => _ | None => _ end] => destruct o
  | |- context [bind ?x _] => destruct x; cbn [bind]
  | |- Ok _ = Ok _ -> _ => intros [= <-]; reflexivity
  | |- Raise _ = Ok _ -> _ => discriminate
  end.
Qed.

Lemma group_items (fy : Z -> string) (g : list segment) (r : shipment) :
  shipment_of_group fy g = Ok r -> items r = _extract_items_from_pci g.
Proof.
  unfold shipment_of_group.
  destruct (for_each (shipment_step fy) g empty_record); cbn [bind]; [|discriminate].
  now intros [= <-].
Qed.

(** X17. When the shipment decoder returns, it returns one record for
    each grouping segment, in order, and the items of each record are
    the items the extractor reads from that record's group alone. *)
Theorem shipments_one_record_per_group (fy : Z -> string) (segs : list segment)
    (l : list shipment) :
  shipments fy segs = Ok l ->
  length l = gid_count segs
  /\ map items l = map _extract_items_from_pci (_shipment_groups segs).
Proof.
  unfold shipments. intros H. apply shipments_loop_records in H.
  rewrite <- (scan_length segs), <- shipment_groups_scan.
  induction H as [|g r gs rs Hg _ [IHl IHi]]; [split; reflexivity|].
  cbn [length map]. rewrite IHl, IHi, (group_items fy g r Hg). now split.
Qed.

Lemma shipments_one_record_per_group_witness :
  exists l,
    shipments PyDate.year_plain
      [("GID", ["1"; "2:PK"]); ("PCI", ["ZZZ"; "x:1:EA:5,00:5,00"]); ("RFF", ["VP:B01"]);
       ("GID", ["2"])] = Ok l
    /\ length l = 2
    /\ map items l
       = [_extract_items_from_pci
            [("GID", ["1"; "2:PK"]); ("PCI", ["ZZZ"; "x:1:EA:5,00:5,00"]);
             ("RFF", ["VP:B01"])];
          _extract_items_from_pci [("GID", ["2"])]].
Proof.
  eexists. split; [vm_compute; reflexivity|].
  apply (shipments_one_record_per_group PyDate.year_plain
           [("GID", ["1"; "2:PK"]); ("PCI", ["ZZZ"; "x:1:EA:5,00:5,00"]);
            ("RFF", ["VP:B01"]); ("GID", ["2"])]).
  vm_compute. reflexivity.
Defined.

(** ** Shipment decoder: the two ways it fails *)

Lemma split_length (c : ascii) (s : string) :
  length (Py.split c s) = S (count_char c s).
Proof.
  induction s as [|x s IH]; [reflexivity|].
  cbn [Py.split count_char]. destruct (Ascii.eqb x c); cbn [length Nat.add].
  - now rewrite IH.
  - destruct (Py.split c s); [discriminate IH | exact IH].
Qed.

Lemma contains_count (c : ascii) (s : string) :
  Py.contains c s = Nat.leb 1 (count_char c s).
Proof.
  induction s as [|x s IH]; [reflexivity|].
  cbn [Py.contains count_char]. destruct (Ascii.eqb x c); [reflexivity | exact IH].
Qed.

Lemma mea_store_result (key : string) (elems : list string) (r : shipment) :
  if Nat.leb 2 (count_char ":" (last_or_empty elems))
  then mea_store key elems r = Raise ValueError
  else exists r', mea_store key elems r = Ok r'.
Proof.
  unfold mea_store. rewrite contains_count.
  pose proof (split_length ":" (last_or_empty elems)) as Hl.
  destruct (count_char ":" (last_or_empty elems)) as [|[|n]]; cbn [Nat.leb].
  - eauto.
  - destruct (Py.split ":" (last_or_empty elems)) as [|a [|b [|c l]]]; try discriminate Hl.
    cbn. eauto.
  - destruct (Py.split ":" (last_or_empty elems)) as [|a [|b [|c l]]]; try discriminate Hl.
    reflexivity.
Qed.

Lemma shipment_step_result (fy : Z -> string) (r : shipment) (s : segment) :
  if bad_quantity s || bad_weight s
  then exists e, shipment_step fy r s = Raise e
  else exists r', shipment_step fy r s = Ok r'.
Proof.
  destruct s as [tag elems]. unfold bad_quantity, bad_weight, is_tag, shipment_step.
  cbn [tag_of elems_of fst snd].
  destruct elems as [|e0 more].
  { rewrite !andb_false_r. cbn. eauto. }
  destruct (String.eqb_spec tag "GID") as [-> | _].
  { change (String.eqb "GID" "MEA") with false. cbn [andb]. rewrite orb_false_r.
    destruct more as [|e1 more]; [eauto|].
    destruct (Py.contains ":" e1); cbn [andb]; [|eauto].
    unfold quantity_unreadable, is_nonfinite.
    destruct (PyFloat.float _) as [[sg | sg | | sg m e] | e]; cbn; eauto. }
  cbn [andb orb].
  destruct (String.eqb_spec tag "MEA") as [-> | _].
  { change (String.eqb "MEA" "TMD") with false.
    change (String.eqb "MEA" "LOC") with false.
    change (String.eqb "MEA" "MOA") with false.
    change (String.eqb "MEA" "FTX") with false.
    change (String.eqb "MEA" "NAD") with false.
    cbn [andb]. cbv iota.
    pose proof (mea_store_result "gross_kg" (e0 :: more) r) as Hg.
    pose proof (mea_store_result "declared_kg" (e0 :: more) r) as Hd.
    destruct (String.eqb e0 "WT"); cbn [orb andb].
    { destruct (Nat.leb 2 _); [rewrite Hg|]; eauto. }
    destruct (String.eqb e0 "WX"); cbn [orb andb]; [|eauto].
    destruct (Nat.leb 2 _); [rewrite Hd|]; eauto. }
  cbn [andb].
  repeat match goal with
  | |- context [if ?b then _ else _] => destruct b
  | |- context [match ?l with [] => _ | _ :: _ => _ end] => destruct l
  | |- context [let '(_, _) := ?p in _] => destruct p
  | |- context [match ?o with Some _ => _ | None => _ end] => destruct o
  | |- exists r', Ok _ = Ok r' => eexists; reflexivity
  end.
Qed.

Lemma step_fold_result (fy : Z -> string) (g : list segment) (r : shipment) :
  (exists r', for_each (shipment_step fy) g r = Ok r')
  <-> Forall (fun s => bad_quantity s = false /\ bad_weight s = false) g.
Proof.
  revert r. induction g as [|s rest IH]; intros r.
  - split; [constructor | intros _; now exists r].
  - cbn [for_each]. pose proof (shipment_step_result fy r s) as Hs.
    destruct (bad_quantity s || bad_weight s) eqn:E.
    + destruct Hs as [e ->]. cbn [bind]. split.
      * intros [? H]. discriminate H.
      * intros H. inversion H as [|? ? [H1 H2] ?]; subst.
        rewrite H1, H2 in E. discriminate E.
    + apply orb_false_iff in E. destruct Hs as [r1 ->]. cbn [bind]. rewrite IH. split.
      * intros H. now constructor.
      * intros H. now inversion H.
Qed.

Lemma shipments_loop_cons (fy : Z -> string) (g : list segment)
    (rest : list (list segment)) :
  shipments_loop fy (g :: rest) []
  = try! r := shipment_of_group fy g in
    try! l := shipments_loop fy rest [] in Ok (r :: l).
Proof.
  cbn [shipments_loop]. destruct (shipment_of_group fy g) as [r|e]; cbn [bind]; [|reflexivity].
  now rewrite shipments_loop_acc.
Qed.

Lemma loop_result (fy : Z -> string) (groups : list (list segment)) :
  (exists l, shipments_loop fy groups [] = Ok l)
  <-> Forall (fun s => bad_quantity s = false /\ bad_weight s = false) (concat groups).
Proof.
  induction groups as [|g rest IH].
  - split; [constructor | intros _; now exists []].
  - rewrite shipments_loop_cons. cbn [concat].
    rewrite Forall_app, <- IH, <- (step_fold_result fy g empty_record).
    unfold shipment_of_group. split.
    + intros [l H].
      destruct (for_each (shipment_step fy) g empty_record); cbn [bind] in H; [|discriminate].
      destruct (shipments_loop fy rest []); cbn [bind] in H; [|discriminate]. eauto.
    + intros [[r ->] [l ->]]. cbn [bind]. eauto.
Qed.

(** X18. The shipment decoder fails in two ways only, and only from
    the first grouping segment on: it returns its records exactly when no
    grouping segment carries, before the sub-element separator of its
    second element, a quantity that [float()] rejects or reads as a NaN or
    an infinity, and no gross or declared weight segment has a last element
    with two or more sub-element separators.  Dates, amounts, dimensions
    and references of any shape never make it fail. *)
Theorem shipments_fail_on_quantity_or_weight (fy : Z -> string) (segs : list segment) :
  (exists l, shipments fy segs = Ok l)
  <-> Forall (fun s => bad_quantity s = false /\ bad_weight s = false) (from_gid segs).
Proof.
  unfold shipments. now rewrite loop_result, shipment_groups_scan, scan_concat.
Qed.

(** ** Shipment decoder: each field has its segment *)







(** ** Shipment decoder: units of measure *)

Lemma shipment_step_mea (fy : Z -> string) (r : shipment) (w : string)
    (rest : list string) :
  shipment_step fy r ("MEA", w :: rest)
  = if String.eqb w "WT" then mea_store "gross_kg" (w :: rest) r
    else if String.eqb w "WX" then mea_store "declared_kg" (w :: rest) r
    else Ok r.
Proof. reflexivity. Qed.

Lemma shipment_step_dim (fy : Z -> string) (r : shipment) (q comp : string)
    (more : list string) :
  shipment_step fy r ("DIM", q :: comp :: more)
  = match (if Py.truthy comp then Py.split ":" comp else []) with
    | _ :: p1 :: p2 :: p3 :: _ =>
        Ok (set_dimensions_cm
              (<["height" := _to_float (Some p3)]>
                 (<["width" := _to_float (Some p2)]>
                    (<["length" := _to_float (Some p1)]> ∅))) r)
    | _ => Ok r
    end.
Proof. reflexivity. Qed.

Lemma mea_store_unit (key : string) (pre : list string) (u u' v : string)
    (r : shipment) :
  Py.contains ":" u = false -> Py.contains ":" u' = false ->
  mea_store key (pre ++ [u +:+ String ":" v]) r
  = mea_store key (pre ++ [u' +:+ String ":" v]) r.
Proof.
  intros Hu Hu'. unfold mea_store, last_or_empty. rewrite !last_last.
  rewrite !contains_app. cbn [Py.contains]. rewrite Ascii.eqb_refl, !orb_true_r.
  rewrite !split_app_sep by assumption.
  now destruct (Py.split ":" v) as [|b [|c l]].
Qed.

(** X20. The unit of measure of a weight or of a dimension is never
    looked at: a [MEA] segment whose last element is [unit:value] and a
    [DIM] segment whose second element is [unit:length:width:height] give
    the same record for every unit free of the sub-element separator, so a
    weight in pounds is stored as kilograms and a dimension in inches as
    centimetres. *)
Theorem measure_units_ignored (fy : Z -> string) (r : shipment)
    (w q u u' v dims : string) (mid more : list string) :
  Py.contains ":" u = false -> Py.contains ":" u' = false ->
  shipment_step fy r ("MEA", w :: mid ++ [u +:+ String ":" v])
  = shipment_step fy r ("MEA", w :: mid ++ [u' +:+ String ":" v])
  /\ shipment_step fy r ("DIM", q :: (u +:+ String ":" dims) :: more)
     = shipment_step fy r ("DIM", q :: (u' +:+ String ":" dims) :: more).
Proof.
  intros Hu Hu'. split.
  - rewrite !shipment_step_mea.
    change (w :: mid ++ [u +:+ String ":" v]) with ((w :: mid) ++ [u +:+ String ":" v]).
    change (w :: mid ++ [u' +:+ String ":" v]) with ((w :: mid) ++ [u' +:+ String ":" v]).
    now rewrite !(mea_store_unit _ (w :: mid) u u' v r Hu Hu').
  - rewrite !shipment_step_dim.
    assert (Ht : forall x, Py.truthy (x +:+ String ":" dims) = true)
      by (intros x; now destruct x).
    rewrite !Ht, !split_app_sep by assumption. reflexivity.
Qed.

Lemma measure_units_ignored_witness :
  shipment_step PyDate.year_plain empty_record ("MEA", "WT" :: ["G"] ++ ["KGM:3.00"])
  = shipment_step PyDate.year_plain empty_record ("MEA", "WT" :: ["G"] ++ ["LBR:3.00"])
  /\ shipment_step PyDate.year_plain empty_record ("DIM", "2" :: "CMT:10.0:50.0:12.0" :: [])
     = shipment_step PyDate.year_plain empty_record ("DIM", "2" :: "INH:10.0:50.0:12.0" :: []).
Proof.
  apply (measure_units_ignored PyDate.year_plain empty_record
           "WT" "2" "KGM" "LBR" "3.00" "10.0:50.0:12.0" ["G"] []); reflexivity.
Defined.

(** ** Item extractor: one item per product reference *)

Lemma items_step_codes (s : segment) its p :
  map (fun it : gmap string item_value => it !! "asin") (fst (items_step (its, p) s))
  = map (fun it : gmap string item_value => it !! "asin") its
    ++ (if is_product_ref s then [product_code s] else []).
Proof.
  destruct s as [tag elems]. unfold is_product_ref, is_tag, product_code, items_step.
  cbn [tag_of elems_of fst snd].
  destruct elems as [|e0 more]; [now rewrite andb_false_r, app_nil_r|].
  destruct (String.eqb_spec tag "PCI") as [-> | _]; [cbn; now rewrite app_nil_r|].
  destruct (String.eqb tag "RFF" && Py.startswith "VP:" e0); cbn [fst];
    [|now rewrite app_nil_r].
  rewrite map_app. cbn [map head_or_empty]. now rewrite lookup_insert_eq.
Qed.

Lemma items_run_codes (segs : list segment) st :
  map (fun it : gmap string item_value => it !! "asin") (fst (items_run segs st))
  = map (fun it : gmap string item_value => it !! "asin") (fst st)
    ++ map product_code (List.filter is_product_ref segs).
Proof.
  unfold items_run. revert st.
  induction segs as [|s rest IH]; intros st; cbn [fold_left List.filter];
    [now rewrite app_nil_r|].
  rewrite IH. destruct st as [its p]. rewrite items_step_codes. cbn [fst].
  destruct (is_product_ref s); cbn [map]; [now rewrite <- app_assoc | now rewrite app_nil_r].
Qed.

Lemma items_run_filter (segs : list segment) st :
  items_run segs st = items_run (List.filter is_item_seg segs) st.
Proof.
  unfold items_run, is_item_seg. revert st.
  induction segs as [|s rest IH]; intros st; cbn [fold_left List.filter]; [reflexivity|].
  destruct (is_item_line s) eqn:El; cbn [orb fold_left]; [apply IH|].
  destruct (is_product_ref s) eqn:Er; cbn [fold_left]; [apply IH|].
  rewrite (items_step_other s st El Er). apply IH.
Qed.

(** X21. The item extractor reads item lines and product references
    only, and it returns one item for each product reference, in order,
    whose product code is the text after the qualifier of that reference:
    the number of items of a group is its number of [RFF+VP] segments,
    whatever the number of [PCI] segments. *)
Theorem extract_items_one_per_reference (segs : list segment) :
  _extract_items_from_pci segs = _extract_items_from_pci (List.filter is_item_seg segs)
  /\ map (fun it : gmap string item_value => it !! "asin") (_extract_items_from_pci segs)
     = map product_code (List.filter is_product_ref segs)
  /\ length (_extract_items_from_pci segs) = length (List.filter is_product_ref segs).
Proof.
  rewrite !extract_items_run. split; [now rewrite <- items_run_filter|].
  pose proof (items_run_codes segs ([], None)) as H. cbn [fst map app] in H.
  split; [exact H|].
  apply (f_equal (@length _)) in H. now rewrite !length_map in H.
Qed.

(** ** Table of shipments: rows, indexes, and when there is a table *)

Lemma rows_of_shipment (fname : string) (hdr : gmap string string) (i : Z)
    (sh : shipment) :
  map (row_get "shipment_index") (map (row_of fname hdr i sh) (items_or_blank sh))
  = replicate (rows_taken (length (items sh))) (Some (VInt i)).
Proof.
  unfold items_or_blank, rows_taken. destruct (items sh) as [|it its]; [reflexivity|].
  change (Nat.max 1 (length (it :: its))) with (length (it :: its)).
  induction (it :: its) as [|x l IH]; [reflexivity|].
  cbn [map length replicate]. now rewrite IH.
Qed.

Lemma rows_loop_index (fname : string) (hdr : gmap string string) (shs : list shipment)
    (i : Z) :
  map (row_get "shipment_index") (rows_loop fname hdr i shs)
  = concat (imap (fun k sh => replicate (rows_taken (length (items sh)))
                                (Some (VInt (i + Z.of_nat k)))) shs).
Proof.
  revert i. induction shs as [|sh rest IH]; intros i; [reflexivity|].
  cbn [rows_loop imap concat]. rewrite map_app, rows_of_shipment, IH, Z.add_0_r.
  f_equal. f_equal. apply imap_ext. intros k x _. cbn. do 3 f_equal. lia.
Qed.

Lemma rows_loop_length (fname : string) (hdr : gmap string string) (shs : list shipment)
    (i : Z) :
  length (rows_loop fname hdr i shs)
  = list_sum (map (fun sh => rows_taken (length (items sh))) shs).
Proof.
  revert i. induction shs as [|sh rest IH]; intros i; [reflexivity|].
  cbn [rows_loop map list_sum]. rewrite length_app, length_map, IH. f_equal.
  unfold items_or_blank, rows_taken. now destruct (items sh).
Qed.

(** X22. Every shipment has its rows in the table, numbered from 1:
    the [k]-th shipment takes one row for each of its items, all with the
    index [k], and a single row when it has no item; in that row the four
    item columns are [None]. *)
Theorem rows_per_shipment (fname : string) (hdr : gmap string string)
    (shs : list shipment) :
  map (row_get "shipment_index") (rows_loop fname hdr 1 shs)
  = concat (imap (fun k sh => replicate (rows_taken (length (items sh)))
                                (Some (VInt (1 + Z.of_nat k)))) shs)
  /\ length (rows_loop fname hdr 1 shs)
     = list_sum (map (fun sh => rows_taken (length (items sh))) shs)
  /\ forall i sh, items sh = [] ->
       exists r, rows_loop fname hdr i [sh] = [r]
         /\ row_get "asin" r = Some VNone /\ row_get "qty" r = Some VNone
         /\ row_get "uom" r = Some VNone /\ row_get "unit_price_try" r = Some VNone.
Proof.
  split; [apply rows_loop_index|]. split; [apply rows_loop_length|].
  intros i sh H. cbn [rows_loop]. unfold items_or_blank. rewrite H.
  eexists. split; [reflexivity|]. now repeat split.
Qed.

Lemma rows_per_shipment_witness :
  exists r,
    rows_loop "a.edi" ∅ 1 [set_packages 2 empty_record] = [r]
    /\ row_get "asin" r = Some VNone /\ row_get "qty" r = Some VNone
    /\ row_get "uom" r = Some VNone /\ row_get "unit_price_try" r = Some VNone.
Proof.
  exact (proj2 (proj2 (rows_per_shipment "a.edi" ∅ []))
           1%Z (set_packages 2 empty_record) eq_refl).
Defined.

Lemma file_rows_result (fy : Z -> string) (fname content : string) :
  (exists rows, file_rows fy fname content = Ok rows) <-> decodable content.
Proof.
  unfold file_rows, decodable.
  rewrite <- (counts_fold_result (split_segments content) ∅).
  rewrite <- scan_concat, <- shipment_groups_scan, <- (loop_result fy).
  fold (counts_and_amounts (split_segments content)).
  fold (shipments fy (split_segments content)).
  split.
  - intros [rows H].
    destruct (counts_and_amounts _); cbn [bind] in H; [|discriminate].
    destruct (shipments fy _); cbn [bind] in H; [|discriminate]. eauto.
  - intros [[cnt ->] [l ->]]. cbn [bind]. eauto.
Qed.

Lemma all_rows_result (fy : Z -> string) (files : list (string * string))
    (acc : list row) :
  (exists rows,
      for_each (fun acc (f : string * string) =>
                  try! rows := file_rows fy (fst f) (snd f) in Ok (acc ++ rows))
        files acc = Ok rows)
  <-> Forall (fun f => decodable (snd f)) files.
Proof.
  revert acc. induction files as [|f rest IH]; intros acc.
  - split; [constructor | intros _; now exists acc].
  - cbn [for_each]. pose proof (file_rows_result fy (fst f) (snd f)) as Hf. split.
    + intros [rows H].
      destruct (file_rows fy (fst f) (snd f)) as [r|e]; cbn [bind] in H; [|discriminate].
      constructor; [apply Hf; eauto | apply (IH (acc ++ r)); eauto].
    + intros H. inversion H as [|? ? Hd Hrest]; subst.
      apply Hf in Hd as [r ->]. cbn [bind]. now apply IH.
Qed.

Lemma sum_rows_items (l : list shipment) (groups : list (list segment)) :
  map items l = map _extract_items_from_pci groups ->
  list_sum (map (fun sh => rows_taken (length (items sh))) l)
  = list_sum (map (fun g => rows_taken (length (List.filter is_product_ref g))) groups).
Proof.
  revert groups. induction l as [|sh l IH]; intros [|g groups] H; try discriminate H;
    [reflexivity|].
  cbn [map] in H. injection H as Hsh Hl. cbn [map].
  assert (Hcons : forall (x : nat) (xs : list nat), list_sum (x :: xs) = x + list_sum xs)
    by reflexivity.
  rewrite !Hcons, (IH groups Hl), Hsh. do 2 f_equal.
  pose proof (items_run_codes g ([], None)) as Hc. cbn [fst map app] in Hc.
  apply (f_equal (@length _)) in Hc. rewrite !length_map in Hc. exact Hc.
Qed.

(** X23. The table of shipments exists exactly when every text is
    accepted by the counts decoder and by the shipment decoder: one count
    that reads as a NaN or an infinity, one unreadable package quantity or
    one weight with two separators, in any file, and the script stops
    before any row is shown.  When a file is accepted, its number of rows
    is read off its text: for each group of the tokenized text, the number
    of product references of the group, and one row for a group without
    any. *)
Theorem table_rows (fy : Z -> string) (files : list (string * string)) :
  ((exists rows, all_rows fy files = Ok rows)
   <-> Forall (fun f => decodable (snd f)) files)
  /\ forall fname content rows,
       file_rows fy fname content = Ok rows ->
       length rows
       = list_sum (map (fun g => rows_taken (length (List.filter is_product_ref g)))
                     (_shipment_groups (split_segments content))).
Proof.
  split; [apply all_rows_result|].
  intros fname content rows. unfold file_rows.
  destruct (counts_and_amounts _); cbn [bind]; [|discriminate].
  destruct (shipments fy (split_segments content)) as [l|e] eqn:E; cbn [bind];
    [|discriminate].
  intros [= <-]. rewrite rows_loop_length. apply sum_rows_items.
  unfold shipments in E. apply shipments_loop_records in E.
  induction E as [|g r gs rs Hg _ IH]; [reflexivity|].
  cbn [map]. now rewrite IH, (group_items fy g r Hg).
Qed.

Lemma table_rows_witness :
  exists rows,
    file_rows PyDate.year_plain "a.edi"
      "GID+1+2:PK'PCI+ZZZ+x:1:EA:5,00:5,00'RFF+VP:B01'RFF+VP:B02'GID+2'" = Ok rows
    /\ length rows = 3.
Proof.
  eexists. split; [vm_compute; reflexivity|].
  apply (proj2 (table_rows PyDate.year_plain []) "a.edi"
           "GID+1+2:PK'PCI+ZZZ+x:1:EA:5,00:5,00'RFF+VP:B01'RFF+VP:B02'GID+2'").
  vm_compute. reflexivity.
Defined.

(** ** Shipment decoder: the keys of a record *)











